(** * The CMI market-making bot ([im.py]) and its order-book normaliser

    A shallow embedding of the trading engine of [im.py]
    ([CMIBot] and [SmartMarketMakingBot]) and of the order-book wrapper of
    [Improved version.py].

    Conventions of the embedding.
    - A Python [int] is a [Z].
    - A finite Python [float] is idealised as an exact rational [Q]; the only
      non-finite value that the engine can produce from finite inputs, the
      NaN that [pandas.Series.std] returns on a single observation, is kept
      apart in [pyfloat].  Rounding error and overflow are not modelled.
    - A [dict] that is only read and written by key is a [gmap]; the
      ledger [open_orders_local], whose items are iterated in insertion
      order, is an association list.
    - Exceptions are values of [result]; the mutable bot is threaded through
      the state-and-error monad [M], in which a raise keeps the state that
      was reached.
    - Everything the interpreter draws from outside (clock, random numbers,
      HTTP answers, [math.log], [float(str)]) is read from an [Env]; the
      field [clock] of the bot counts the reads.
    - The ladders of the order-book wrapper are also built from messages of
      arbitrary JSON values, with prices that may be infinite or NaN, in
      [Ladder]; on rational prices and integer volumes the two agree.
    - The first market maker, the liquidity taker and the test order bot of
      [bots/] are embedded after the engine. *)

From Stdlib Require Import ZArith QArith Qround Qabs Lia Lqa Sorting.Sorted.
From stdpp Require Import base option list strings gmap pretty.

(** ** Python numbers *)

Module PyNum.

Definition Qltb (a b : Q) : bool :=
  match (a ?= b)%Q with Lt => true | _ => false end.

Definition Qleb (a b : Q) : bool :=
  match (a ?= b)%Q with Gt => false | _ => true end.

(** [round(x)] on a float: nearest integer, ties to the even one. *)
Definition py_round (x : Q) : Z :=
  let f := Qfloor x in
  match (x - inject_Z f ?= 1 # 2)%Q with
  | Lt => f
  | Gt => (f + 1)%Z
  | Eq => if Z.even f then f else (f + 1)%Z
  end.

(** [int(x)] on a float: truncation toward zero. *)
Definition py_int (x : Q) : Z := Z.quot (Qnum x) (Z.pos (Qden x)).

(** [max(a, b)]: [b] when [b > a], else [a]. *)
Definition py_max (a b : Q) : Q := if Qltb a b then b else a.

(** A float that may be NaN. *)
Inductive pyfloat : Type :=
| Fin (q : Q)
| NaN.

Definition flift2 (op : Q -> Q -> Q) (a b : pyfloat) : pyfloat :=
  match a, b with
  | Fin x, Fin y => Fin (op x y)
  | _, _ => NaN
  end.

Definition fadd := flift2 Qplus.
Definition fsub := flift2 Qminus.
Definition fmul := flift2 Qmult.
(** Division by a non-zero constant only; [x / 0.0] raises and is guarded
    where it can occur. *)
Definition fdiv := flift2 Qdiv.

End PyNum.
Export PyNum.

Declare Scope pyfloat_scope.
Delimit Scope pyfloat_scope with F.
Bind Scope pyfloat_scope with pyfloat.
Infix "+" := fadd : pyfloat_scope.
Infix "-" := fsub : pyfloat_scope.
Infix "*" := fmul : pyfloat_scope.
Infix "/" := fdiv : pyfloat_scope.

(** ** Exceptions and the bot monad *)

Inductive exn : Type :=
| KeyError
| ZeroDivisionError
| ValueError.

Inductive result (A : Type) : Type :=
| Ok (a : A)
| Raise (e : exn).
Arguments Ok {A} a.
Arguments Raise {A} e.

Definition rbind {A B : Type} (r : result A) (k : A -> result B) : result B :=
  match r with
  | Ok a => k a
  | Raise e => Raise e
  end.

(** ** Data model *)

Inductive Side : Type := BUY | SELL.

Definition Side_eqb (a b : Side) : bool :=
  match a, b with
  | BUY, BUY | SELL, SELL => true
  | _, _ => false
  end.

(** The [payload] dictionary of [send_order]. *)
Record Payload : Type := mkPayload {
  p_product : string;
  p_side : Side;
  p_price : Q;
  p_volume : Z
}.

(** An order dictionary: [{"id": oid, **payload, "status": "OPEN"}]. *)
Record Order : Type := mkOrder {
  o_id : string;
  o_payload : Payload;
  o_status : string
}.

(** A row of the [flight_data] frame; [None] is a timestamp that
    [pd.to_datetime(..., errors="coerce")] turns into NaT. *)
Record Flight : Type := mkFlight {
  on_ground : bool;
  has_crossed_equator : bool;
  last_update_time : option Z
}.

(** The fields of [SmartMarketMakingBot] that the loop only reads. *)
Record Config : Type := mkConfig {
  min_tick_width : Q;
  base_volume : Z;
  inventory_limit : Z;
  skew_coeff : Q;
  vol_coeff : Q;
  levels : Z;
  jitter : Q
}.

(** The defaults of the dataclass. *)
Definition default_config : Config :=
  {| min_tick_width := 2;
     base_volume := 10;
     inventory_limit := 100;
     skew_coeff := 3 # 100;
     vol_coeff := 200;
     levels := 2;
     jitter := 2 # 10 |}.

(** An insertion-ordered [dict] with string keys. *)
Module PyDict.
Section Dict.
Context {V : Type}.

Fixpoint get (d : list (string * V)) (k : string) : option V :=
  match d with
  | [] => None
  | (k', v) :: d' => if String.eqb k' k then Some v else get d' k
  end.

(** [d[k] = v]: overwrite in place, or append a new key at the end. *)
Fixpoint set (d : list (string * V)) (k : string) (v : V) : list (string * V) :=
  match d with
  | [] => [(k, v)]
  | (k', v') :: d' =>
      if String.eqb k' k then (k', v) :: d' else (k', v') :: set d' k v
  end.

(** [{k: f(k) for k in ks}]. *)
Definition of_keys (ks : list string) (f : string -> V) : list (string * V) :=
  fold_left (fun d k => set d k (f k)) ks [].
End Dict.
End PyDict.

(** The mutable bot.  [clock] and [gateway_log] are ghost fields: the number
    of reads made from the environment, and the payloads handed to
    [send_order] so far (oldest first). *)
Record Bot : Type := mkBot {
  simulate_mode : bool;
  products : list string;
  inventory : gmap string Z;
  open_orders_local : list (string * list Order);
  recent_mid : gmap string (list Q);
  flight_data : list Flight;
  config : Config;
  tick_sizes : gmap string Q;
  clock : nat;
  gateway_log : list Payload
}.

Definition set_inventory (f : gmap string Z -> gmap string Z) (b : Bot) : Bot :=
  mkBot (simulate_mode b) (products b) (f (inventory b)) (open_orders_local b)
        (recent_mid b) (flight_data b) (config b) (tick_sizes b) (clock b) (gateway_log b).

Definition set_open_orders_local
    (f : list (string * list Order) -> list (string * list Order)) (b : Bot) : Bot :=
  mkBot (simulate_mode b) (products b) (inventory b) (f (open_orders_local b))
        (recent_mid b) (flight_data b) (config b) (tick_sizes b) (clock b) (gateway_log b).

Definition set_recent_mid
    (f : gmap string (list Q) -> gmap string (list Q)) (b : Bot) : Bot :=
  mkBot (simulate_mode b) (products b) (inventory b) (open_orders_local b)
        (f (recent_mid b)) (flight_data b) (config b) (tick_sizes b) (clock b) (gateway_log b).

Definition set_flight_data (df : list Flight) (b : Bot) : Bot :=
  mkBot (simulate_mode b) (products b) (inventory b) (open_orders_local b)
        (recent_mid b) df (config b) (tick_sizes b) (clock b) (gateway_log b).

Definition set_clock (f : nat -> nat) (b : Bot) : Bot :=
  mkBot (simulate_mode b) (products b) (inventory b) (open_orders_local b)
        (recent_mid b) (flight_data b) (config b) (tick_sizes b) (f (clock b)) (gateway_log b).

Definition set_gateway_log (f : list Payload -> list Payload) (b : Bot) : Bot :=
  mkBot (simulate_mode b) (products b) (inventory b) (open_orders_local b)
        (recent_mid b) (flight_data b) (config b) (tick_sizes b) (clock b) (f (gateway_log b)).

Definition M (A : Type) : Type := Bot -> result A * Bot.

Definition ret {A : Type} (a : A) : M A := fun b => (Ok a, b).

Definition bind {A B : Type} (m : M A) (k : A -> M B) : M B :=
  fun b =>
    match m b with
    | (Ok a, b') => k a b'
    | (Raise e, b') => (Raise e, b')
    end.

Definition raise {A : Type} (e : exn) : M A := fun b => (Raise e, b).

Definition lift {A : Type} (r : result A) : M A := fun b => (r, b).

Definition get_bot : M Bot := fun b => (Ok b, b).

Definition modify (f : Bot -> Bot) : M unit := fun b => (Ok tt, f b).

Notation "x <- m ;; k" := (bind m (fun x => k))
  (at level 62, m at next level, right associativity).
Notation "m ;;; k" := (bind m (fun _ => k))
  (at level 62, right associativity).

(** [for x in xs: body(x)]; a raise leaves the loop. *)
Fixpoint for_each {A : Type} (xs : list A) (body : A -> M unit) : M unit :=
  match xs with
  | [] => ret tt
  | x :: xs' => body x ;;; for_each xs' body
  end.

(** [[f(x) for x in xs]] where [f] has effects. *)
Fixpoint map_m {A B : Type} (f : A -> M B) (xs : list A) : M (list B) :=
  match xs with
  | [] => ret []
  | x :: xs' => y <- f x ;; ys <- map_m f xs' ;; ret (y :: ys)
  end.

(** ** The environment *)

Record Env : Type := mkEnv {
  math_log : Q -> Q;                 (* math.log *)
  math_sqrt : Q -> Q;                (* the square root inside Series.std *)
  py_float : string -> option Q;     (* float(s); None is a ValueError *)
  random_random : nat -> Q;          (* random.random(), in [0, 1) *)
  random_randint : nat -> Z;         (* random.randint(0, 999) *)
  random_normal : nat -> Q;          (* random.normalvariate(0, 0.002) *)
  time_ms : nat -> Z;                (* int(time.time() * 1000) *)
  utc_now : nat -> Z;                (* datetime.now(utc), in microseconds *)
  http_post_order : nat -> Payload -> option Order;
                                     (* POST /api/order: the JSON of a 200 *)
  http_current_orders : nat -> list (option string);
                                     (* GET /api/order/current-user: the ids *)
  http_delete_order : nat -> string -> bool
                                     (* DELETE /api/order/<id>: status 200? *)
}.

(** ** [CMIBot] *)

Section Engine.

Variable env : Env.

(** One read from the environment: the index of the read. *)
Definition tick : M nat :=
  fun b => (Ok (clock b), set_clock S b).

(** *** Flight data and theos *)

Definition five_minutes : Z := 300000000.

Definition number_crossed_equator (b : Bot) : Z :=
  Z.of_nat (length (List.filter has_crossed_equator (flight_data b))).

Definition in_air (now : Z) (f : Flight) : bool :=
  negb (on_ground f) &&
  match last_update_time f with
  | Some t => (now - t <? five_minutes)%Z
  | None => false
  end.

Definition number_of_flights_in_air (now : Z) (b : Bot) : Z :=
  Z.of_nat (length (List.filter (in_air now) (flight_data b))).

Definition theos (now : Z) (b : Bot) : gmap string Q :=
  <["EQUATOR" := (100 + (1 # 2) * inject_Z (number_crossed_equator b))%Q]>
    (<["FLIGHTS" := (200 + (2 # 10) * inject_Z (number_of_flights_in_air now b))%Q]> ∅).

(** [self.theos.get(product, 100.0)] *)
Definition theo_of (now : Z) (b : Bot) (product : string) : Q :=
  default 100%Q (theos now b !! product).

(** *** Mid-price history *)

(** [hist.append(mid); if len(hist) > 200: hist.pop(0)] *)
Definition push_mid (hist : list Q) (mid : Q) : list Q :=
  let hist' := hist ++ [mid] in
  if (200 <? length hist')%nat then tail hist' else hist'.

(** [self.recent_mid[p].append(mid)] and the eviction, under the lock. *)
Definition record_mid (p : string) (mid : Q) : M unit :=
  b <- get_bot ;;
  match recent_mid b !! p with
  | None => raise KeyError
  | Some hist => modify (set_recent_mid (<[p := push_mid hist mid]>))
  end.

(** One pass of the [while True] of [_simulate_market_updates]. *)
Definition _simulate_market_updates : M unit :=
  b <- get_bot ;;
  for_each (products b) (fun p =>
    k <- tick ;;
    b <- get_bot ;;
    let theo := theo_of (utc_now env k) b p in
    let mid := (theo * (1 + random_normal env k))%Q in
    record_mid p mid).

(** *** Volatility estimate *)

(** [l[-window:]]; note that [l[-0:]] is the whole list and that a negative
    [window] drops a prefix. *)
Definition last_window {A : Type} (l : list A) (window : Z) : list A :=
  if (0 <? window)%Z then drop (length l - Z.to_nat window) l
  else drop (Z.to_nat (- window)) l.

(** [[math.log(arr[i+1]/arr[i]) for i in range(len(arr)-1)
      if arr[i] > 0 and arr[i+1] > 0]] *)
Fixpoint log_returns (arr : list Q) : list Q :=
  match arr with
  | a :: (c :: _) as rest =>
      if Qltb 0 a && Qltb 0 c then math_log env (c / a) :: log_returns rest
      else log_returns rest
  | _ => []
  end.

Definition Qsum (l : list Q) : Q := foldr Qplus 0%Q l.

Definition series_mean (l : list Q) : Q :=
  (Qsum l / inject_Z (Z.of_nat (length l)))%Q.

(** [pd.Series(l).std()]: normalised by N-1, NaN below two observations. *)
Definition series_std (l : list Q) : pyfloat :=
  if (length l <? 2)%nat then NaN
  else
    let m := series_mean l in
    let ss := Qsum ((fun x => (x - m) * (x - m))%Q <$> l) in
    Fin (math_sqrt env (ss / inject_Z (Z.of_nat (length l) - 1))%Q).

Definition _get_vol_est (b : Bot) (product : string) (window : Z) : pyfloat :=
  let arr := last_window (default [] (recent_mid b !! product)) window in
  if (length arr <? 2)%nat then Fin 0
  else
    let logs := log_returns arr in
    match logs with
    | [] => Fin 0
    | _ => series_std logs
    end.

Definition _get_sim_mid (b : Bot) (product : string) : option Q :=
  last (default [] (recent_mid b !! product)).

(** *** The ledger and the simulated matching engine *)

(** [self.open_orders_local[product]], a KeyError if the key is missing. *)
Definition orders_of (product : string) : M (list Order) :=
  b <- get_bot ;;
  match PyDict.get (open_orders_local b) product with
  | None => raise KeyError
  | Some lst => ret lst
  end.

Definition id_differs (oid : string) (o : Order) : bool :=
  negb (String.eqb (o_id o) oid).

Definition signed_volume (side : Side) (vol : Z) : Z :=
  match side with
  | BUY => vol
  | SELL => (- vol)%Z
  end.

Definition _simulate_fill (product : string) (order : Order) : M unit :=
  lst <- orders_of product ;;
  modify (set_open_orders_local (fun d =>
    PyDict.set d product (List.filter (id_differs (o_id order)) lst))) ;;;
  let side := p_side (o_payload order) in
  let vol := p_volume (o_payload order) in
  modify (set_inventory (fun inv =>
    <[product := (default 0%Z (inv !! product) + signed_volume side vol)%Z]> inv)).

(** [f"sim-{int(time.time()*1000)}-{random.randint(0,999)}"] *)
Definition sim_order_id (k : nat) : string :=
  "sim-" +:+ pretty (time_ms env k) +:+ "-" +:+ pretty (random_randint env k).

Definition marketable (side : Side) (price mid : Q) : bool :=
  (Side_eqb side BUY && Qleb mid price) || (Side_eqb side SELL && Qleb price mid).

Definition send_order (product : string) (price : Q) (side : Side) (volume : Z)
  : M (option Order) :=
  let payload := mkPayload product side price volume in
  modify (set_gateway_log (fun l => l ++ [payload])) ;;;
  b <- get_bot ;;
  k <- tick ;;
  if simulate_mode b then
    let oid := sim_order_id k in
    let order := mkOrder oid payload "OPEN" in
    lst <- orders_of product ;;
    modify (set_open_orders_local (fun d => PyDict.set d product (lst ++ [order]))) ;;;
    b <- get_bot ;;
    match _get_sim_mid b product with
    | Some mid =>
        if marketable side price mid then _simulate_fill product order
        else ret tt
    | None => ret tt
    end ;;;
    ret (Some order)
  else
    match http_post_order env k payload with
    | Some data =>
        b <- get_bot ;;
        match PyDict.get (open_orders_local b) product with
        | Some lst =>
            modify (set_open_orders_local (fun d => PyDict.set d product (lst ++ [data]))) ;;;
            ret (Some data)
        | None => ret None       (* the KeyError is caught and printed *)
        end
    | None => ret None
    end.

(** [cancel_order] in simulate mode: the items are visited in insertion
    order, and the visit stops at the first list that lost an order. *)
Fixpoint cancel_in (d : list (string * list Order)) (order_id : string)
  : list (string * list Order) * bool :=
  match d with
  | [] => ([], false)
  | (p, lst) :: d' =>
      let lst' := List.filter (id_differs order_id) lst in
      if (length lst' <? length lst)%nat then ((p, lst') :: d', true)
      else
        let (d'', found) := cancel_in d' order_id in
        ((p, lst') :: d'', found)
  end.

Definition cancel_order (order_id : string) : M bool :=
  b <- get_bot ;;
  if simulate_mode b then
    let (d, found) := cancel_in (open_orders_local b) order_id in
    modify (set_open_orders_local (fun _ => d)) ;;;
    ret found
  else
    k <- tick ;;
    ret (http_delete_order env k order_id).

(** In simulate mode the ledger is replaced by [{k: [] for k in products}];
    in live mode the orders listed by the exchange are cancelled one by one
    over HTTP. *)
Definition cancel_all_orders : M unit :=
  b <- get_bot ;;
  if simulate_mode b then
    modify (set_open_orders_local (fun _ => PyDict.of_keys (products b) (fun _ => [])))
  else
    k <- tick ;;
    for_each (http_current_orders env k) (fun o =>
      match o with
      | Some oid => cancel_order oid ;;; ret tt
      | None => ret tt
      end).

(** *** The order-book wrapper *)

(** One entry [vi] of a raw side: the fields that [transform] reads. *)
Record RawLevel : Type := mkRawLevel {
  vi_price : option Q;
  vi_marketVolume : option Z;
  vi_volume : option Z;
  vi_userVolume : option Z
}.

(** A raw order-book message; a side is the list of the items of its
    dictionary, keyed by the price as a string. *)
Record RawBook : Type := mkRawBook {
  raw_productsymbol : option string;
  raw_product : option string;
  raw_buyOrders : option (list (string * RawLevel));
  raw_sellOrders : option (list (string * RawLevel))
}.

Record Level : Type := mkLevel {
  price : Q;
  volume : Z;
  own_volume : Z
}.

Record OrderBook : Type := mkOrderBook {
  ob_product : string;
  buy_orders : list Level;
  sell_orders : list Level
}.

(** [sorted(l, key=key)]: stable, ascending in the key. *)
Fixpoint insert_by {A : Type} (key : A -> Q) (x : A) (l : list A) : list A :=
  match l with
  | [] => [x]
  | y :: l' => if Qleb (key x) (key y) then x :: l else y :: insert_by key x l'
  end.

Definition sorted {A : Type} (l : list A) (key : A -> Q) : list A :=
  foldr (insert_by key) [] l.

Definition transform_level (price_s : string) (vi : RawLevel) : Level :=
  let price :=
    match py_float env price_s with
    | Some q => q
    | None => default 0%Q (vi_price vi)
    end in
  let market_v :=
    match vi_marketVolume vi with
    | Some v => v
    | None => default 0%Z (vi_volume vi)
    end in
  let user_v := default 0%Z (vi_userVolume vi) in
  mkLevel price market_v user_v.

Definition transform (side : list (string * RawLevel)) : list Level :=
  (fun '(price_s, vi) => transform_level price_s vi) <$> side.

(** The dictionary [ob] that [_on_orderbook_wrapper] builds. *)
Definition normalize_orderbook (raw : RawBook) : OrderBook :=
  let product :=
    match raw_productsymbol raw with
    | Some s => s
    | None => default "UNKNOWN" (raw_product raw)
    end in
  mkOrderBook product
    (sorted (transform (default [] (raw_buyOrders raw))) (fun d => (- price d)%Q))
    (sorted (transform (default [] (raw_sellOrders raw))) (fun d => price d)).

(** [try: ... except Exception: print(...)] *)
Definition try_except (m : M unit) : M unit :=
  fun b =>
    match m b with
    | (_, b') => (Ok tt, b')
    end.

(** [on_orderbook] of [SmartMarketMakingBot] is [pass]. *)
Definition on_orderbook (ob : OrderBook) : M unit := ret tt.

Definition _on_orderbook_wrapper (raw : RawBook) : M unit :=
  try_except (
    let ob := normalize_orderbook raw in
    match buy_orders ob, sell_orders ob with
    | best_bid :: _, best_ask :: _ =>
        record_mid (ob_product ob) ((1 # 2) * (price best_bid + price best_ask))%Q
    | _, _ => ret tt
    end ;;;
    on_orderbook ob).

(** The wrapper of [Improved version.py]: [float(price)] and the two volume
    keys may raise. *)
Definition improved_level (price_s : string) (volumes : RawLevel) : result Level :=
  match py_float env price_s with
  | None => Raise ValueError
  | Some p =>
      match vi_marketVolume volumes, vi_userVolume volumes with
      | Some mv, Some uv => Ok (mkLevel p mv uv)
      | _, _ => Raise KeyError
      end
  end.

Fixpoint improved_levels (side : list (string * RawLevel)) : result (list Level) :=
  match side with
  | [] => Ok []
  | (price_s, volumes) :: side' =>
      rbind (improved_level price_s volumes) (fun l =>
      rbind (improved_levels side') (fun ls => Ok (l :: ls)))
  end.

Definition improved_on_orderbook_wrapper (raw : RawBook) : result OrderBook :=
  let product := default "UNKNOWN" (raw_productsymbol raw) in
  rbind (improved_levels (default [] (raw_buyOrders raw))) (fun buys =>
  rbind (improved_levels (default [] (raw_sellOrders raw))) (fun sells =>
  Ok (mkOrderBook product
        (sorted buys (fun d => (- price d)%Q))
        (sorted sells (fun d => price d))))).

(** ** [SmartMarketMakingBot] *)

Definition _price_to_tick (px : pyfloat) (tick_size : Q) : result Q :=
  if Qeq_bool tick_size 0 then Raise ZeroDivisionError
  else
    match px with
    | NaN => Raise ValueError
    | Fin p => Ok (inject_Z (py_round (p / tick_size)) * tick_size)%Q
    end.

Definition _compute_half_spread_ticks (b : Bot) (product : string) : pyfloat :=
  let vol := _get_vol_est b product 30 in
  let dynamic_ticks :=
    (Fin (py_max (min_tick_width (config b)) 1) + vol * Fin (vol_coeff (config b)))%F in
  let inv := Z.abs (default 0%Z (inventory b !! product)) in
  let dynamic_ticks := (dynamic_ticks + Fin ((2 # 100) * inject_Z inv))%F in
  (dynamic_ticks / Fin 2)%F.

(** [range(lo, hi)] *)
Definition py_range (lo hi : Z) : list Z :=
  (fun i => (lo + Z.of_nat i)%Z) <$> seq 0 (Z.to_nat (hi - lo)).

(** The body of [for lvl in range(1, self.levels+1)], with [r] the value
    drawn by [random.random()]. *)
Definition quote_level (cfg : Config) (center : Q) (half_spread_price : pyfloat)
    (tick_size : Q) (aggressive : bool) (lvl : Z) (r : Q) : result (Q * Q) :=
  let offset := (half_spread_price * Fin (1 + (1 # 2) * inject_Z (lvl - 1)))%F in
  let j := ((r - (1 # 2)) * jitter cfg * tick_size)%Q in
  let buy_px := (Fin center - offset + Fin j)%F in
  let sell_px := (Fin center + offset + Fin j)%F in
  let buy_px := if aggressive then (buy_px + Fin (1 # 2) * offset)%F else buy_px in
  let sell_px := if aggressive then (sell_px - Fin (1 # 2) * offset)%F else sell_px in
  rbind (_price_to_tick buy_px tick_size) (fun buy_px =>
  rbind (_price_to_tick sell_px tick_size) (fun sell_px =>
  Ok (buy_px, sell_px))).

(** The loop body from the read of the tick size up to the list [levels],
    for the fair value [theo] that its first line has read: spread, skew,
    centre, size, the call of [cancel_all_orders], and the price levels. *)
Definition levels_around (product : string) (theo : Q) : M (Z * list (Q * Q)) :=
  b <- get_bot ;;
  let cfg := config b in
  let tick_size := default 1%Q (tick_sizes b !! product) in
  let inv := default 0%Z (inventory b !! product) in
  let half_ticks := _compute_half_spread_ticks b product in
  let half_spread_price := (half_ticks * Fin tick_size)%F in
  let skew := (skew_coeff cfg * inject_Z inv * tick_size)%Q in
  rounded <- lift (_price_to_tick (Fin theo) tick_size) ;;
  let center := (rounded - skew)%Q in
  let level_qty :=
    if (inventory_limit cfg <? Z.abs inv)%Z
    then Z.max 1 (py_int (inject_Z (base_volume cfg) * (2 # 10)))
    else base_volume cfg in
  let aggressive :=
    Qltb (inject_Z (inventory_limit cfg) * (8 # 10)) (inject_Z (Z.abs inv)) in
  cancel_all_orders ;;;
  lvls <- map_m (fun lvl =>
            k <- tick ;;
            lift (quote_level cfg center half_spread_price tick_size aggressive
                    lvl (random_random env k)))
          (py_range 1 (levels cfg + 1)) ;;
  ret (level_qty, lvls).

(** The loop body up to the list [levels]; its first line reads the fair
    value, [self.theos.get(product, 100.0)]. *)
Definition compute_levels (product : string) : M (Z * list (Q * Q)) :=
  k <- tick ;;
  b <- get_bot ;;
  levels_around product (theo_of (utc_now env k) b product).

(** [for (buy_px, sell_px) in levels: if buy_px < sell_px: ...] *)
Definition submit_levels (product : string) (level_qty : Z) (lvls : list (Q * Q))
  : M unit :=
  for_each lvls (fun '(buy_px, sell_px) =>
    if Qltb buy_px sell_px then
      send_order product buy_px BUY level_qty ;;;
      send_order product sell_px SELL level_qty ;;;
      ret tt
    else ret tt).

Definition market_make_product (product : string) : M unit :=
  ql <- compute_levels product ;;
  submit_levels product (fst ql) (snd ql).

(** One pass of the [while True] of [_market_make_loop]; a raise is caught,
    printed, and ends the pass. *)
Definition _market_make_loop : M unit :=
  try_except (
    b <- get_bot ;;
    for_each (products b) market_make_product).

(** [__post_init__]: the state a bot starts from. *)
Definition post_init (simulate : bool) (ps : list string) (cfg : Config) : Bot :=
  {| simulate_mode := simulate;
     products := ps;
     inventory := list_to_map ((fun p => (p, 0%Z)) <$> ps);
     open_orders_local := PyDict.of_keys ps (fun _ => []);
     recent_mid := list_to_map ((fun p => (p, [])) <$> ps);
     flight_data := [];
     config := cfg;
     tick_sizes := list_to_map ((fun p => (p, 1%Q)) <$> ps);
     clock := 0;
     gateway_log := [] |}.

(** ** Operations on a running bot

    What the threads of the process do to the bot, one atomic action each. *)
Inductive Op : Type :=
| OpSendOrder (product : string) (px : Q) (side : Side) (vol : Z)
| OpCancelOrder (order_id : string)
| OpCancelAll
| OpMarketUpdates
| OpOrderbook (raw : RawBook)
| OpPullFlightData (df : list Flight)
| OpMarketMake.

Definition run_op (op : Op) (b : Bot) : Bot :=
  match op with
  | OpSendOrder product px side vol => snd (send_order product px side vol b)
  | OpCancelOrder order_id => snd (cancel_order order_id b)
  | OpCancelAll => snd (cancel_all_orders b)
  | OpMarketUpdates => snd (_simulate_market_updates b)
  | OpOrderbook raw => snd (_on_orderbook_wrapper raw b)
  | OpPullFlightData df => set_flight_data df b
  | OpMarketMake => snd (_market_make_loop b)
  end.

Definition run_ops (ops : list Op) (b : Bot) : Bot :=
  fold_left (fun b op => run_op op b) ops b.

End Engine.

(** ** Vocabulary of the statements *)

(** [m] takes every bot [b] to a bot related to [b] by [R], whether it
    returns or raises. *)
Definition preserves {A : Type} (R : Bot -> Bot -> Prop) (m : M A) : Prop :=
  forall b, R b (snd (m b)).

(** The field [f] is left as it was. *)
Definition keeps {X : Type} (f : Bot -> X) : Bot -> Bot -> Prop :=
  fun b b' => f b' = f b.

(** Every mid-price history holds at most 200 entries. *)
Definition hist_bounded (b : Bot) : Prop :=
  map_Forall (fun _ hist => (length hist <= 200)%nat) (recent_mid b).

(** A step that cannot break [hist_bounded]. *)
Definition hist_step (b b' : Bot) : Prop :=
  hist_bounded b -> hist_bounded b'.

(** Every history of [b'] is the one of [b] with mid prices pushed into it. *)
Definition only_pushes (b b' : Bot) : Prop :=
  forall p : string, exists mids : list Q,
    recent_mid b' !! p = fold_left push_mid mids <$> recent_mid b !! p.

(** The gateway log only grows, and the inventory moves only if it grew. *)
Definition inventory_moves_with_log (b b' : Bot) : Prop :=
  gateway_log b `prefix_of` gateway_log b' /\
  (gateway_log b' = gateway_log b -> inventory b' = inventory b).

(** What the gate of [submit_levels] lets through for one level. *)
Definition gated_pair (product : string) (level_qty : Z) (lvl : Q * Q) : list Payload :=
  if Qltb (fst lvl) (snd lvl)
  then [mkPayload product BUY (fst lvl) level_qty;
        mkPayload product SELL (snd lvl) level_qty]
  else [].

(** Two floats that denote the same number. *)
Definition feq (x y : pyfloat) : Prop :=
  match x, y with
  | Fin a, Fin c => (a == c)%Q
  | NaN, NaN => True
  | _, _ => False
  end.

(** [[f(x) for x in xs]] for an [f] that may raise. *)
Fixpoint map_r {A B : Type} (f : A -> result B) (xs : list A) : result (list B) :=
  match xs with
  | [] => Ok []
  | x :: xs' => rbind (f x) (fun y => rbind (map_r f xs') (fun ys => Ok (y :: ys)))
  end.

(** The quantity and the price levels of a cycle as a function of the
    configuration, the fair value, the tick size, the inventory and the
    volatility estimate alone: the computation of [compute_levels] with the
    jitter term at zero. *)
Definition zero_jitter_levels (cfg : Config) (theo tick_size : Q) (inv : Z)
    (vol : pyfloat) : result (Z * list (Q * Q)) :=
  let dynamic_ticks :=
    (Fin (py_max (min_tick_width cfg) 1) + vol * Fin (vol_coeff cfg)
     + Fin ((2 # 100) * inject_Z (Z.abs inv)))%F in
  let half_spread_price := (dynamic_ticks / Fin 2 * Fin tick_size)%F in
  let skew := (skew_coeff cfg * inject_Z inv * tick_size)%Q in
  rbind (_price_to_tick (Fin theo) tick_size) (fun rounded =>
  let center := (rounded - skew)%Q in
  let level_qty :=
    if (inventory_limit cfg <? Z.abs inv)%Z
    then Z.max 1 (py_int (inject_Z (base_volume cfg) * (2 # 10)))
    else base_volume cfg in
  let aggressive :=
    Qltb (inject_Z (inventory_limit cfg) * (8 # 10)) (inject_Z (Z.abs inv)) in
  rbind (map_r (fun lvl =>
                  quote_level cfg center half_spread_price tick_size aggressive
                    lvl (1 # 2))
               (py_range 1 (levels cfg + 1))) (fun lvls =>
  Ok (level_qty, lvls))).

(** The configuration of the end-to-end scenario: [min_tick_width=2],
    [base_volume=10], [levels=1], [jitter=0], the other fields at their
    defaults. *)
Definition scenario_config : Config :=
  {| min_tick_width := 2;
     base_volume := 10;
     inventory_limit := 100;
     skew_coeff := 3 # 100;
     vol_coeff := 200;
     levels := 1;
     jitter := 0 |}.

(** [send_order] on [product] cannot meet a missing ledger key. *)
Definition can_send (product : string) (b : Bot) : Prop :=
  simulate_mode b = true -> is_Some (PyDict.get (open_orders_local b) product).

Definition can_send_step (product : string) (b b' : Bot) : Prop :=
  can_send product b -> can_send product b'.

(** Price ladders: every level is priced at or below (at or above) each
    level that comes before it. *)
Definition non_increasing (l : list Level) : Prop :=
  StronglySorted (fun a c => (price c <= price a)%Q) l.

Definition non_decreasing (l : list Level) : Prop :=
  StronglySorted (fun a c => (price a <= price c)%Q) l.

Definition book_sorted (ob : OrderBook) : Prop :=
  non_increasing (buy_orders ob) /\ non_decreasing (sell_orders ob).

(** A payload that [submit_levels] may send for the levels [lvls]: one side
    of a level whose buy price is strictly below its sell price. *)
Definition from_uncrossed_level (product : string) (level_qty : Z)
    (lvls : list (Q * Q)) (pl : Payload) : Prop :=
  exists buy_px sell_px : Q,
    In (buy_px, sell_px) lvls /\ (buy_px < sell_px)%Q /\
    (pl = mkPayload product BUY buy_px level_qty \/
     pl = mkPayload product SELL sell_px level_qty).

(** The bot after a simulated submission, spelled out: the call is logged,
    one read is made, the order is appended, and a marketable order is
    filtered out again by its identifier and moves the inventory. *)
Definition after_sim_send (env : Env) (b : Bot) (lst : list Order) (p : string) (px : Q)
    (s : Side) (v : Z) (filled : bool) : Bot :=
  let order := mkOrder (sim_order_id env (clock b)) (mkPayload p s px v) "OPEN" in
  let b1 := set_clock S (set_gateway_log (fun l => l ++ [mkPayload p s px v]) b) in
  let b2 := set_open_orders_local (fun d => PyDict.set d p (lst ++ [order])) b1 in
  if filled then
    set_inventory
      (fun inv => <[p := (default 0%Z (inv !! p) + signed_volume s v)%Z]> inv)
      (set_open_orders_local
         (fun d => PyDict.set d p (List.filter (id_differs (o_id order)) (lst ++ [order])))
         b2)
  else b2.

(** The samples of a window that the estimate can use: the positive ones. *)
Definition usable_samples (arr : list Q) : list Q :=
  List.filter (Qltb 0) arr.

(** The volatility estimate as the specification words it: zero below two
    usable samples of the window, else the sample standard deviation of the
    log returns of the window. *)
Definition spec_vol_est (env : Env) (hist : list Q) (window : Z) : pyfloat :=
  let arr := last_window hist window in
  if (length (usable_samples arr) <? 2)%nat then Fin 0
  else series_std env (log_returns env arr).

(** The same with the other reading of "skipping any non-positive price":
    the log returns between successive usable samples. *)
Definition spec_vol_est_skipping (env : Env) (hist : list Q) (window : Z) : pyfloat :=
  let arr := usable_samples (last_window hist window) in
  if (length arr <? 2)%nat then Fin 0
  else series_std env (log_returns env arr).

(** ** Concrete inputs *)

(** An environment whose clock stands still and whose draws never change:
    [random.random()] gives 0.5, [random.randint(0, 999)] gives 7, the
    exchange refuses every order.  Its logarithm and square root are crude
    rational stand-ins. *)
Definition frozen_env : Env :=
  {| math_log := fun x => (x - 1)%Q;
     math_sqrt := fun x => x;
     py_float := fun _ => None;
     random_random := fun _ => (1 # 2)%Q;
     random_randint := fun _ => 7%Z;
     random_normal := fun _ => 0%Q;
     time_ms := fun _ => 1700000000000%Z;
     utc_now := fun _ => 1700000000000000%Z;
     http_post_order := fun _ _ => None;
     http_current_orders := fun _ => [];
     http_delete_order := fun _ _ => false |}.

(** Another environment: the draws of [random.random()] walk through
    [0, 1), the clock advances, the exchange accepts every order. *)
Definition moving_env : Env :=
  {| math_log := fun x => (x - 1)%Q;
     math_sqrt := fun x => x;
     py_float := fun _ => None;
     random_random := fun k => (Z.of_nat k # Pos.of_succ_nat k)%Q;
     random_randint := fun k => (Z.of_nat k mod 1000)%Z;
     random_normal := fun _ => (1 # 1000)%Q;
     time_ms := fun k => (1700000000000 + Z.of_nat k)%Z;
     utc_now := fun k => (1700000000000000 + 1000 * Z.of_nat k)%Z;
     http_post_order := fun k pl => Some (mkOrder (pretty k) pl "OPEN");
     http_current_orders := fun _ => [];
     http_delete_order := fun _ _ => true |}.

(** A fresh simulated bot on EQUATOR with the configuration of the scenario:
    no flight has crossed the equator, so the fair value is 100; the tick is
    1, the inventory 0, and the empty history gives a volatility of 0. *)
Definition scenario_bot : Bot :=
  post_init true ["EQUATOR"] scenario_config.

(** A live bot with the default configuration on a product that the exchange
    lists and [theos] does not know. *)
Definition gold_bot : Bot :=
  post_init false ["GOLD"] default_config.

(** The same with the configuration of the scenario. *)
Definition gold_scenario_bot : Bot :=
  post_init false ["GOLD"] scenario_config.

(** A simulated bot whose last mid price of EQUATOR is 100. *)
Definition mid100_bot : Bot :=
  set_recent_mid (fun m => <["EQUATOR" := [100%Q]]> m)
    (post_init true ["EQUATOR"] default_config).

(** A bot whose history of EQUATOR holds a non-positive price between two
    positive ones. *)
Definition gap_bot : Bot :=
  set_recent_mid (fun m => <["EQUATOR" := [100%Q; 0%Q; 100%Q]]> m)
    (post_init true ["EQUATOR"] default_config).


(** A bot whose history of EQUATOR holds two positive prices, hence a single
    log return. *)
Definition two_sample_bot : Bot :=
  set_recent_mid (fun m => <["EQUATOR" := [100%Q; 101%Q]]> m)
    (post_init true ["EQUATOR"] default_config).

(** A step of a live bot: it stays live, its inventory stays as it is, and
    every list of its ledger is only extended. *)
Definition live_step (b b' : Bot) : Prop :=
  simulate_mode b = false ->
  simulate_mode b' = false /\
  inventory b' = inventory b /\
  (forall p lst, PyDict.get (open_orders_local b) p = Some lst ->
     exists more, PyDict.get (open_orders_local b') p = Some (lst ++ more)).

(** Every product of the bot is a key of the ledger and of the mid-price
    histories, and has tick size 1. *)
Definition well_keyed (b : Bot) : Prop :=
  forall p : string, In p (products b) ->
    is_Some (PyDict.get (open_orders_local b) p) /\
    is_Some (recent_mid b !! p) /\
    tick_sizes b !! p = Some 1%Q.

Definition well_keyed_step (b b' : Bot) : Prop :=
  well_keyed b -> well_keyed b'.

(** No key is lost and the product list and the tick sizes stay. *)
Definition keys_kept (b b' : Bot) : Prop :=
  products b' = products b /\
  tick_sizes b' = tick_sizes b /\
  (forall p, is_Some (PyDict.get (open_orders_local b) p) ->
             is_Some (PyDict.get (open_orders_local b') p)) /\
  (forall p, is_Some (recent_mid b !! p) -> is_Some (recent_mid b' !! p)).

(** The fields that no action writes. *)
Definition static_fields (b : Bot) : bool * list string * Config * gmap string Q :=
  (simulate_mode b, products b, config b, tick_sizes b).

(** An item of a raw side that the wrapper of [Improved version.py] accepts:
    the key reads as a number and both volume keys are present. *)
Definition level_parses (env : Env) (kv : string * RawLevel) : bool :=
  bool_decide (is_Some (py_float env (fst kv))) &&
  bool_decide (is_Some (vi_marketVolume (snd kv))) &&
  bool_decide (is_Some (vi_userVolume (snd kv))).

(** Every order of the ledger is filed under the product of its payload,
    is OPEN, and has a payload that went through [send_order]. *)
Definition filed_ok (b : Bot) : Prop :=
  forall p lst, PyDict.get (open_orders_local b) p = Some lst ->
    Forall (fun o => p_product (o_payload o) = p /\ o_status o = "OPEN" /\
                     In (o_payload o) (gateway_log b)) lst.

(** A step of a simulated bot: it stays simulated and keeps [filed_ok]. *)
Definition sim_step (b b' : Bot) : Prop :=
  simulate_mode b = true ->
  simulate_mode b' = true /\ (filed_ok b -> filed_ok b').

(** ** The ladders of the order-book wrapper, with every float

    [normalize_orderbook] above reads a price key as a rational and a volume
    as an integer, which is what the exchange sends.  Python's [float] also
    returns the infinities and NaN, [int] raises on a value it cannot
    convert, and [sorted] compares with [<], which is False on NaN.  The
    definitions of this module build the two ladders of the wrapper from a
    message of arbitrary JSON values, so that these cases are in reach. *)
Module Ladder.

(** A Python float: the finite ones as rationals, the infinities, NaN. *)
Inductive pykey : Type :=
| NegInf
| Num (q : Q)
| PosInf
| NotANumber.

(** [a < b] on floats. *)
Definition lt (a b : pykey) : bool :=
  match a, b with
  | NotANumber, _ => false
  | _, NotANumber => false
  | NegInf, NegInf => false
  | NegInf, _ => true
  | Num x, Num y => Qltb x y
  | Num _, PosInf => true
  | Num _, NegInf => false
  | PosInf, _ => false
  end.

(** [-a] *)
Definition neg (a : pykey) : pykey :=
  match a with
  | NegInf => PosInf
  | Num q => Num (- q)
  | PosInf => NegInf
  | NotANumber => NotANumber
  end.

Definition is_nan (a : pykey) : bool :=
  match a with
  | NotANumber => true
  | _ => false
  end.

(** [a == b] on floats. *)
Definition eqb (a b : pykey) : bool :=
  match a, b with
  | NegInf, NegInf => true
  | Num x, Num y => Qeq_bool x y
  | PosInf, PosInf => true
  | _, _ => false
  end.

(** [a <= b] as a proposition about the numbers: no NaN is below or above
    anything. *)
Definition le (a b : pykey) : Prop :=
  match a, b with
  | NotANumber, _ => False
  | _, NotANumber => False
  | NegInf, _ => True
  | _, PosInf => True
  | Num x, Num y => (x <= y)%Q
  | _, _ => False
  end.

(** The stable sort by [<]: an item goes before the first item that is not
    below it. *)
Fixpoint insert_lt {A : Type} (key : A -> pykey) (x : A) (l : list A) : list A :=
  match l with
  | [] => [x]
  | y :: l' => if lt (key y) (key x) then y :: insert_lt key x l' else x :: l
  end.

Definition stable_sort {A : Type} (l : list A) (key : A -> pykey) : list A :=
  foldr (insert_lt key) [] l.

(** Whether some item has a key below the key of the item before it. *)
Fixpoint steps_down {A : Type} (key : A -> pykey) (l : list A) : bool :=
  match l with
  | x :: (y :: _) as rest => lt (key y) (key x) || steps_down key rest
  | _ => false
  end.

(** [sorted(l, key=key)], where the model determines it.  A list in which no
    item compares below its predecessor is one ascending run for the sort of
    CPython, which returns it as it is; this is the case of a list that is
    in order, and also of some lists with a NaN key.  Without a NaN key, [<]
    is a strict weak order and the result is the stable sort.  With a NaN
    key and a step down, the result depends on the runs and merges of the
    algorithm, which are not modelled: [None]. *)
Definition sorted {A : Type} (l : list A) (key : A -> pykey) : option (list A) :=
  if negb (steps_down key l) then Some l
  else if forallb (fun x => negb (is_nan (key x))) l
       then Some (stable_sort l key)
       else None.

Record Level (V : Type) : Type := mkLevel {
  price : pykey;
  volume : V;
  own_volume : V
}.

Arguments mkLevel {V} _ _ _.
Arguments price {V} _.
Arguments volume {V} _.
Arguments own_volume {V} _.

Record OrderBook (V : Type) : Type := mkOrderBook {
  ob_product : string;
  buy_orders : list (Level V);
  sell_orders : list (Level V)
}.

Arguments mkOrderBook {V} _ _ _.
Arguments ob_product {V} _.
Arguments buy_orders {V} _.
Arguments sell_orders {V} _.

(** What becomes of a message: a book is built, an exception is raised, or
    the message is one whose sort the model does not determine. *)
Inductive outcome (B : Type) : Type :=
| Built (ob : B)
| Raised
| Beyond.

Arguments Built {B} _.
Arguments Raised {B}.
Arguments Beyond {B}.

Section Wrapper.

(** The JSON values of a message, and the three conversions the wrappers
    apply to them; [None] when the conversion raises. *)
Context {Json : Type}.

Variable float_str : string -> option pykey.    (* float(price_s) *)
Variable float_val : Json -> option pykey.      (* float(v) *)
Variable int_val : Json -> option Z.            (* int(v) *)

(** One entry [vi] of a raw side. *)
Record RawLevel : Type := mkRawLevel {
  vi_price : option Json;
  vi_marketVolume : option Json;
  vi_volume : option Json;
  vi_userVolume : option Json
}.

Record RawBook : Type := mkRawBook {
  raw_productsymbol : option string;
  raw_product : option string;
  raw_buyOrders : option (list (string * RawLevel));
  raw_sellOrders : option (list (string * RawLevel))
}.

(** [[f(k, v) for k, v in side.items()]] for an [f] that may raise. *)
Fixpoint collect {L : Type} (f : string -> RawLevel -> option L)
    (side : list (string * RawLevel)) : option (list L) :=
  match side with
  | [] => Some []
  | (price_s, vi) :: side' =>
      match f price_s vi with
      | None => None
      | Some l =>
          match collect f side' with
          | None => None
          | Some ls => Some (l :: ls)
          end
      end
  end.

(** The body of the loop of [transform] in [im.py]: [float(price_s)], on an
    exception [float(vi.get("price", 0))];
    [int(vi.get("marketVolume", vi.get("volume", 0)))];
    [int(vi.get("userVolume", 0))]. *)
Definition transform_level (price_s : string) (vi : RawLevel) : option (Level Z) :=
  let price :=
    match float_str price_s with
    | Some k => Some k
    | None =>
        match vi_price vi with
        | Some v => float_val v
        | None => Some (Num 0)
        end
    end in
  let market_v :=
    match vi_marketVolume vi with
    | Some v => int_val v
    | None =>
        match vi_volume vi with
        | Some v => int_val v
        | None => Some 0%Z
        end
    end in
  let user_v :=
    match vi_userVolume vi with
    | Some v => int_val v
    | None => Some 0%Z
    end in
  match price, market_v, user_v with
  | Some k, Some mv, Some uv => Some (mkLevel k mv uv)
  | _, _, _ => None
  end.

Definition transform (side : list (string * RawLevel)) : option (list (Level Z)) :=
  collect transform_level side.

(** The level of the list comprehension of [Improved version.py]:
    [float(price)], [volumes["marketVolume"]], [volumes["userVolume"]]. *)
Definition improved_level (price_s : string) (volumes : RawLevel)
  : option (Level Json) :=
  match float_str price_s, vi_marketVolume volumes, vi_userVolume volumes with
  | Some k, Some mv, Some uv => Some (mkLevel k mv uv)
  | _, _, _ => None
  end.

(** The two ladders: [sorted(..., key=lambda d: -d["price"])] for the bids
    and [sorted(..., key=lambda d: d["price"])] for the asks. *)
Definition ladders {V : Type} (product : string)
    (buys sells : option (list (Level V))) : outcome (OrderBook V) :=
  match buys, sells with
  | Some bs, Some ss =>
      match sorted bs (fun d => neg (price d)), sorted ss (fun d => price d) with
      | Some buy_orders, Some sell_orders =>
          Built (mkOrderBook product buy_orders sell_orders)
      | _, _ => Beyond
      end
  | _, _ => Raised
  end.

(** The dictionary [ob] that [_on_orderbook_wrapper] of [im.py] builds; an
    exception ends the handler in its [except] clause. *)
Definition normalize_orderbook (raw : RawBook) : outcome (OrderBook Z) :=
  let product :=
    match raw_productsymbol raw with
    | Some s => s
    | None => default "UNKNOWN" (raw_product raw)
    end in
  ladders product
    (transform (default [] (raw_buyOrders raw)))
    (transform (default [] (raw_sellOrders raw))).

(** The dictionary that [_on_orderbook_wrapper] of [Improved version.py]
    hands to [on_orderbook]. *)
Definition improved_orderbook (raw : RawBook) : outcome (OrderBook Json) :=
  ladders (default "UNKNOWN" (raw_productsymbol raw))
    (collect improved_level (default [] (raw_buyOrders raw)))
    (collect improved_level (default [] (raw_sellOrders raw))).

End Wrapper.

Arguments RawLevel : clear implicits.
Arguments RawBook : clear implicits.

(** No price of the side is NaN. *)
Definition no_nan {V : Type} (l : list (Level V)) : Prop :=
  Forall (fun d => is_nan (price d) = false) l.

(** Every level is priced at or below the levels before it. *)
Definition non_increasing {V : Type} (l : list (Level V)) : Prop :=
  StronglySorted (fun a c => le (price c) (price a)) l.

(** Every level is priced at or above the levels before it. *)
Definition non_decreasing {V : Type} (l : list (Level V)) : Prop :=
  StronglySorted (fun a c => le (price a) (price c)) l.

(** The levels of a side at the price [px], in the order of the side. *)
Definition levels_at {V : Type} (px : pykey) (l : list (Level V)) : list (Level V) :=
  List.filter (fun d => eqb (price d) px) l.

(** A reader of price keys for examples: the three spellings it knows. *)
Definition demo_float (s : string) : option pykey :=
  if String.eqb s "100" then Some (Num 100)
  else if String.eqb s "101" then Some (Num 101)
  else if String.eqb s "101.0" then Some (Num 101)
  else if String.eqb s "nan" then Some NotANumber
  else None.

(** A message whose bids are keyed 100, nan, 101 and whose asks are keyed
    101, nan, 100, in this order, each with a volume of 5 and none of the
    bot's own. *)
Definition nan_book : RawBook Z :=
  let vi := mkRawLevel None (Some 5%Z) None (Some 0%Z) in
  mkRawBook (Some "EQUATOR") None
    (Some [("100", vi); ("nan", vi); ("101", vi)])
    (Some [("101", vi); ("nan", vi); ("100", vi)]).

(** A message with two bids at 101, keyed 101 and 101.0, around one at
    100, and asks at 101 and 100. *)
Definition plain_book : RawBook Z :=
  mkRawBook (Some "EQUATOR") None
    (Some [("101", mkRawLevel None (Some 5%Z) None (Some 0%Z));
           ("100", mkRawLevel None (Some 6%Z) None (Some 0%Z));
           ("101.0", mkRawLevel None (Some 7%Z) None (Some 0%Z))])
    (Some [("101", mkRawLevel None (Some 5%Z) None (Some 0%Z));
           ("100", mkRawLevel None (Some 6%Z) None (Some 0%Z))]).

End Ladder.

(** A message of [normalize_orderbook], whose prices are rationals and whose
    volumes are integers, as a message of JSON values, and the conversions
    of these values. *)
Definition rational_float (v : Q + Z) : option Ladder.pykey :=
  match v with
  | inl q => Some (Ladder.Num q)
  | inr z => Some (Ladder.Num (inject_Z z))
  end.

Definition rational_int (v : Q + Z) : option Z :=
  match v with
  | inl q => Some (py_int q)
  | inr z => Some z
  end.

Definition json_level (vi : RawLevel) : Ladder.RawLevel (Q + Z) :=
  Ladder.mkRawLevel (inl <$> vi_price vi) (inr <$> vi_marketVolume vi)
    (inr <$> vi_volume vi) (inr <$> vi_userVolume vi).

Definition json_side (side : list (string * RawLevel))
  : list (string * Ladder.RawLevel (Q + Z)) :=
  (fun kv => (fst kv, json_level (snd kv))) <$> side.

Definition json_book (raw : RawBook) : Ladder.RawBook (Q + Z) :=
  Ladder.mkRawBook (raw_productsymbol raw) (raw_product raw)
    (json_side <$> raw_buyOrders raw) (json_side <$> raw_sellOrders raw).

Definition ladder_level (l : Level) : Ladder.Level Z :=
  Ladder.mkLevel (Ladder.Num (price l)) (volume l) (own_volume l).

Definition ladder_book (ob : OrderBook) : Ladder.OrderBook Z :=
  Ladder.mkOrderBook (ob_product ob) (ladder_level <$> buy_orders ob)
    (ladder_level <$> sell_orders ob).

(** ** The other bots of the repository *)

(** *** [MarketMakingBot]

    The first market maker, in [bots/imc_bots/market_making_bot.py] and in
    [Improved version.py]: one pair of quotes per fair value, no gate. *)

(** The prices of the loop body: [round(theo / tick) * tick] less and plus
    [(self.min_tick_width // 2) * tick]. *)
Definition market_make_quote (min_tick_width theo tick_size : Q) : result (Q * Q) :=
  rbind (_price_to_tick (Fin theo) tick_size) (fun rounded_theo =>
  let half := (inject_Z (Qfloor (min_tick_width / 2)) * tick_size)%Q in
  Ok (rounded_theo - half, rounded_theo + half)%Q).

(** [self.tick_sizes[product]] of [market_making_bot.py]. *)
Definition tick_size_item (tick_sizes : gmap string Q) (product : string) : result Q :=
  match tick_sizes !! product with
  | Some t => Ok t
  | None => Raise KeyError
  end.

(** [self.tick_sizes.get(product, 1)] of [Improved version.py]. *)
Definition tick_size_get (tick_sizes : gmap string Q) (product : string) : result Q :=
  Ok (default 1%Q (tick_sizes !! product)).

(** How a pass of the first market maker ends: it reaches the end of
    [theos], a computation of the loop body raises, or a call of
    [cancel_all_orders] or of [send_order] raises (both speak to the
    exchange over HTTP and neither is guarded). *)
Inductive pass_end : Type :=
| Completed
| Raised (e : exn)
| CallRaised.

(** The [for] loop of [_market_make] over the items of [self.theos]: the
    payloads given to [send_order], in order, and how the loop ended.
    [send_order pl] tells whether the call with the payload [pl] returns. *)
Fixpoint market_make_items (min_tick_width : Q) (volume : Z)
    (tick_of : string -> result Q) (send_order : Payload -> bool)
    (theos : list (string * Q)) : list Payload * pass_end :=
  match theos with
  | [] => ([], Completed)
  | (product, theo) :: rest =>
      match rbind (tick_of product) (market_make_quote min_tick_width theo) with
      | Raise e => ([], Raised e)
      | Ok (buy_price, sell_price) =>
          let buy := mkPayload product BUY buy_price volume in
          let sell := mkPayload product SELL sell_price volume in
          if send_order buy then
            if send_order sell then
              let (sent, r) :=
                market_make_items min_tick_width volume tick_of send_order rest in
              (buy :: sell :: sent, r)
            else ([buy; sell], CallRaised)
          else ([buy], CallRaised)
      end
  end.

(** One pass of the [while True] of [_market_make]: [cancel_all_orders()],
    then the loop.  [cancel_all_orders] tells whether that call returns. *)
Definition _market_make (min_tick_width : Q) (volume : Z)
    (tick_of : string -> result Q) (cancel_all_orders : bool)
    (send_order : Payload -> bool) (theos : list (string * Q))
  : list Payload * pass_end :=
  if cancel_all_orders
  then market_make_items min_tick_width volume tick_of send_order theos
  else ([], CallRaised).

(** *** [LiquidityTakingBot]

    [on_orderbook] of [bots/imc_bots/liquidity_taking_bot.py], with [u] the
    value drawn by [random.uniform(0, 1)], [order_side] the one drawn by
    [random.choice] and [randrange] the draw of [random.randrange]; the
    result is the payload given to [send_order], if any. *)
Definition liquidity_taking_on_orderbook
    (random_order_chance random_order_percent_threshold : Q)
    (theos : gmap string Q) (u : Q) (order_side : Side) (randrange : Z -> Z)
    (orderbook : OrderBook) : result (option Payload) :=
  if Qltb u random_order_chance then
    let orderbook_side :=
      match order_side with
      | BUY => buy_orders orderbook
      | SELL => sell_orders orderbook
      end in
    match orderbook_side with
    | [] => Ok None
    | best_level :: _ =>
        let product := ob_product orderbook in
        let px := price best_level in
        if negb (own_volume best_level =? 0)%Z then Ok None
        else
          match theos !! product with
          | None => Raise KeyError
          | Some theo =>
              if Qeq_bool px 0 then Raise ZeroDivisionError
              else if negb (Qltb (Qabs ((px - theo) / px))
                                 random_order_percent_threshold)
              then Ok None
              else if (volume best_level <=? 0)%Z then Raise ValueError
              else
                let vol := Z.max (randrange (volume best_level)) 5 in
                let side := match order_side with SELL => BUY | BUY => SELL end in
                Ok (Some (mkPayload product side px vol))
          end
    end
  else Ok None.

(** *** [TestOrderBot]

    [on_orderbook] of [bots/test_order_bot.py]: the new [order_count] and the
    payload given to [send_order], if any. *)
Definition test_order_on_orderbook (order_count : Z) (orderbook : OrderBook)
  : Z * option Payload :=
  if (order_count <? 5)%Z then
    ((order_count + 1)%Z,
     match buy_orders orderbook with
     | best_bid :: _ =>
         Some (mkPayload (ob_product orderbook) BUY (price best_bid - 1)%Q 1)
     | [] => None
     end)
  else (order_count, None).

(** The order books of a run, handled one after the other. *)
Fixpoint test_order_run (order_count : Z) (books : list OrderBook)
  : Z * list Payload :=
  match books with
  | [] => (order_count, [])
  | ob :: books' =>
      let (c, o) := test_order_on_orderbook order_count ob in
      let (c', sent) := test_order_run c books' in
      (c', match o with Some pl => pl :: sent | None => sent end)
  end.

(** * Proofs *)

(** ** Rational comparisons and rounding *)

Lemma Qltb_lt (a b : Q) : Qltb a b = true <-> (a < b)%Q.
Proof.
  unfold Qltb. rewrite Qlt_alt.
  destruct (a ?= b)%Q; split; intros H; congruence.
Qed.

Lemma Qleb_le (a b : Q) : Qleb a b = true <-> (a <= b)%Q.
Proof.
  unfold Qleb. rewrite Qle_alt.
  destruct (a ?= b)%Q; split; intros H; congruence.
Qed.

Lemma Qleb_total (a b : Q) : Qleb a b = false -> Qleb b a = true.
Proof.
  intros H. apply Qleb_le. apply Qlt_le_weak, Qnot_le_lt.
  intros Hle. apply Qleb_le in Hle. congruence.
Qed.

Lemma py_round_comp (x y : Q) : (x == y)%Q -> py_round x = py_round y.
Proof.
  intros H. unfold py_round.
  rewrite (Qfloor_comp x y H).
  assert (Hc : (x - inject_Z (Qfloor y) ?= 1 # 2)%Q = (y - inject_Z (Qfloor y) ?= 1 # 2)%Q)
    by (now rewrite H).
  now rewrite Hc.
Qed.

(** ** The monad *)

Section Preserves.

Context (R : Bot -> Bot -> Prop) `{!PreOrder R}.

Lemma preserves_ret {A : Type} (a : A) : preserves R (ret a).
Proof. intros b. simpl. reflexivity. Qed.

Lemma preserves_raise {A : Type} (e : exn) : preserves R (@raise A e).
Proof. intros b. simpl. reflexivity. Qed.

Lemma preserves_lift {A : Type} (r : result A) : preserves R (lift r).
Proof. intros b. simpl. reflexivity. Qed.

Lemma preserves_get_bot : preserves R get_bot.
Proof. intros b. simpl. reflexivity. Qed.

Lemma preserves_bind {A B : Type} (m : M A) (k : A -> M B) :
  preserves R m -> (forall a, preserves R (k a)) -> preserves R (bind m k).
Proof.
  intros Hm Hk b. unfold bind.
  specialize (Hm b). destruct (m b) as [[a | e] b']; simpl in *.
  - etransitivity; [exact Hm | apply Hk].
  - exact Hm.
Qed.

Lemma preserves_modify (f : Bot -> Bot) :
  (forall b, R b (f b)) -> preserves R (modify f).
Proof. intros H b. apply H. Qed.

Lemma preserves_for_each {A : Type} (xs : list A) (body : A -> M unit) :
  (forall x, preserves R (body x)) -> preserves R (for_each xs body).
Proof.
  intros H. induction xs as [| x xs IH]; simpl.
  - apply preserves_ret.
  - apply preserves_bind; [apply H | intros _; exact IH].
Qed.

Lemma preserves_map_m {A B : Type} (f : A -> M B) (xs : list A) :
  (forall x, preserves R (f x)) -> preserves R (map_m f xs).
Proof.
  intros H. induction xs as [| x xs IH]; simpl.
  - apply preserves_ret.
  - apply preserves_bind; [apply H | intros y].
    apply preserves_bind; [exact IH | intros ys; apply preserves_ret].
Qed.

Lemma preserves_try_except (m : M unit) :
  preserves R m -> preserves R (try_except m).
Proof.
  intros H b. unfold try_except. specialize (H b).
  destruct (m b) as [r b']. exact H.
Qed.

End Preserves.

#[global] Instance keeps_preorder {X : Type} (f : Bot -> X) : PreOrder (keeps f).
Proof.
  split.
  - intros b. reflexivity.
  - intros b1 b2 b3 H12 H23. unfold keeps in *. congruence.
Qed.

#[global] Instance inventory_moves_with_log_preorder : PreOrder inventory_moves_with_log.
Proof.
  split.
  - intros b. split; [reflexivity | trivial].
  - intros b1 b2 b3 [P12 I12] [P23 I23]. split.
    + etransitivity; eassumption.
    + intros E.
      assert (E2 : gateway_log b2 = gateway_log b1).
      { destruct P12 as [k1 E1]. destruct P23 as [k2 E2].
        rewrite E2, E1 in E.
        assert (Hl : length ((gateway_log b1 ++ k1) ++ k2) = length (gateway_log b1))
          by now rewrite E.
        rewrite !length_app in Hl.
        destruct k1; [now rewrite app_nil_r in E1 | simpl in Hl; lia]. }
      rewrite I23; [now apply I12 | congruence].
Qed.

Lemma preserves_tick (R : Bot -> Bot -> Prop) :
  (forall b, R b (set_clock S b)) -> preserves R tick.
Proof. intros H b. apply H. Qed.

Ltac pres_field :=
  intros;
  first [ reflexivity
        | split; [reflexivity | intros _; reflexivity] ].

Ltac pres :=
  repeat first
    [ progress intros
    | match goal with
      | |- PreOrder _ => exact _
      end
    | apply preserves_ret
    | apply preserves_raise
    | apply preserves_lift
    | apply preserves_get_bot
    | apply preserves_tick; pres_field
    | apply preserves_modify; pres_field
    | apply preserves_bind
    | apply preserves_for_each
    | apply preserves_map_m
    | apply preserves_try_except
    | match goal with
      | |- preserves _ (match ?x with _ => _ end) => destruct x
      end ].

(** Run the monadic plumbing and the field updates of a bot. *)
Ltac run_bot :=
  cbv [bind modify get_bot tick orders_of ret raise lift
       set_inventory set_open_orders_local set_recent_mid set_flight_data
       set_clock set_gateway_log];
  cbn [simulate_mode products inventory open_orders_local recent_mid
       flight_data config tick_sizes clock gateway_log fst snd].

(** Run the monadic plumbing only. *)
Ltac run_monad :=
  cbv [bind modify get_bot tick orders_of ret raise lift];
  cbn [fst snd].

(** Apply a lemma of the [Preserves] section and settle its [PreOrder]. *)
Ltac papply lem := apply lem; try (exact _).

(** ** Frame properties of the operations *)

Section Frames.

Variable env : Env.

Lemma send_order_keeps_recent_mid (p : string) (px : Q) (s : Side) (v : Z) :
  preserves (keeps recent_mid) (send_order env p px s v).
Proof. unfold send_order, _simulate_fill, orders_of. pres. Qed.

Lemma send_order_log (p : string) (px : Q) (s : Side) (v : Z) (b : Bot) :
  gateway_log (snd (send_order env p px s v b)) = gateway_log b ++ [mkPayload p s px v].
Proof.
  unfold send_order.
  match goal with
  | |- gateway_log (snd ((modify ?f ;;; ?k) b)) = _ =>
      change (gateway_log (snd (k (f b))) = gateway_log (f b));
      assert (H : preserves (keeps gateway_log) k)
        by (unfold _simulate_fill, orders_of; pres);
      apply H
  end.
Qed.

Lemma send_order_moves (p : string) (px : Q) (s : Side) (v : Z) :
  preserves inventory_moves_with_log (send_order env p px s v).
Proof.
  intros b. split.
  - rewrite send_order_log. now exists [mkPayload p s px v].
  - rewrite send_order_log. intros E.
    apply (f_equal length) in E. rewrite length_app in E. simpl in E. lia.
Qed.

Lemma cancel_order_keeps_log (oid : string) :
  preserves (keeps gateway_log) (cancel_order env oid).
Proof. unfold cancel_order. pres. Qed.

Lemma cancel_order_keeps_inventory (oid : string) :
  preserves (keeps inventory) (cancel_order env oid).
Proof. unfold cancel_order. pres. Qed.

Lemma cancel_order_keeps_recent_mid (oid : string) :
  preserves (keeps recent_mid) (cancel_order env oid).
Proof. unfold cancel_order. pres. Qed.

Lemma cancel_all_orders_keeps_log :
  preserves (keeps gateway_log) (cancel_all_orders env).
Proof. unfold cancel_all_orders, cancel_order. pres. Qed.

Lemma cancel_all_orders_keeps_inventory :
  preserves (keeps inventory) (cancel_all_orders env).
Proof. unfold cancel_all_orders, cancel_order. pres. Qed.

Lemma cancel_all_orders_keeps_recent_mid :
  preserves (keeps recent_mid) (cancel_all_orders env).
Proof. unfold cancel_all_orders, cancel_order. pres. Qed.

Lemma compute_levels_keeps_log (p : string) :
  preserves (keeps gateway_log) (compute_levels env p).
Proof. unfold compute_levels, levels_around, cancel_all_orders, cancel_order. pres. Qed.

Lemma compute_levels_keeps_inventory (p : string) :
  preserves (keeps inventory) (compute_levels env p).
Proof. unfold compute_levels, levels_around, cancel_all_orders, cancel_order. pres. Qed.

Lemma compute_levels_keeps_recent_mid (p : string) :
  preserves (keeps recent_mid) (compute_levels env p).
Proof. unfold compute_levels, levels_around, cancel_all_orders, cancel_order. pres. Qed.

Lemma keeps_moves (b b' : Bot) :
  keeps gateway_log b b' -> keeps inventory b b' -> inventory_moves_with_log b b'.
Proof.
  unfold keeps. intros Hl Hi. split; [rewrite Hl; reflexivity | auto].
Qed.

Lemma preserves_keeps_moves {A : Type} (m : M A) :
  preserves (keeps gateway_log) m -> preserves (keeps inventory) m ->
  preserves inventory_moves_with_log m.
Proof. intros Hl Hi b. apply keeps_moves; [apply Hl | apply Hi]. Qed.

Lemma market_make_product_moves (p : string) :
  preserves inventory_moves_with_log (market_make_product env p).
Proof.
  unfold market_make_product. papply preserves_bind.
  - apply preserves_keeps_moves;
      [apply compute_levels_keeps_log | apply compute_levels_keeps_inventory].
  - intros [qty lvls]. unfold submit_levels. papply preserves_for_each.
    intros [bp sp]. destruct (Qltb bp sp).
    + repeat (papply preserves_bind; [apply send_order_moves | intros _]).
      papply preserves_ret.
    + papply preserves_ret.
Qed.

Lemma market_make_product_keeps_recent_mid (p : string) :
  preserves (keeps recent_mid) (market_make_product env p).
Proof.
  unfold market_make_product. papply preserves_bind.
  - apply compute_levels_keeps_recent_mid.
  - intros [qty lvls]. unfold submit_levels. papply preserves_for_each.
    intros [bp sp]. destruct (Qltb bp sp).
    + repeat (papply preserves_bind; [apply send_order_keeps_recent_mid | intros _]).
      papply preserves_ret.
    + papply preserves_ret.
Qed.

End Frames.

(** ** The mid-price history *)

Lemma push_mid_length (hist : list Q) (mid : Q) :
  (length hist <= 200)%nat -> (length (push_mid hist mid) <= 200)%nat.
Proof.
  intros H. unfold push_mid.
  destruct (200 <? length (hist ++ [mid]))%nat eqn:E.
  - destruct hist as [| x hist]; simpl in *; [lia |].
    rewrite length_app. simpl. lia.
  - apply Nat.ltb_ge in E. exact E.
Qed.

Lemma push_mid_full (oldest : Q) (hist : list Q) (mid : Q) :
  length (oldest :: hist) = 200%nat -> push_mid (oldest :: hist) mid = hist ++ [mid].
Proof.
  intros H. unfold push_mid.
  assert (E : (200 <? length ((oldest :: hist) ++ [mid]))%nat = true).
  { apply Nat.ltb_lt. rewrite length_app, H. simpl. lia. }
  rewrite E. reflexivity.
Qed.

Lemma push_mid_room (hist : list Q) (mid : Q) :
  (length hist < 200)%nat -> push_mid hist mid = hist ++ [mid].
Proof.
  intros H. unfold push_mid.
  assert (E : (200 <? length (hist ++ [mid]))%nat = false).
  { apply Nat.ltb_ge. rewrite length_app. simpl. lia. }
  now rewrite E.
Qed.

Lemma push_mid_all (ms : list Q) :
  fold_left push_mid ms [] = drop (length ms - 200) ms.
Proof.
  induction ms as [| m ms IH] using rev_ind; [reflexivity |].
  rewrite fold_left_app. simpl. rewrite IH, length_app. simpl.
  destruct (decide (length ms < 200)%nat) as [Hlt | Hge].
  - replace (length ms - 200)%nat with 0%nat by lia.
    replace (length ms + 1 - 200)%nat with 0%nat by lia.
    simpl. now apply push_mid_room.
  - remember (drop (length ms - 200) ms) as hist eqn:Eh.
    assert (Hlen : length hist = 200%nat) by (subst hist; rewrite length_drop; lia).
    destruct hist as [| oldest hist]; [discriminate |].
    rewrite (push_mid_full _ _ _ Hlen).
    replace (length ms + 1 - 200)%nat with (length ms - 200 + 1)%nat by lia.
    rewrite drop_app_le by lia.
    rewrite <- drop_drop, <- Eh.
    reflexivity.
Qed.

#[global] Instance hist_step_preorder : PreOrder hist_step.
Proof.
  split.
  - intros b H. exact H.
  - intros b1 b2 b3 H12 H23 H. apply H23, H12, H.
Qed.

Lemma keeps_hist_step (b b' : Bot) : keeps recent_mid b b' -> hist_step b b'.
Proof. unfold keeps, hist_step, hist_bounded. intros E. now rewrite E. Qed.

Lemma post_init_hist_bounded (sim : bool) (ps : list string) (cfg : Config) :
  hist_bounded (post_init sim ps cfg).
Proof.
  unfold hist_bounded. simpl. intros p hist H.
  apply elem_of_list_to_map_2 in H.
  apply list_elem_of_fmap in H. destruct H as [q [E _]].
  injection E as _ ->. simpl. lia.
Qed.

Section History.

Variable env : Env.

Lemma record_mid_hist_step (p : string) (mid : Q) :
  preserves hist_step (record_mid p mid).
Proof.
  intros b. unfold record_mid, bind, get_bot.
  destruct (recent_mid b !! p) as [hist |] eqn:E; simpl; [| intros H; exact H].
  intros H. unfold hist_bounded in *. simpl.
  apply map_Forall_insert_2; [| exact H].
  apply push_mid_length. exact (H p hist E).
Qed.

Lemma _simulate_market_updates_hist_step :
  preserves hist_step (_simulate_market_updates env).
Proof.
  unfold _simulate_market_updates.
  papply preserves_bind; [papply preserves_get_bot | intros b0].
  papply preserves_for_each; [intros p].
  papply preserves_bind; [| intros k].
  { apply preserves_tick. intros b. apply keeps_hist_step. reflexivity. }
  papply preserves_bind; [papply preserves_get_bot | intros b1].
  apply record_mid_hist_step.
Qed.

Lemma _on_orderbook_wrapper_hist_step (raw : RawBook) :
  preserves hist_step (_on_orderbook_wrapper env raw).
Proof.
  unfold _on_orderbook_wrapper, on_orderbook.
  papply preserves_try_except.
  papply preserves_bind; [| intros _; papply preserves_ret].
  destruct (buy_orders _) as [| best_bid ?]; [papply preserves_ret |].
  destruct (sell_orders _) as [| best_ask ?]; [papply preserves_ret |].
  apply record_mid_hist_step.
Qed.

Lemma _market_make_loop_keeps_recent_mid :
  preserves (keeps recent_mid) (_market_make_loop env).
Proof.
  unfold _market_make_loop.
  papply preserves_try_except.
  papply preserves_bind; [papply preserves_get_bot | intros b0].
  papply preserves_for_each; [intros p].
  apply market_make_product_keeps_recent_mid.
Qed.

Lemma run_op_hist_step (op : Op) (b : Bot) : hist_step b (run_op env op b).
Proof.
  destruct op; simpl.
  - apply keeps_hist_step, send_order_keeps_recent_mid.
  - apply keeps_hist_step, cancel_order_keeps_recent_mid.
  - apply keeps_hist_step, cancel_all_orders_keeps_recent_mid.
  - apply _simulate_market_updates_hist_step.
  - apply _on_orderbook_wrapper_hist_step.
  - apply keeps_hist_step. reflexivity.
  - apply keeps_hist_step, _market_make_loop_keeps_recent_mid.
Qed.

Lemma run_ops_hist_step (ops : list Op) (b : Bot) : hist_step b (run_ops env ops b).
Proof.
  unfold run_ops. revert b.
  induction ops as [| op ops IH]; intros b; simpl; [reflexivity |].
  etransitivity; [apply run_op_hist_step | apply IH].
Qed.

End History.

(** C5. From a fresh bot, whatever the threads do and however often the
    order-book handler and the synthetic market generator insert mid prices,
    no history ever holds more than 200 entries; the history built by a
    sequence of insertions is its last 200 elements in order; and an
    insertion into a full history drops the oldest entry. *)
Theorem mid_history_bounded_fifo :
  (forall (env : Env) (sim : bool) (ps : list string) (cfg : Config) (ops : list Op),
      hist_bounded (run_ops env ops (post_init sim ps cfg))) /\
  (forall ms : list Q, fold_left push_mid ms [] = drop (length ms - 200) ms) /\
  (forall (oldest : Q) (hist : list Q) (mid : Q),
      length (oldest :: hist) = 200%nat ->
      push_mid (oldest :: hist) mid = hist ++ [mid]).
Proof.
  split; [| split].
  - intros env sim ps cfg ops.
    apply (run_ops_hist_step env ops), post_init_hist_bounded.
  - exact push_mid_all.
  - exact push_mid_full.
Qed.

(** ** The ledger dictionary *)

Lemma PyDict_get_set_eq {V : Type} (d : list (string * V)) (k : string) (v : V) :
  PyDict.get (PyDict.set d k v) k = Some v.
Proof.
  induction d as [| [k' v'] d IH]; simpl.
  - now rewrite String.eqb_refl.
  - destruct (String.eqb k' k) eqn:E; simpl; rewrite E; [reflexivity | exact IH].
Qed.

Lemma PyDict_get_set_ne {V : Type} (d : list (string * V)) (k k' : string) (v : V) :
  k <> k' -> PyDict.get (PyDict.set d k v) k' = PyDict.get d k'.
Proof.
  intros Hne. induction d as [| [k0 v0] d IH]; simpl.
  - destruct (String.eqb k k') eqn:E; [apply String.eqb_eq in E; contradiction | reflexivity].
  - destruct (String.eqb k0 k) eqn:E; simpl.
    + apply String.eqb_eq in E. subst k0.
      destruct (String.eqb k k') eqn:E'; [apply String.eqb_eq in E'; contradiction | reflexivity].
    + destruct (String.eqb k0 k'); [reflexivity | exact IH].
Qed.

Lemma PyDict_of_keys_get {V : Type} (ks : list string) (f : string -> V) (k : string) :
  In k ks -> PyDict.get (PyDict.of_keys ks f) k = Some (f k).
Proof.
  unfold PyDict.of_keys. generalize (@nil (string * V)).
  induction ks as [| k0 ks IH]; intros d Hin; [destruct Hin |].
  simpl. destruct (in_dec String.string_dec k ks) as [Hin' | Hnin].
  - now apply IH.
  - destruct Hin as [-> | Hin]; [| contradiction].
    clear IH. revert d.
    assert (Hgen : forall d, PyDict.get d k = Some (f k) ->
                     PyDict.get (fold_left (fun d k1 => PyDict.set d k1 (f k1)) ks d) k
                     = Some (f k)).
    { induction ks as [| k1 ks IH]; intros d Hd; [exact Hd |].
      simpl. apply IH.
      - intros Hin. apply Hnin. now right.
      - rewrite PyDict_get_set_ne; [exact Hd |].
        intros ->. apply Hnin. now left. }
    intros d. apply Hgen, PyDict_get_set_eq.
Qed.

(** ** What [send_order] does in simulate mode *)

Section Simulation.

Variable env : Env.

Lemma send_order_sim (b : Bot) (lst : list Order) (p : string) (px : Q) (s : Side) (v : Z) :
  simulate_mode b = true ->
  PyDict.get (open_orders_local b) p = Some lst ->
  send_order env p px s v b =
    (Ok (Some (mkOrder (sim_order_id env (clock b)) (mkPayload p s px v) "OPEN")),
     after_sim_send env b lst p px s v
       match _get_sim_mid b p with
       | Some mid => marketable s px mid
       | None => false
       end).
Proof.
  intros Hsim Hget.
  unfold send_order, after_sim_send, _get_sim_mid.
  run_bot. rewrite Hsim. run_bot. rewrite Hget. run_bot.
  destruct (last (default [] (recent_mid b !! p))) as [mid |]; [| reflexivity].
  destruct (marketable s px mid); [| reflexivity].
  unfold _simulate_fill. run_bot.
  rewrite PyDict_get_set_eq. reflexivity.
Qed.


Lemma _simulate_market_updates_keeps_inventory :
  preserves (keeps inventory) (_simulate_market_updates env).
Proof. unfold _simulate_market_updates, record_mid. pres. Qed.

Lemma _simulate_market_updates_keeps_ledger :
  preserves (keeps open_orders_local) (_simulate_market_updates env).
Proof. unfold _simulate_market_updates, record_mid. pres. Qed.

Lemma _simulate_market_updates_keeps_log :
  preserves (keeps gateway_log) (_simulate_market_updates env).
Proof. unfold _simulate_market_updates, record_mid. pres. Qed.


End Simulation.




(** ** Where the inventory can move *)

#[global] Instance only_pushes_preorder : PreOrder only_pushes.
Proof.
  split.
  - intros b p. exists []. simpl. now destruct (recent_mid b !! p).
  - intros b1 b2 b3 H12 H23 p.
    destruct (H12 p) as [m1 E1]. destruct (H23 p) as [m2 E2].
    exists (m1 ++ m2). rewrite E2, E1.
    destruct (recent_mid b1 !! p); simpl; [| reflexivity].
    now rewrite fold_left_app.
Qed.

Lemma keeps_only_pushes (b b' : Bot) : keeps recent_mid b b' -> only_pushes b b'.
Proof.
  unfold keeps. intros E p. exists []. rewrite E. simpl.
  now destruct (recent_mid b !! p).
Qed.

Section Inventory.

Variable env : Env.

Lemma record_mid_only_pushes (p : string) (mid : Q) :
  preserves only_pushes (record_mid p mid).
Proof.
  intros b. unfold record_mid. run_bot.
  destruct (recent_mid b !! p) as [hist |] eqn:E; run_bot; [| reflexivity].
  intros q. cbn [recent_mid]. destruct (decide (p = q)) as [<- | Hne].
  - exists [mid]. rewrite lookup_insert_eq, E. reflexivity.
  - exists []. rewrite lookup_insert_ne by exact Hne.
    simpl. now destruct (recent_mid b !! q).
Qed.

Lemma _simulate_market_updates_only_pushes :
  preserves only_pushes (_simulate_market_updates env).
Proof.
  unfold _simulate_market_updates.
  papply preserves_bind; [papply preserves_get_bot | intros b0].
  papply preserves_for_each. intros p.
  papply preserves_bind; [| intros k].
  { apply preserves_tick. intros b. apply keeps_only_pushes. reflexivity. }
  papply preserves_bind; [papply preserves_get_bot | intros b1].
  apply record_mid_only_pushes.
Qed.

Lemma _on_orderbook_wrapper_keeps_log (raw : RawBook) :
  preserves (keeps gateway_log) (_on_orderbook_wrapper env raw).
Proof. unfold _on_orderbook_wrapper, on_orderbook, record_mid. pres. Qed.

Lemma _on_orderbook_wrapper_keeps_inventory (raw : RawBook) :
  preserves (keeps inventory) (_on_orderbook_wrapper env raw).
Proof. unfold _on_orderbook_wrapper, on_orderbook, record_mid. pres. Qed.

Lemma _market_make_loop_moves :
  preserves inventory_moves_with_log (_market_make_loop env).
Proof.
  unfold _market_make_loop.
  papply preserves_try_except.
  papply preserves_bind; [papply preserves_get_bot | intros b0].
  papply preserves_for_each. intros p.
  apply market_make_product_moves.
Qed.

Lemma run_op_moves (op : Op) (b : Bot) :
  inventory_moves_with_log b (run_op env op b).
Proof.
  destruct op; simpl.
  - apply send_order_moves.
  - apply preserves_keeps_moves;
      [apply cancel_order_keeps_log | apply cancel_order_keeps_inventory].
  - apply preserves_keeps_moves;
      [apply cancel_all_orders_keeps_log | apply cancel_all_orders_keeps_inventory].
  - apply preserves_keeps_moves;
      [apply _simulate_market_updates_keeps_log
      | apply _simulate_market_updates_keeps_inventory].
  - apply preserves_keeps_moves;
      [apply _on_orderbook_wrapper_keeps_log
      | apply _on_orderbook_wrapper_keeps_inventory].
  - apply keeps_moves; reflexivity.
  - apply _market_make_loop_moves.
Qed.

Lemma send_order_inventory (p : string) (px : Q) (s : Side) (v : Z) (b : Bot) :
  let b' := snd (send_order env p px s v b) in
  inventory b' = inventory b \/
  inventory b' = <[p := (default 0%Z (inventory b !! p) + signed_volume s v)%Z]> (inventory b).
Proof.
  cbv zeta.
  destruct (simulate_mode b) eqn:Hsim.
  - destruct (PyDict.get (open_orders_local b) p) as [lst |] eqn:Hget.
    + rewrite (send_order_sim env b lst p px s v Hsim Hget). cbn [snd].
      unfold after_sim_send.
      destruct (match _get_sim_mid b p with Some mid => marketable s px mid | None => false end);
        run_bot; [right | left]; reflexivity.
    + left. unfold send_order. run_bot. rewrite Hsim. run_bot. rewrite Hget. reflexivity.
  - left. unfold send_order. run_bot. rewrite Hsim. run_bot.
    destruct (http_post_order env (clock b) _) as [data |]; run_bot; [| reflexivity].
    destruct (PyDict.get (open_orders_local b) p); reflexivity.
Qed.

End Inventory.

(** C10. A synthetic mid-price pass only pushes mid prices into the
    histories: it leaves the inventory, the ledger and the gateway log as
    they were, whatever the new mid prices are, so it fills nothing.  No
    action of any thread moves the inventory unless [send_order] is called
    in it; a call of [send_order] moves at most the inventory of its own
    product, by the signed volume of the order it has just created; and the
    two cancellations leave the inventory alone. *)
Theorem resting_orders_never_filled_later (env : Env) :
  (forall b : Bot,
     let b' := snd (_simulate_market_updates env b) in
     inventory b' = inventory b /\
     open_orders_local b' = open_orders_local b /\
     gateway_log b' = gateway_log b /\
     only_pushes b b') /\
  (forall (op : Op) (b : Bot),
     gateway_log (run_op env op b) = gateway_log b ->
     inventory (run_op env op b) = inventory b) /\
  (forall (p : string) (px : Q) (s : Side) (v : Z) (b : Bot),
     let b' := snd (send_order env p px s v b) in
     inventory b' = inventory b \/
     inventory b' =
       <[p := (default 0%Z (inventory b !! p) + signed_volume s v)%Z]> (inventory b)) /\
  (forall (oid : string) (b : Bot),
     inventory (snd (cancel_order env oid b)) = inventory b) /\
  (forall b : Bot, inventory (snd (cancel_all_orders env b)) = inventory b).
Proof.
  repeat split.
  - apply _simulate_market_updates_keeps_inventory.
  - apply _simulate_market_updates_keeps_ledger.
  - apply _simulate_market_updates_keeps_log.
  - apply _simulate_market_updates_only_pushes.
  - intros op b. apply (run_op_moves env op b).
  - apply send_order_inventory.
  - intros oid b. apply cancel_order_keeps_inventory.
  - intros b. apply cancel_all_orders_keeps_inventory.
Qed.

(** ** The gate of the submission loop *)

Section Gate.

Variable env : Env.

Lemma from_uncrossed_level_cons (p : string) (qty : Z) (lvl : Q * Q)
    (lvls : list (Q * Q)) (delta : list Payload) :
  Forall (from_uncrossed_level p qty lvls) delta ->
  Forall (from_uncrossed_level p qty (lvl :: lvls)) delta.
Proof.
  intros HF. eapply Forall_impl; [exact HF |].
  intros pl [bp [sp [Hin H]]].
  exists bp, sp. split; [now right | exact H].
Qed.

Lemma submit_levels_log (p : string) (qty : Z) (lvls : list (Q * Q)) (b : Bot) :
  exists delta : list Payload,
    gateway_log (snd (submit_levels env p qty lvls b)) = gateway_log b ++ delta /\
    Forall (from_uncrossed_level p qty lvls) delta /\
    (fst (submit_levels env p qty lvls b) = Ok tt ->
     delta = flat_map (gated_pair p qty) lvls).
Proof.
  unfold submit_levels. revert b.
  induction lvls as [| [bp sp] lvls IH]; intros b.
  - exists []. simpl. rewrite app_nil_r. repeat split. constructor.
  - cbn [for_each flat_map]. unfold gated_pair at 1. cbn [fst snd].
    destruct (Qltb bp sp) eqn:E.
    + assert (Hlt : (bp < sp)%Q) by now apply Qltb_lt.
      assert (Hb : from_uncrossed_level p qty ((bp, sp) :: lvls) (mkPayload p BUY bp qty)).
      { exists bp, sp. split; [now left | split; [exact Hlt | now left]]. }
      assert (Hs : from_uncrossed_level p qty ((bp, sp) :: lvls) (mkPayload p SELL sp qty)).
      { exists bp, sp. split; [now left | split; [exact Hlt | now right]]. }
      pose proof (send_order_log env p bp BUY qty b) as L1.
      unfold bind.
      destruct (send_order env p bp BUY qty b) as [[o1 | e1] b1]; cbn [snd] in L1.
      * pose proof (send_order_log env p sp SELL qty b1) as L2.
        destruct (send_order env p sp SELL qty b1) as [[o2 | e2] b2]; cbn [snd] in L2.
        -- unfold ret at 1.
           destruct (IH b2) as [d [Hd [Hf Hok]]].
           exists ([mkPayload p BUY bp qty; mkPayload p SELL sp qty] ++ d).
           split; [| split].
           ++ unfold bind in Hd. rewrite Hd, L2, L1, <- !app_assoc. reflexivity.
           ++ repeat constructor; try assumption.
              now apply from_uncrossed_level_cons.
           ++ intros Hr. unfold bind in Hok. rewrite (Hok Hr). reflexivity.
        -- exists [mkPayload p BUY bp qty; mkPayload p SELL sp qty].
           cbn [fst snd]. split; [| split].
           ++ rewrite L2, L1, <- app_assoc. reflexivity.
           ++ repeat constructor; assumption.
           ++ discriminate.
      * exists [mkPayload p BUY bp qty]. cbn [fst snd]. split; [| split].
        -- exact L1.
        -- repeat constructor; assumption.
        -- discriminate.
    + unfold bind, ret at 1.
      destruct (IH b) as [d [Hd [Hf Hok]]].
      exists d. split; [| split].
      * exact Hd.
      * now apply from_uncrossed_level_cons.
      * exact Hok.
Qed.

End Gate.

(** C3. Whatever levels a quoting cycle has computed, everything that its
    submission loop hands to the gateway is the buy or the sell order of a
    level whose buy price is strictly below its sell price; when the loop
    runs to its end, the submissions are exactly the pairs of those levels,
    in order, and a crossed or locked level contributes nothing.  The part of
    the cycle before the loop sends nothing. *)
Theorem only_uncrossed_pairs_submitted (env : Env) (p : string) (qty : Z)
    (lvls : list (Q * Q)) (b : Bot) :
  (exists delta : list Payload,
     gateway_log (snd (submit_levels env p qty lvls b)) = gateway_log b ++ delta /\
     Forall (from_uncrossed_level p qty lvls) delta /\
     (fst (submit_levels env p qty lvls b) = Ok tt ->
      delta = flat_map (gated_pair p qty) lvls)) /\
  gateway_log (snd (compute_levels env p b)) = gateway_log b /\
  (forall lvl : Q * Q, (snd lvl <= fst lvl)%Q -> gated_pair p qty lvl = []).
Proof.
  split; [apply submit_levels_log | split].
  - apply compute_levels_keeps_log.
  - intros [bp sp] Hle. unfold gated_pair. cbn [fst snd] in *.
    destruct (Qltb bp sp) eqn:E; [| reflexivity].
    apply Qltb_lt in E. exfalso. exact (Qlt_not_le _ _ E Hle).
Qed.

(** ** The sort of the order-book wrapper *)

Section Sorting.

Context {A : Type} (key : A -> Q).

Let key_le (a c : A) : Prop := (key a <= key c)%Q.

Lemma insert_by_Forall (P : A -> Prop) (x : A) (l : list A) :
  P x -> Forall P l -> Forall P (insert_by key x l).
Proof.
  intros Hx Hl. induction Hl as [| y l Hy Hl IH]; simpl.
  - constructor; [exact Hx | constructor].
  - destruct (Qleb (key x) (key y)).
    + constructor; [exact Hx | constructor; assumption].
    + constructor; assumption.
Qed.

Lemma insert_by_sorted (x : A) (l : list A) :
  StronglySorted key_le l -> StronglySorted key_le (insert_by key x l).
Proof.
  intros Hs. induction Hs as [| y l Hs IH Hy]; simpl.
  - constructor; constructor.
  - destruct (Qleb (key x) (key y)) eqn:E.
    + apply Qleb_le in E. constructor.
      * constructor; assumption.
      * constructor; [exact E |].
        eapply Forall_impl; [exact Hy |].
        intros z Hz. unfold key_le in *. eapply Qle_trans; eassumption.
    + apply Qleb_total, Qleb_le in E. constructor; [exact IH |].
      apply insert_by_Forall; assumption.
Qed.

Lemma sorted_sorted (l : list A) : StronglySorted key_le (sorted l key).
Proof.
  unfold sorted. induction l as [| x l IH]; simpl.
  - constructor.
  - now apply insert_by_sorted.
Qed.

Lemma insert_by_Permutation (x : A) (l : list A) :
  Permutation (insert_by key x l) (x :: l).
Proof.
  induction l as [| y l IH]; simpl; [reflexivity |].
  destruct (Qleb (key x) (key y)); [reflexivity |].
  rewrite IH. apply perm_swap.
Qed.

Lemma sorted_Permutation (l : list A) : Permutation (sorted l key) l.
Proof.
  unfold sorted. induction l as [| x l IH]; simpl; [reflexivity |].
  rewrite insert_by_Permutation. now constructor.
Qed.

End Sorting.

Lemma StronglySorted_weaken {A : Type} (R R' : A -> A -> Prop) (l : list A) :
  (forall a c, R a c -> R' a c) -> StronglySorted R l -> StronglySorted R' l.
Proof.
  intros H Hs. induction Hs as [| x l Hs IH Hx]; constructor; [exact IH |].
  eapply Forall_impl; [exact Hx | intros z; apply H].
Qed.

Lemma sorted_desc (l : list Level) :
  non_increasing (sorted l (fun d => (- price d)%Q)).
Proof.
  unfold non_increasing.
  eapply StronglySorted_weaken; [| apply sorted_sorted].
  intros a c H. simpl in H. now apply Qopp_le_compat in H; rewrite !Qopp_involutive in H.
Qed.

Lemma sorted_asc (l : list Level) :
  non_decreasing (sorted l (fun d => price d)).
Proof. unfold non_decreasing. apply (sorted_sorted (fun d => price d)). Qed.

(** For a message whose price keys read as rationals and whose volumes are
    integers, the book that the wrapper of [im.py] builds has its bids in
    non-increasing and its asks in non-decreasing order of price, and so has
    the book that the wrapper of [Improved version.py] builds whenever it
    builds one. *)
Lemma normalized_book_sorted (env : Env) (raw : RawBook) :
  book_sorted (normalize_orderbook env raw) /\
  match improved_on_orderbook_wrapper env raw with
  | Ok ob => book_sorted ob
  | Raise _ => True
  end.
Proof.
  split.
  - split; simpl; [apply sorted_desc | apply sorted_asc].
  - unfold improved_on_orderbook_wrapper.
    destruct (improved_levels env (default [] (raw_buyOrders raw))) as [buys | e];
      simpl; [| exact I].
    destruct (improved_levels env (default [] (raw_sellOrders raw))) as [sells | e];
      simpl; [| exact I].
    split; simpl; [apply sorted_desc | apply sorted_asc].
Qed.

(** ** Prices do not depend on how a number is written *)

#[global] Instance feq_equivalence : Equivalence feq.
Proof.
  split.
  - intros [a |]; simpl; [reflexivity | exact I].
  - intros [a |] [c |]; simpl; try tauto. intros H. now symmetry.
  - intros [a |] [c |] [d |]; simpl; try tauto. intros H1 H2. now rewrite H1.
Qed.

Lemma flift2_comp (op : Q -> Q -> Q) :
  Proper (Qeq ==> Qeq ==> Qeq) op -> Proper (feq ==> feq ==> feq) (flift2 op).
Proof.
  intros Hop [a |] [a' |] Ha [c |] [c' |] Hc; simpl in *; try tauto.
  now apply Hop.
Qed.

#[global] Instance fadd_comp : Proper (feq ==> feq ==> feq) fadd.
Proof. apply flift2_comp. exact Qplus_comp. Qed.

#[global] Instance fsub_comp : Proper (feq ==> feq ==> feq) fsub.
Proof. apply flift2_comp. exact Qminus_comp. Qed.

#[global] Instance fmul_comp : Proper (feq ==> feq ==> feq) fmul.
Proof. apply flift2_comp. exact Qmult_comp. Qed.

#[global] Instance fdiv_comp : Proper (feq ==> feq ==> feq) fdiv.
Proof. apply flift2_comp. exact Qdiv_comp. Qed.

#[global] Instance Fin_comp : Proper (Qeq ==> feq) Fin.
Proof. intros a c H. exact H. Qed.

Lemma _price_to_tick_comp (x y : pyfloat) (tick_size : Q) :
  feq x y -> _price_to_tick x tick_size = _price_to_tick y tick_size.
Proof.
  intros H. unfold _price_to_tick.
  destruct (Qeq_bool tick_size 0); [reflexivity |].
  destruct x as [a |], y as [c |]; simpl in H; try tauto.
  rewrite (py_round_comp (a / tick_size) (c / tick_size)); [reflexivity |].
  now rewrite H.
Qed.

Lemma quote_level_comp (cfg : Config) (center : Q) (h h' : pyfloat)
    (tick_size : Q) (aggressive : bool) (lvl : Z) (r r' : Q) :
  feq h h' ->
  (jitter cfg == 0)%Q \/ r = r' ->
  quote_level cfg center h tick_size aggressive lvl r
  = quote_level cfg center h' tick_size aggressive lvl r'.
Proof.
  intros Hh Hj. unfold quote_level.
  assert (Ej : feq (Fin ((r - (1 # 2)) * jitter cfg * tick_size))
                   (Fin ((r' - (1 # 2)) * jitter cfg * tick_size))).
  { simpl. destruct Hj as [Hj | ->]; [rewrite Hj; ring | reflexivity]. }
  set (off := (h * Fin (1 + (1 # 2) * inject_Z (lvl - 1)))%F).
  set (off' := (h' * Fin (1 + (1 # 2) * inject_Z (lvl - 1)))%F).
  assert (Eo : feq off off') by (subst off off'; now rewrite Hh).
  destruct aggressive.
  - rewrite (_price_to_tick_comp
               (Fin center - off + Fin ((r - (1 # 2)) * jitter cfg * tick_size)
                + Fin (1 # 2) * off)%F
               (Fin center - off' + Fin ((r' - (1 # 2)) * jitter cfg * tick_size)
                + Fin (1 # 2) * off')%F)
      by (now rewrite Eo, Ej).
    rewrite (_price_to_tick_comp
               (Fin center + off + Fin ((r - (1 # 2)) * jitter cfg * tick_size)
                - Fin (1 # 2) * off)%F
               (Fin center + off' + Fin ((r' - (1 # 2)) * jitter cfg * tick_size)
                - Fin (1 # 2) * off')%F)
      by (now rewrite Eo, Ej).
    reflexivity.
  - rewrite (_price_to_tick_comp
               (Fin center - off + Fin ((r - (1 # 2)) * jitter cfg * tick_size))%F
               (Fin center - off' + Fin ((r' - (1 # 2)) * jitter cfg * tick_size))%F)
      by (now rewrite Eo, Ej).
    rewrite (_price_to_tick_comp
               (Fin center + off + Fin ((r - (1 # 2)) * jitter cfg * tick_size))%F
               (Fin center + off' + Fin ((r' - (1 # 2)) * jitter cfg * tick_size))%F)
      by (now rewrite Eo, Ej).
    reflexivity.
Qed.

(** ** The price levels of a cycle *)

Section Levels.

Variable env : Env.

Lemma cancel_order_returns (oid : string) (b : Bot) :
  exists found : bool, fst (cancel_order env oid b) = Ok found.
Proof.
  unfold cancel_order. run_bot.
  destruct (simulate_mode b); run_bot.
  - destruct (cancel_in (open_orders_local b) oid) as [d found]. run_bot. now exists found.
  - now eexists.
Qed.

Lemma cancel_each_returns (os : list (option string)) (b : Bot) :
  fst (for_each os (fun o =>
         match o with
         | Some oid => cancel_order env oid ;;; ret tt
         | None => ret tt
         end) b) = Ok tt.
Proof.
  revert b. induction os as [| o os IH]; intros b; [reflexivity |].
  cbn [for_each]. unfold bind at 1.
  destruct o as [oid |].
  - unfold bind at 1.
    destruct (cancel_order_returns oid b) as [found E].
    destruct (cancel_order env oid b) as [r b']. cbn [fst] in E. subst r.
    unfold ret at 1. apply IH.
  - unfold ret at 1. apply IH.
Qed.

Lemma cancel_all_orders_returns (b : Bot) : fst (cancel_all_orders env b) = Ok tt.
Proof.
  unfold cancel_all_orders. run_bot.
  destruct (simulate_mode b); run_bot; [reflexivity |].
  apply cancel_each_returns.
Qed.

Lemma map_m_quote_levels (cfg : Config) (center : Q) (h : pyfloat) (tick_size : Q)
    (aggressive : bool) (lvls : list Z) (b : Bot) :
  (jitter cfg == 0)%Q ->
  fst (map_m (fun lvl =>
                k <- tick ;;
                lift (quote_level cfg center h tick_size aggressive lvl
                        (random_random env k)))
             lvls b)
  = map_r (fun lvl => quote_level cfg center h tick_size aggressive lvl (1 # 2)) lvls.
Proof.
  intros Hj. revert b.
  induction lvls as [| lvl lvls IH]; intros b; [reflexivity |].
  cbn [map_m map_r]. run_bot.
  rewrite (quote_level_comp cfg center h h tick_size aggressive lvl
             (random_random env (clock b)) (1 # 2)) by (reflexivity || now left).
  destruct (quote_level cfg center h tick_size aggressive lvl (1 # 2)) as [pr | e];
    [| reflexivity].
  cbn [rbind]. specialize (IH (set_clock S b)).
  unfold set_clock in IH.
  destruct (map_m _ lvls _) as [[prs | e] b']; cbn [fst] in IH; rewrite <- IH; reflexivity.
Qed.

Lemma compute_levels_zero_jitter (p : string) (b : Bot) :
  (jitter (config b) == 0)%Q ->
  fst (compute_levels env p b)
  = zero_jitter_levels (config b)
      (theo_of (utc_now env (clock b)) b p)
      (default 1%Q (tick_sizes b !! p))
      (default 0%Z (inventory b !! p))
      (_get_vol_est env b p 30).
Proof.
  intros Hj. unfold compute_levels, levels_around, zero_jitter_levels. run_monad.
  change (theo_of (utc_now env (clock b)) (set_clock S b) p)
    with (theo_of (utc_now env (clock b)) b p).
  change (tick_sizes (set_clock S b)) with (tick_sizes b).
  change (inventory (set_clock S b)) with (inventory b).
  change (config (set_clock S b)) with (config b).
  change (_compute_half_spread_ticks env (set_clock S b) p)
    with ((Fin (py_max (min_tick_width (config b)) 1)
           + _get_vol_est env b p 30 * Fin (vol_coeff (config b))
           + Fin ((2 # 100) * inject_Z (Z.abs (default 0%Z (inventory b !! p)))))
          / Fin 2)%F.
  destruct (_price_to_tick (Fin (theo_of (utc_now env (clock b)) b p))
              (default 1%Q (tick_sizes b !! p))) as [rounded | e]; [| reflexivity].
  cbn [rbind].
  pose proof (cancel_all_orders_returns (set_clock S b)) as Hc.
  destruct (cancel_all_orders env (set_clock S b)) as [r b1]. cbn [fst] in Hc. subst r.
  match goal with
  | |- context [map_m ?f ?l b1] =>
      pose proof (map_m_quote_levels (config b) _ _ _ _ l b1 Hj
                  : fst (map_m f l b1) = _) as Hm;
      destruct (map_m f l b1) as [[lvls | e] b2]; cbn [fst] in Hm
  end; rewrite <- Hm; reflexivity.
Qed.

End Levels.

Lemma map_r_ext {A B : Type} (f g : A -> result B) (xs : list A) :
  (forall x, f x = g x) -> map_r f xs = map_r g xs.
Proof.
  intros H. induction xs as [| x xs IH]; [reflexivity |].
  simpl. now rewrite H, IH.
Qed.

Lemma zero_jitter_levels_comp (cfg : Config) (theo theo' tick_size : Q) (inv : Z)
    (vol vol' : pyfloat) :
  (theo == theo')%Q -> feq vol vol' ->
  zero_jitter_levels cfg theo tick_size inv vol
  = zero_jitter_levels cfg theo' tick_size inv vol'.
Proof.
  intros Ht Hv. unfold zero_jitter_levels.
  rewrite (_price_to_tick_comp (Fin theo) (Fin theo') tick_size) by exact Ht.
  destruct (_price_to_tick (Fin theo') tick_size) as [rounded | e]; [| reflexivity].
  cbn [rbind]. f_equal.
  apply map_r_ext. intros lvl.
  apply quote_level_comp; [| now right].
  now rewrite Hv.
Qed.

(** C7. With the jitter at zero, two cycles of one configuration that read
    the same fair value, tick size, inventory and volatility estimate for a
    product (the aggressiveness flag is then the same too) compute the same
    quantity and the same list of level prices, or fail alike, whatever the
    random draws, clocks and other state of the two runs. *)
Theorem zero_jitter_levels_deterministic (env1 env2 : Env) (b1 b2 : Bot) (p : string) :
  config b1 = config b2 ->
  (jitter (config b1) == 0)%Q ->
  (theo_of (utc_now env1 (clock b1)) b1 p == theo_of (utc_now env2 (clock b2)) b2 p)%Q ->
  default 1%Q (tick_sizes b1 !! p) = default 1%Q (tick_sizes b2 !! p) ->
  default 0%Z (inventory b1 !! p) = default 0%Z (inventory b2 !! p) ->
  feq (_get_vol_est env1 b1 p 30) (_get_vol_est env2 b2 p 30) ->
  fst (compute_levels env1 p b1) = fst (compute_levels env2 p b2).
Proof.
  intros Hc Hj Ht Hk Hi Hv.
  rewrite !compute_levels_zero_jitter by (try rewrite <- Hc; exact Hj).
  rewrite <- Hc, <- Hk, <- Hi.
  now apply zero_jitter_levels_comp.
Qed.

(** ** A cycle that runs to its end *)

#[global] Instance can_send_step_preorder (p : string) : PreOrder (can_send_step p).
Proof.
  split.
  - intros b H. exact H.
  - intros b1 b2 b3 H12 H23 H. apply H23, H12, H.
Qed.

Lemma keeps_can_send_step (p : string) (b b' : Bot) :
  keeps simulate_mode b b' -> keeps open_orders_local b b' -> can_send_step p b b'.
Proof. unfold keeps, can_send_step, can_send. intros -> ->. trivial. Qed.

Section Returns.

Variable env : Env.

Lemma send_order_returns (p : string) (px : Q) (s : Side) (v : Z) (b : Bot) :
  can_send p b ->
  (exists o, fst (send_order env p px s v b) = Ok o) /\
  can_send p (snd (send_order env p px s v b)).
Proof.
  intros Hc. destruct (simulate_mode b) eqn:Hsim.
  - destruct (Hc Hsim) as [lst Hget].
    rewrite (send_order_sim env b lst p px s v Hsim Hget). cbn [fst snd].
    split; [now eexists |].
    intros _. unfold after_sim_send.
    destruct (match _get_sim_mid b p with Some mid => marketable s px mid | None => false end);
      run_bot; rewrite PyDict_get_set_eq; now eexists.
  - unfold send_order. run_bot. rewrite Hsim. run_bot.
    destruct (http_post_order env (clock b) _) as [data |]; run_bot.
    + destruct (PyDict.get (open_orders_local b) p); run_bot;
        (split; [now eexists | intros Hs; cbn [simulate_mode] in Hs; congruence]).
    + split; [now eexists | intros Hs; cbn [simulate_mode] in Hs; congruence].
Qed.

Lemma submit_levels_returns (p : string) (qty : Z) (lvls : list (Q * Q)) (b : Bot) :
  can_send p b -> fst (submit_levels env p qty lvls b) = Ok tt.
Proof.
  unfold submit_levels. revert b.
  induction lvls as [| [bp sp] lvls IH]; intros b Hc; [reflexivity |].
  cbn [for_each]. destruct (Qltb bp sp).
  - unfold bind.
    destruct (send_order_returns p bp BUY qty b Hc) as [[o1 E1] Hc1].
    destruct (send_order env p bp BUY qty b) as [r1 b1]. cbn [fst snd] in *. subst r1.
    destruct (send_order_returns p sp SELL qty b1 Hc1) as [[o2 E2] Hc2].
    destruct (send_order env p sp SELL qty b1) as [r2 b2]. cbn [fst snd] in *. subst r2.
    unfold ret at 1. apply (IH b2 Hc2).
  - unfold bind, ret at 1. apply (IH b Hc).
Qed.

Lemma cancel_all_orders_keeps_mode :
  preserves (keeps simulate_mode) (cancel_all_orders env).
Proof. unfold cancel_all_orders, cancel_order. pres. Qed.

Lemma cancel_all_orders_can_send (p : string) (b : Bot) :
  In p (products b) -> can_send p (snd (cancel_all_orders env b)).
Proof.
  intros Hin Hs.
  assert (Hsim : simulate_mode b = true)
    by (rewrite <- Hs; symmetry; apply cancel_all_orders_keeps_mode).
  unfold cancel_all_orders. run_bot. rewrite Hsim. run_bot.
  rewrite (PyDict_of_keys_get _ _ _ Hin). now eexists.
Qed.

Lemma levels_around_can_send (p : string) (theo : Q) (b : Bot) :
  In p (products b) ->
  (exists ql, fst (levels_around env p theo b) = Ok ql) ->
  can_send p (snd (levels_around env p theo b)).
Proof.
  intros Hin [ql Hok]. revert Hok. unfold levels_around. run_monad.
  destruct (_price_to_tick (Fin theo) (default 1%Q (tick_sizes b !! p)))
    as [rounded | e]; [| discriminate].
  pose proof (cancel_all_orders_can_send p b Hin) as Hc.
  destruct (cancel_all_orders env b) as [[[] | e] b1]; cbn [snd] in Hc; [| discriminate].
  intros _.
  match goal with
  | |- can_send p (snd (let (r, b') := map_m ?f ?l b1 in _)) =>
      assert (Hk : preserves (can_send_step p) (map_m f l));
      [ papply preserves_map_m; intros lvl b0; cbn [snd];
        apply keeps_can_send_step; reflexivity
      | specialize (Hk b1 Hc); destruct (map_m f l b1) as [[lvls | e] b2]; exact Hk ]
  end.
Qed.

Lemma compute_levels_can_send (p : string) (b : Bot) :
  In p (products b) ->
  (exists ql, fst (compute_levels env p b) = Ok ql) ->
  can_send p (snd (compute_levels env p b)).
Proof.
  intros Hin Hok.
  change (compute_levels env p b)
    with (levels_around env p (theo_of (utc_now env (clock b)) (set_clock S b) p)
            (set_clock S b)) in *.
  now apply levels_around_can_send.
Qed.

(** A cycle on a product of the bot whose levels were computed sends exactly
    the gated pairs of these levels. *)
Lemma market_make_product_log (p : string) (b : Bot) (qty : Z) (lvls : list (Q * Q)) :
  In p (products b) ->
  fst (compute_levels env p b) = Ok (qty, lvls) ->
  gateway_log (snd (market_make_product env p b))
  = gateway_log b ++ flat_map (gated_pair p qty) lvls.
Proof.
  intros Hin Hok.
  pose proof (compute_levels_can_send p b Hin (ex_intro _ _ Hok)) as Hc.
  pose proof (compute_levels_keeps_log env p b) as Hl.
  unfold market_make_product, bind.
  destruct (compute_levels env p b) as [r b1]. cbn [fst snd] in *. subst r.
  cbn [fst snd].
  destruct (submit_levels_log env p qty lvls b1) as [delta [Hd [_ Hx]]].
  rewrite Hd, (Hx (submit_levels_returns p qty lvls b1 Hc)), Hl. reflexivity.
Qed.

(** The end-to-end scenario, for any bot that meets its description. *)
Lemma scenario_cycle (p : string) (b : Bot) :
  config b = scenario_config ->
  (theo_of (utc_now env (clock b)) b p == 100)%Q ->
  default 1%Q (tick_sizes b !! p) = 1%Q ->
  default 0%Z (inventory b !! p) = 0%Z ->
  feq (_get_vol_est env b p 30) (Fin 0) ->
  In p (products b) ->
  feq (_compute_half_spread_ticks env b p) (Fin 1) /\
  fst (compute_levels env p b) = Ok (10%Z, [(99%Q, 101%Q)]) /\
  gateway_log (snd (market_make_product env p b))
  = gateway_log b ++ [mkPayload p BUY 99 10; mkPayload p SELL 101 10].
Proof.
  intros Hcfg Ht Hk Hi Hv Hin.
  assert (Hlv : fst (compute_levels env p b) = Ok (10%Z, [(99%Q, 101%Q)])).
  { rewrite compute_levels_zero_jitter by (rewrite Hcfg; reflexivity).
    rewrite Hcfg, Hk, Hi.
    rewrite (zero_jitter_levels_comp _ _ 100 _ _ _ (Fin 0) Ht Hv).
    vm_compute. reflexivity. }
  split; [| split].
  - unfold _compute_half_spread_ticks. rewrite Hcfg, Hi, Hv. reflexivity.
  - exact Hlv.
  - rewrite (market_make_product_log p b _ _ Hin Hlv). reflexivity.
Qed.

End Returns.

(** C1, as the code has it.  For a bot with the configuration of the
    scenario ([min_tick_width=2], [base_volume=10], [levels=1], [jitter=0],
    defaults elsewhere), on one of its products with fair value 100, tick 1,
    inventory 0 and volatility 0: the half-spread is 1 tick (the spread of 2
    ticks halved), the one level is (99, 101), and the cycle submits a BUY
    of 10 at 99 and a SELL of 10 at 101. *)
Theorem scenario_quotes_99_101 (env : Env) (p : string) (b : Bot) :
  config b = scenario_config ->
  (theo_of (utc_now env (clock b)) b p == 100)%Q ->
  default 1%Q (tick_sizes b !! p) = 1%Q ->
  default 0%Z (inventory b !! p) = 0%Z ->
  feq (_get_vol_est env b p 30) (Fin 0) ->
  In p (products b) ->
  feq (_compute_half_spread_ticks env b p) (Fin 1) /\
  fst (compute_levels env p b) = Ok (10%Z, [(99%Q, 101%Q)]) /\
  gateway_log (snd (market_make_product env p b))
  = gateway_log b ++ [mkPayload p BUY 99 10; mkPayload p SELL 101 10].
Proof. apply scenario_cycle. Qed.

(** C1 fails as stated: in the scenario the half-spread is not 2 ticks and
    the orders are not a BUY at 98 and a SELL at 102. *)
Lemma scenario_is_not_98_102 :
  (theo_of (utc_now frozen_env 0) scenario_bot "EQUATOR" == 100)%Q /\
  tick_sizes scenario_bot !! "EQUATOR" = Some 1%Q /\
  inventory scenario_bot !! "EQUATOR" = Some 0%Z /\
  _get_vol_est frozen_env scenario_bot "EQUATOR" 30 = Fin 0 /\
  ~ feq (_compute_half_spread_ticks frozen_env scenario_bot "EQUATOR") (Fin 2) /\
  gateway_log (snd (_market_make_loop frozen_env scenario_bot))
  = [mkPayload "EQUATOR" BUY 99 10; mkPayload "EQUATOR" SELL 101 10] /\
  gateway_log (snd (_market_make_loop frozen_env scenario_bot))
  <> [mkPayload "EQUATOR" BUY 98 10; mkPayload "EQUATOR" SELL 102 10].
Proof.
  assert (Hlog : gateway_log (snd (_market_make_loop frozen_env scenario_bot))
                 = [mkPayload "EQUATOR" BUY 99 10; mkPayload "EQUATOR" SELL 101 10])
    by (vm_compute; reflexivity).
  split; [vm_compute; reflexivity |].
  split; [vm_compute; reflexivity |].
  split; [vm_compute; reflexivity |].
  split; [vm_compute; reflexivity |].
  split; [vm_compute; discriminate |].
  split; [exact Hlog |].
  rewrite Hlog. discriminate.
Qed.

(** C6, as the code has it.  When [theos] holds no value for a product, the
    cycle is not skipped: the fair value read is the default 100.0 and the
    cycle goes on from it as from any other fair value; with the
    configuration of the scenario, tick 1, inventory 0 and volatility 0 it
    submits a BUY at 99 and a SELL at 101 for that product. *)
Theorem missing_theo_quotes_around_default (env : Env) (p : string) (b : Bot) :
  theos (utc_now env (clock b)) b !! p = None ->
  compute_levels env p b = levels_around env p 100 (set_clock S b) /\
  market_make_product env p b
  = (ql <- levels_around env p 100 ;; submit_levels env p (fst ql) (snd ql))
      (set_clock S b) /\
  (config b = scenario_config ->
   default 1%Q (tick_sizes b !! p) = 1%Q ->
   default 0%Z (inventory b !! p) = 0%Z ->
   feq (_get_vol_est env b p 30) (Fin 0) ->
   In p (products b) ->
   gateway_log (snd (market_make_product env p b))
   = gateway_log b ++ [mkPayload p BUY 99 10; mkPayload p SELL 101 10]).
Proof.
  intros Hnone.
  assert (Ht : theo_of (utc_now env (clock b)) b p = 100%Q)
    by (unfold theo_of; now rewrite Hnone).
  assert (Hcl : compute_levels env p b = levels_around env p 100 (set_clock S b)).
  { change (compute_levels env p b)
      with (levels_around env p (theo_of (utc_now env (clock b)) b p) (set_clock S b)).
    now rewrite Ht. }
  split; [exact Hcl | split].
  - unfold market_make_product, bind. now rewrite Hcl.
  - intros Hcfg Hk Hi Hv Hin.
    apply scenario_cycle; try assumption. now rewrite Ht.
Qed.

(** C6 fails as stated: a live bot on a product without a fair value quotes
    it, around 100. *)
Lemma unknown_product_is_quoted :
  theos (utc_now frozen_env 0) gold_bot !! "GOLD" = None /\
  gateway_log (snd (_market_make_loop frozen_env gold_bot))
  = [mkPayload "GOLD" BUY 99 10; mkPayload "GOLD" SELL 101 10;
     mkPayload "GOLD" BUY 98 10; mkPayload "GOLD" SELL 102 10] /\
  gateway_log (snd (_market_make_loop frozen_env gold_bot)) <> [].
Proof.
  assert (Hlog : gateway_log (snd (_market_make_loop frozen_env gold_bot))
                 = [mkPayload "GOLD" BUY 99 10; mkPayload "GOLD" SELL 101 10;
                    mkPayload "GOLD" BUY 98 10; mkPayload "GOLD" SELL 102 10])
    by (vm_compute; reflexivity).
  split; [vm_compute; reflexivity |].
  split; [exact Hlog |].
  rewrite Hlog. discriminate.
Qed.

(** ** The volatility estimate *)









(** The gap does not depend on the logarithm or the square root at hand. *)
Lemma vol_est_gap_any_env (env : Env) :
  _get_vol_est env gap_bot "EQUATOR" 3 = Fin 0 /\
  spec_vol_est env [100; 0; 100]%Q 3 = NaN /\
  spec_vol_est_skipping env [100; 0; 100]%Q 3 = NaN.
Proof. repeat split; reflexivity. Qed.

(** ** Order identifiers *)

Lemma sim_order_id_same_draws (env : Env) (k1 k2 : nat) :
  time_ms env k1 = time_ms env k2 ->
  random_randint env k1 = random_randint env k2 ->
  sim_order_id env k1 = sim_order_id env k2.
Proof. unfold sim_order_id. now intros -> ->. Qed.

(** C9 on the code.  Two submissions within one millisecond that draw the
    same random suffix create two distinct orders with one identifier: the
    BUY and the SELL of a cycle both get "sim-1700000000000-7" and sit side
    by side in the ledger.  With such a pair, the fill of the second order
    also throws the first, resting one out of the ledger: after a resting BUY
    at 95 and a marketable SELL at 99 with the same identifier (mid 100) the
    ledger is empty and the inventory is -10. *)
Theorem sim_order_id_reused :
  (let r1 := send_order frozen_env "EQUATOR" 99 BUY 10 scenario_bot in
   let r2 := send_order frozen_env "EQUATOR" 101 SELL 10 (snd r1) in
   exists o1 o2 : Order,
     fst r1 = Ok (Some o1) /\ fst r2 = Ok (Some o2) /\
     o_payload o1 <> o_payload o2 /\
     o_id o1 = "sim-1700000000000-7" /\ o_id o2 = "sim-1700000000000-7" /\
     open_orders_local (snd r2) = [("EQUATOR", [o1; o2])]) /\
  (let r1 := send_order frozen_env "EQUATOR" 95 BUY 10 mid100_bot in
   let r2 := send_order frozen_env "EQUATOR" 99 SELL 10 (snd r1) in
   exists o1 : Order,
     fst r1 = Ok (Some o1) /\
     open_orders_local (snd r1) = [("EQUATOR", [o1])] /\
     inventory (snd r1) !! "EQUATOR" = Some 0%Z /\
     open_orders_local (snd r2) = [("EQUATOR", [])] /\
     inventory (snd r2) !! "EQUATOR" = Some (-10)%Z).
Proof.
  split.
  - eexists _, _. vm_compute. repeat split. discriminate.
  - eexists _. vm_compute. repeat split.
Qed.

(** ** The theorems at concrete inputs *)

Lemma scenario_quotes_99_101_witness :
  feq (_compute_half_spread_ticks frozen_env scenario_bot "EQUATOR") (Fin 1) /\
  fst (compute_levels frozen_env "EQUATOR" scenario_bot) = Ok (10%Z, [(99%Q, 101%Q)]) /\
  gateway_log (snd (market_make_product frozen_env "EQUATOR" scenario_bot))
  = gateway_log scenario_bot
    ++ [mkPayload "EQUATOR" BUY 99 10; mkPayload "EQUATOR" SELL 101 10].
Proof.
  apply (scenario_quotes_99_101 frozen_env "EQUATOR" scenario_bot).
  - reflexivity.
  - vm_compute. reflexivity.
  - reflexivity.
  - reflexivity.
  - vm_compute. reflexivity.
  - simpl. left. reflexivity.
Defined.


Lemma only_uncrossed_pairs_submitted_witness :
  gateway_log
    (snd (submit_levels frozen_env "EQUATOR" 10 [(99%Q, 101%Q); (100%Q, 100%Q)]
            scenario_bot))
  = [mkPayload "EQUATOR" BUY 99 10; mkPayload "EQUATOR" SELL 101 10] /\
  gated_pair "EQUATOR" 10 (100%Q, 100%Q) = [].
Proof.
  destruct (only_uncrossed_pairs_submitted frozen_env "EQUATOR" 10
              [(99%Q, 101%Q); (100%Q, 100%Q)] scenario_bot)
    as [[delta [Hlog [_ Hexact]]] [_ Hskip]].
  split.
  - rewrite Hlog, (Hexact eq_refl). reflexivity.
  - apply Hskip. vm_compute. discriminate.
Defined.


Lemma mid_history_bounded_fifo_witness :
  push_mid (1%Q :: repeat 2%Q 199) 3%Q = repeat 2%Q 199 ++ [3%Q].
Proof.
  destruct mid_history_bounded_fifo as [_ [_ Hfull]].
  apply Hfull. reflexivity.
Defined.

Lemma missing_theo_quotes_around_default_witness :
  compute_levels frozen_env "GOLD" gold_bot
  = levels_around frozen_env "GOLD" 100 (set_clock S gold_bot) /\
  gateway_log (snd (market_make_product frozen_env "GOLD" gold_scenario_bot))
  = gateway_log gold_scenario_bot
    ++ [mkPayload "GOLD" BUY 99 10; mkPayload "GOLD" SELL 101 10].
Proof.
  split.
  - destruct (missing_theo_quotes_around_default frozen_env "GOLD" gold_bot eq_refl)
      as [Hcl _].
    exact Hcl.
  - destruct (missing_theo_quotes_around_default frozen_env "GOLD" gold_scenario_bot
                eq_refl) as [_ [_ Hq]].
    apply Hq.
    + reflexivity.
    + reflexivity.
    + reflexivity.
    + vm_compute. reflexivity.
    + simpl. left. reflexivity.
Defined.

Lemma zero_jitter_levels_deterministic_witness :
  fst (compute_levels frozen_env "EQUATOR" scenario_bot)
  = fst (compute_levels moving_env "EQUATOR"
           (run_op moving_env OpMarketUpdates scenario_bot)).
Proof.
  apply (zero_jitter_levels_deterministic frozen_env moving_env scenario_bot
           (run_op moving_env OpMarketUpdates scenario_bot) "EQUATOR").
  - reflexivity.
  - reflexivity.
  - vm_compute. reflexivity.
  - reflexivity.
  - reflexivity.
  - vm_compute. reflexivity.
Defined.

Lemma resting_orders_never_filled_later_witness :
  inventory (run_op frozen_env OpCancelAll mid100_bot) = inventory mid100_bot.
Proof.
  destruct (resting_orders_never_filled_later frozen_env) as [_ [Hmoves _]].
  apply (Hmoves OpCancelAll mid100_bot). reflexivity.
Defined.

(** * Further properties of the code *)

(** ** Rounding to the tick grid *)

Lemma py_round_near (x : Q) :
  (x - (1 # 2) <= inject_Z (py_round x) <= x + (1 # 2))%Q.
Proof.
  unfold py_round.
  pose proof (Qfloor_le x) as Hlo.
  pose proof (Qlt_floor x) as Hhi.
  rewrite inject_Z_plus in Hhi. change (inject_Z 1) with 1%Q in Hhi.
  destruct (x - inject_Z (Qfloor x) ?= 1 # 2)%Q eqn:E.
  - apply Qeq_alt in E.
    destruct (Z.even (Qfloor x));
      [| rewrite inject_Z_plus; change (inject_Z 1) with 1%Q]; lra.
  - apply Qlt_alt in E. lra.
  - apply Qgt_alt in E. rewrite inject_Z_plus. change (inject_Z 1) with 1%Q. lra.
Qed.

Lemma py_round_inject_Z (n : Z) : py_round (inject_Z n) = n.
Proof.
  unfold py_round. rewrite Qfloor_Z.
  destruct (inject_Z n - inject_Z n ?= 1 # 2)%Q eqn:E.
  - apply Qeq_alt in E. lra.
  - reflexivity.
  - apply Qgt_alt in E. lra.
Qed.

Lemma Qeq_bool_false_neq (x : Q) : Qeq_bool x 0 = false -> ~ (x == 0)%Q.
Proof. intros H E. apply Qeq_bool_iff in E. congruence. Qed.

Lemma pos_not_zero (x : Q) : (0 < x)%Q -> Qeq_bool x 0 = false.
Proof.
  intros H. destruct (Qeq_bool x 0) eqn:E; [| reflexivity].
  apply Qeq_bool_iff in E. lra.
Qed.

Lemma py_round_tie_even (x : Q) :
  (inject_Z (py_round x) - x == 1 # 2)%Q \/ (x - inject_Z (py_round x) == 1 # 2)%Q ->
  Z.even (py_round x) = true.
Proof.
  unfold py_round.
  pose proof (Qfloor_le x) as Hlo.
  pose proof (Qlt_floor x) as Hhi.
  rewrite inject_Z_plus in Hhi. change (inject_Z 1) with 1%Q in Hhi.
  destruct (x - inject_Z (Qfloor x) ?= 1 # 2)%Q eqn:E.
  - intros _. destruct (Z.even (Qfloor x)) eqn:Ev; [exact Ev |].
    rewrite Z.add_1_r, Z.even_succ, <- Z.negb_even, Ev. reflexivity.
  - apply Qlt_alt in E. intros [H | H]; exfalso; lra.
  - apply Qgt_alt in E. rewrite inject_Z_plus. change (inject_Z 1) with 1%Q.
    intros [H | H]; exfalso; lra.
Qed.

(** X1. With the tick size 1 that [__post_init__] gives every product,
    [_price_to_tick] returns the whole number nearest to a finite price, the
    even one of the two when the price lies halfway between them, and it
    returns a whole price as it is; a NaN price raises ValueError, and a
    tick of zero raises ZeroDivisionError whatever the price is. *)
Theorem price_to_tick_grid (p : Q) :
  (exists (r : Q) (n : Z),
     _price_to_tick (Fin p) 1 = Ok r /\
     (r == inject_Z n)%Q /\
     (p - (1 # 2) <= inject_Z n <= p + (1 # 2))%Q /\
     ((inject_Z n - p == 1 # 2)%Q \/ (p - inject_Z n == 1 # 2)%Q ->
      Z.even n = true)) /\
  (forall m : Z, exists r : Q,
     _price_to_tick (Fin (inject_Z m)) 1 = Ok r /\ (r == inject_Z m)%Q) /\
  _price_to_tick NaN 1 = Raise ValueError /\
  (forall px : pyfloat, _price_to_tick px 0 = Raise ZeroDivisionError).
Proof.
  assert (Hp : forall q : Q, py_round (q / 1) = py_round q).
  { intros q. apply py_round_comp. field. }
  split; [| split; [| split]].
  - exists (inject_Z (py_round (p / 1)) * 1)%Q, (py_round p).
    split; [reflexivity |]. rewrite Hp.
    split; [ring |]. split; [apply py_round_near | apply py_round_tie_even].
  - intros m. exists (inject_Z (py_round (inject_Z m / 1)) * 1)%Q.
    split; [reflexivity |]. rewrite Hp, py_round_inject_Z. ring.
  - reflexivity.
  - intros px. reflexivity.
Qed.

(** ** Ranges *)

Lemma py_range_length (lo hi : Z) : length (py_range lo hi) = Z.to_nat (hi - lo).
Proof. unfold py_range. now rewrite length_fmap, length_seq. Qed.

(** ** Cancelling *)

Lemma PyDict_of_keys_get_None {V : Type} (ks : list string) (f : string -> V)
    (k : string) :
  ~ In k ks -> PyDict.get (PyDict.of_keys ks f) k = None.
Proof.
  unfold PyDict.of_keys.
  assert (Hgen : forall d, PyDict.get d k = None -> ~ In k ks ->
                   PyDict.get (fold_left (fun d k1 => PyDict.set d k1 (f k1)) ks d) k
                   = None).
  { induction ks as [| k1 ks IH]; intros d Hd Hn; [exact Hd |].
    simpl. apply IH.
    - rewrite PyDict_get_set_ne; [exact Hd |]. intros ->. apply Hn. now left.
    - intros Hin. apply Hn. now right. }
  intros Hn. now apply Hgen.
Qed.

(** X3. In simulate mode [cancel_all_orders] returns normally and leaves a
    ledger in which every product of the bot has an empty list and no other
    key exists; it changes no other field of the bot, and a second call in
    succession changes nothing at all. *)
Theorem cancel_all_orders_sim_empties (env : Env) (b : Bot) :
  simulate_mode b = true ->
  let b' := snd (cancel_all_orders env b) in
  fst (cancel_all_orders env b) = Ok tt /\
  (forall p : string, In p (products b) ->
     PyDict.get (open_orders_local b') p = Some []) /\
  (forall p : string, ~ In p (products b) ->
     PyDict.get (open_orders_local b') p = None) /\
  b' = set_open_orders_local (fun _ => open_orders_local b') b /\
  snd (cancel_all_orders env b') = b'.
Proof.
  intros Hsim. unfold cancel_all_orders. run_bot. rewrite Hsim. run_bot.
  split; [reflexivity | split; [| split; [| split]]].
  - intros p Hin.
    exact (PyDict_of_keys_get (products b) (fun _ => @nil Order) p Hin).
  - intros p Hn.
    exact (PyDict_of_keys_get_None (products b) (fun _ => @nil Order) p Hn).
  - rewrite ?Hsim. reflexivity.
  - rewrite ?Hsim. run_bot. rewrite ?Hsim. reflexivity.
Qed.

Lemma cancel_all_orders_sim_empties_witness :
  PyDict.get
    (open_orders_local
       (snd (cancel_all_orders frozen_env
               (snd (send_order frozen_env "EQUATOR" 95 BUY 10 mid100_bot)))))
    "EQUATOR" = Some [].
Proof.
  destruct (cancel_all_orders_sim_empties frozen_env
              (snd (send_order frozen_env "EQUATOR" 95 BUY 10 mid100_bot)) eq_refl)
    as [_ [Hin _]].
  apply Hin. simpl. left. reflexivity.
Defined.

Lemma filter_idem {A : Type} (f : A -> bool) (l : list A) :
  List.filter f (List.filter f l) = List.filter f l.
Proof.
  induction l as [| x l IH]; [reflexivity |].
  simpl. destruct (f x) eqn:E; simpl; [rewrite E, IH |]; auto.
Qed.

Lemma filter_length_le {A : Type} (f : A -> bool) (l : list A) :
  (length (List.filter f l) <= length l)%nat.
Proof.
  induction l as [| x l IH]; simpl; [lia |].
  destruct (f x); simpl; lia.
Qed.

Lemma filter_shrinks {A : Type} (f : A -> bool) (l : list A) :
  (length (List.filter f l) <? length l)%nat = true <->
  exists x, In x l /\ f x = false.
Proof.
  rewrite Nat.ltb_lt. induction l as [| x l IH]; simpl.
  - split; [lia | intros [x [[] _]]].
  - pose proof (filter_length_le f l) as Hle.
    destruct (f x) eqn:E; simpl.
    + split.
      * intros H. destruct (proj1 IH ltac:(lia)) as [y [Hy Hf]].
        exists y. split; [now right | exact Hf].
      * intros [y [[-> | Hy] Hf]]; [congruence |].
        assert (length (List.filter f l) < length l)%nat
          by (apply IH; now exists y).
        lia.
    + split; [intros _; exists x; split; [now left | exact E] | lia].
Qed.

Lemma filter_keeps_all {A : Type} (f : A -> bool) (l : list A) :
  (length (List.filter f l) <? length l)%nat = false -> List.filter f l = l.
Proof.
  rewrite Nat.ltb_ge. induction l as [| x l IH]; simpl; [reflexivity |].
  pose proof (filter_length_le f l) as Hle.
  destruct (f x); simpl; intros H; [f_equal; apply IH; lia | lia].
Qed.

Lemma cancel_in_found (d : list (string * list Order)) (oid : string) :
  snd (cancel_in d oid) = true <->
  exists p lst o, In (p, lst) d /\ In o lst /\ o_id o = oid.
Proof.
  induction d as [| [p lst] d IH]; simpl.
  - split; [discriminate | intros [p [lst [o [[] _]]]]].
  - destruct (length (List.filter (id_differs oid) lst) <? length lst)%nat eqn:E.
    + simpl. split; [intros _ | reflexivity].
      apply filter_shrinks in E. destruct E as [o [Ho Hf]].
      exists p, lst, o. split; [now left | split; [exact Ho |]].
      unfold id_differs in Hf. apply negb_false_iff, String.eqb_eq in Hf. exact Hf.
    + destruct (cancel_in d oid) as [d' found]. simpl in *. rewrite IH. split.
      * intros [q [l [o [Hin H]]]]. exists q, l, o. split; [now right | exact H].
      * intros [q [l [o [[Hin | Hin] [Ho Hid]]]]].
        -- injection Hin as <- <-. exfalso.
           assert (Hs : (length (List.filter (id_differs oid) lst) <? length lst)%nat = true).
           { apply filter_shrinks. exists o. split; [exact Ho |].
             unfold id_differs. now rewrite Hid, String.eqb_refl. }
           congruence.
        -- exists q, l, o. auto.
Qed.

Lemma cancel_in_not_found (d : list (string * list Order)) (oid : string) :
  snd (cancel_in d oid) = false -> fst (cancel_in d oid) = d.
Proof.
  induction d as [| [p lst] d IH]; simpl; [reflexivity |].
  destruct (length (List.filter (id_differs oid) lst) <? length lst)%nat eqn:E;
    [discriminate |].
  destruct (cancel_in d oid) as [d' found]. simpl in *.
  intros Hf. now rewrite (filter_keeps_all _ _ E), (IH Hf).
Qed.

Lemma cancel_in_keys (d : list (string * list Order)) (oid : string) :
  map fst (fst (cancel_in d oid)) = map fst d.
Proof.
  induction d as [| [p lst] d IH]; simpl; [reflexivity |].
  destruct (length (List.filter (id_differs oid) lst) <? length lst)%nat;
    [reflexivity |].
  destruct (cancel_in d oid) as [d' found]. simpl in *. now rewrite IH.
Qed.

Lemma cancel_in_others (d : list (string * list Order)) (oid p : string)
    (lst : list Order) :
  PyDict.get d p = Some lst ->
  exists lst', PyDict.get (fst (cancel_in d oid)) p = Some lst' /\
    List.filter (id_differs oid) lst' = List.filter (id_differs oid) lst /\
    (forall o, In o lst' -> In o lst).
Proof.
  induction d as [| [k l] d IH]; simpl; [discriminate |].
  assert (Hsub : forall o, In o (List.filter (id_differs oid) l) -> In o l)
    by (intros o Ho; now apply List.filter_In in Ho).
  destruct (length (List.filter (id_differs oid) l) <? length l)%nat.
  - simpl. destruct (String.eqb k p).
    + intros E. injection E as <-. eexists. split; [reflexivity |].
      split; [apply filter_idem | exact Hsub].
    + intros E. exists lst. auto.
  - destruct (cancel_in d oid) as [d' found]. simpl in *.
    destruct (String.eqb k p).
    + intros E. injection E as <-. eexists. split; [reflexivity |].
      split; [apply filter_idem | exact Hsub].
    + exact IH.
Qed.

(** X4. In simulate mode [cancel_order] returns normally; it answers True
    exactly when some list of the ledger holds an order with that
    identifier; when it answers False the bot is unchanged; in every case
    the keys of the ledger stay as they are, no list gains an order, and
    every order with another identifier stays where it was. *)
Theorem cancel_order_sim_removes_by_id (env : Env) (b : Bot) (oid : string) :
  simulate_mode b = true ->
  let r := cancel_order env oid b in
  exists found : bool,
    fst r = Ok found /\
    (found = true <->
     exists p lst o, In (p, lst) (open_orders_local b) /\ In o lst /\ o_id o = oid) /\
    (found = false -> snd r = b) /\
    map fst (open_orders_local (snd r)) = map fst (open_orders_local b) /\
    (forall p lst, PyDict.get (open_orders_local b) p = Some lst ->
       exists lst', PyDict.get (open_orders_local (snd r)) p = Some lst' /\
         List.filter (id_differs oid) lst' = List.filter (id_differs oid) lst /\
         (forall o, In o lst' -> In o lst)).
Proof.
  intros Hsim. unfold cancel_order. run_bot. rewrite Hsim.
  pose proof (cancel_in_found (open_orders_local b) oid) as Hfound.
  pose proof (cancel_in_not_found (open_orders_local b) oid) as Hnot.
  pose proof (cancel_in_keys (open_orders_local b) oid) as Hkeys.
  pose proof (cancel_in_others (open_orders_local b) oid) as Hoth.
  destruct (cancel_in (open_orders_local b) oid) as [d found]. run_bot.
  cbn [fst snd] in *. exists found.
  split; [reflexivity | split; [exact Hfound | split; [| split; [exact Hkeys | exact Hoth]]]].
  intros Hf. rewrite (Hnot Hf). clear -Hsim.
  destruct b; simpl in *; subst; reflexivity.
Qed.

Lemma cancel_order_sim_removes_by_id_witness :
  snd (cancel_order frozen_env "no-such-id"
         (snd (send_order frozen_env "EQUATOR" 95 BUY 10 mid100_bot)))
  = snd (send_order frozen_env "EQUATOR" 95 BUY 10 mid100_bot).
Proof.
  destruct (cancel_order_sim_removes_by_id frozen_env
              (snd (send_order frozen_env "EQUATOR" 95 BUY 10 mid100_bot))
              "no-such-id" eq_refl) as [found [Hr [_ [Hsame _]]]].
  apply Hsame.
  assert (E : Ok found = Ok false) by (rewrite <- Hr; vm_compute; reflexivity).
  now injection E.
Defined.

(** ** What no action writes *)

Ltac unfold_ops :=
  unfold _market_make_loop, market_make_product, submit_levels, compute_levels,
    levels_around, _on_orderbook_wrapper, on_orderbook, _simulate_market_updates,
    record_mid, send_order, _simulate_fill, cancel_all_orders, cancel_order,
    orders_of.

Lemma run_op_static (env : Env) (op : Op) (b : Bot) :
  static_fields (run_op env op b) = static_fields b.
Proof.
  assert (H : forall (A : Type) (m : M A),
            preserves (keeps simulate_mode) m -> preserves (keeps products) m ->
            preserves (keeps config) m -> preserves (keeps tick_sizes) m ->
            static_fields (snd (m b)) = static_fields b).
  { intros A m H1 H2 H3 H4. unfold static_fields.
    now rewrite (H1 b), (H2 b), (H3 b), (H4 b). }
  destruct op; simpl; try reflexivity; apply H; unfold_ops; pres.
Qed.

Lemma run_ops_static (env : Env) (ops : list Op) (b : Bot) :
  static_fields (run_ops env ops b) = static_fields b.
Proof.
  unfold run_ops. revert b.
  induction ops as [| op ops IH]; intros b; simpl; [reflexivity |].
  now rewrite IH, run_op_static.
Qed.

(** ** Live mode *)

#[global] Instance live_step_preorder : PreOrder live_step.
Proof.
  split.
  - intros b H. split; [exact H | split; [reflexivity |]].
    intros p lst E. exists []. now rewrite app_nil_r.
  - intros b1 b2 b3 H12 H23 H.
    destruct (H12 H) as [M2 [I2 L2]]. destruct (H23 M2) as [M3 [I3 L3]].
    split; [exact M3 | split; [congruence |]].
    intros p lst E. destruct (L2 p lst E) as [m1 E2].
    destruct (L3 p _ E2) as [m2 E3]. exists (m1 ++ m2). now rewrite app_assoc.
Qed.

Lemma keeps_live_step (b b' : Bot) :
  keeps simulate_mode b b' -> keeps inventory b b' -> keeps open_orders_local b b' ->
  live_step b b'.
Proof.
  unfold keeps. intros Hm Hi Ho H.
  split; [congruence | split; [exact Hi |]].
  intros p lst E. exists []. rewrite Ho, app_nil_r. exact E.
Qed.

Section Live.

Variable env : Env.

Lemma send_order_live_step (p : string) (px : Q) (s : Side) (v : Z) :
  preserves live_step (send_order env p px s v).
Proof.
  intros b Hlive. unfold send_order. run_bot. rewrite Hlive. run_bot.
  destruct (http_post_order env (clock b) _) as [data |]; run_bot.
  - destruct (PyDict.get (open_orders_local b) p) as [lst |] eqn:E; run_bot.
    + split; [rewrite ?Hlive; reflexivity | split; [reflexivity |]].
      intros q l Eq. destruct (String.eqb p q) eqn:Epq.
      * apply String.eqb_eq in Epq. subst q.
        exists [data]. rewrite PyDict_get_set_eq. congruence.
      * apply String.eqb_neq in Epq. exists [].
        rewrite PyDict_get_set_ne by exact Epq. now rewrite app_nil_r.
    + split; [rewrite ?Hlive; reflexivity | split; [reflexivity |]].
      intros q l Eq. exists []. now rewrite app_nil_r.
  - split; [rewrite ?Hlive; reflexivity | split; [reflexivity |]].
    intros q l Eq. exists []. now rewrite app_nil_r.
Qed.

Lemma cancel_order_live_step (oid : string) :
  preserves live_step (cancel_order env oid).
Proof.
  intros b Hlive. unfold cancel_order. run_bot. rewrite Hlive. run_bot.
  split; [rewrite ?Hlive; reflexivity | split; [reflexivity |]].
  intros q l Eq. exists []. now rewrite app_nil_r.
Qed.

Lemma cancel_all_orders_live_step : preserves live_step (cancel_all_orders env).
Proof.
  intros b Hlive. unfold cancel_all_orders. run_bot. rewrite Hlive. run_bot.
  assert (H0 : live_step b (set_clock S b)) by (apply keeps_live_step; reflexivity).
  match goal with
  | |- context [for_each ?l ?f ?b1] =>
      assert (H1 : preserves live_step (for_each l f))
  end.
  { papply preserves_for_each. intros [oid |].
    - papply preserves_bind; [apply cancel_order_live_step | intros _; papply preserves_ret].
    - papply preserves_ret. }
  exact (transitivity H0 (H1 (set_clock S b)) Hlive).
Qed.

Lemma market_make_product_live_step (p : string) :
  preserves live_step (market_make_product env p).
Proof.
  unfold market_make_product, compute_levels, levels_around.
  papply preserves_bind.
  - papply preserves_bind.
    { apply preserves_tick. intros b. apply keeps_live_step; reflexivity. }
    intros k. papply preserves_bind; [papply preserves_get_bot | intros b0].
    papply preserves_bind; [papply preserves_get_bot | intros b1].
    papply preserves_bind; [papply preserves_lift | intros rounded].
    papply preserves_bind; [apply cancel_all_orders_live_step | intros _].
    papply preserves_bind; [| intros lvls; papply preserves_ret].
    papply preserves_map_m. intros lvl.
    papply preserves_bind; [| intros k0; papply preserves_lift].
    apply preserves_tick. intros b. apply keeps_live_step; reflexivity.
  - intros [qty lvls]. unfold submit_levels. papply preserves_for_each.
    intros [bp sp]. destruct (Qltb bp sp).
    + repeat (papply preserves_bind; [apply send_order_live_step | intros _]).
      papply preserves_ret.
    + papply preserves_ret.
Qed.

Lemma run_op_live_step (op : Op) (b : Bot) : live_step b (run_op env op b).
Proof.
  destruct op; simpl.
  - apply send_order_live_step.
  - apply cancel_order_live_step.
  - apply cancel_all_orders_live_step.
  - apply keeps_live_step.
    + apply (f_equal (fun s => fst (fst (fst s))) (run_op_static env OpMarketUpdates b)).
    + apply _simulate_market_updates_keeps_inventory.
    + apply _simulate_market_updates_keeps_ledger.
  - apply keeps_live_step.
    + apply (f_equal (fun s => fst (fst (fst s))) (run_op_static env (OpOrderbook raw) b)).
    + apply _on_orderbook_wrapper_keeps_inventory.
    + assert (H : preserves (keeps open_orders_local) (_on_orderbook_wrapper env raw))
        by (unfold_ops; pres).
      apply H.
  - apply keeps_live_step; reflexivity.
  - unfold _market_make_loop.
    assert (H : preserves live_step (_market_make_loop env)).
    { unfold _market_make_loop. papply preserves_try_except.
      papply preserves_bind; [papply preserves_get_bot | intros b0].
      papply preserves_for_each. intros p. apply market_make_product_live_step. }
    apply H.
Qed.

Lemma run_ops_live_step (ops : list Op) (b : Bot) : live_step b (run_ops env ops b).
Proof.
  unfold run_ops. revert b.
  induction ops as [| op ops IH]; intros b; simpl; [reflexivity |].
  etransitivity; [apply run_op_live_step | apply IH].
Qed.

End Live.

(** X5. No action of any thread writes the mode, the product list, the
    strategy parameters or the tick sizes of a bot; and in a live bot no
    sequence of actions moves the inventory of any product: fills on the
    exchange are never booked. *)
Theorem live_inventory_is_frozen (env : Env) (ops : list Op) (b : Bot) :
  static_fields (run_ops env ops b) = static_fields b /\
  (simulate_mode b = false -> inventory (run_ops env ops b) = inventory b).
Proof.
  split; [apply run_ops_static |].
  intros Hlive. now destruct (run_ops_live_step env ops b Hlive) as [_ [Hi _]].
Qed.

Lemma live_inventory_is_frozen_witness :
  inventory (run_ops moving_env [OpMarketMake; OpSendOrder "GOLD" 100 BUY 5] gold_bot)
  = inventory gold_bot.
Proof.
  destruct (live_inventory_is_frozen moving_env
              [OpMarketMake; OpSendOrder "GOLD" 100 BUY 5] gold_bot) as [_ H].
  apply H. reflexivity.
Defined.

(** X6. In a live bot the local ledger is append-only: through any sequence
    of actions, cancellations included, every list of the ledger keeps all
    its entries in place and can only be extended at its end. *)
Theorem live_ledger_only_grows (env : Env) (ops : list Op) (b : Bot)
    (p : string) (lst : list Order) :
  simulate_mode b = false ->
  PyDict.get (open_orders_local b) p = Some lst ->
  exists more : list Order,
    PyDict.get (open_orders_local (run_ops env ops b)) p = Some (lst ++ more).
Proof.
  intros Hlive E.
  destruct (run_ops_live_step env ops b Hlive) as [_ [_ Hl]]. now apply Hl.
Qed.

Lemma live_ledger_only_grows_witness :
  exists more : list Order,
    PyDict.get
      (open_orders_local (run_ops moving_env [OpMarketMake; OpCancelAll] gold_bot))
      "GOLD" = Some ([] ++ more) /\ length more = 4%nat.
Proof.
  destruct (live_ledger_only_grows moving_env [OpMarketMake; OpCancelAll] gold_bot
              "GOLD" [] eq_refl eq_refl) as [more E].
  exists more. split; [exact E |].
  assert (E' : Some ([] ++ more)
               = Some (default [] (PyDict.get
                   (open_orders_local
                      (run_ops moving_env [OpMarketMake; OpCancelAll] gold_bot)) "GOLD")))
    by (rewrite E; reflexivity).
  injection E' as ->. vm_compute. reflexivity.
Defined.

(** ** Keys that are never missing *)

#[global] Instance well_keyed_step_preorder : PreOrder well_keyed_step.
Proof.
  split.
  - intros b H. exact H.
  - intros b1 b2 b3 H12 H23 H. apply H23, H12, H.
Qed.

Lemma keys_kept_well_keyed_step (b b' : Bot) : keys_kept b b' -> well_keyed_step b b'.
Proof.
  intros [Hp [Ht [Ho Hr]]] Hw p Hin. rewrite Hp in Hin.
  destruct (Hw p Hin) as [H1 [H2 H3]].
  split; [now apply Ho | split; [now apply Hr | now rewrite Ht]].
Qed.

Lemma PyDict_set_keeps_keys {V : Type} (d : list (string * V)) (k q : string) (v : V) :
  is_Some (PyDict.get d q) -> is_Some (PyDict.get (PyDict.set d k v) q).
Proof.
  intros H. destruct (String.eqb k q) eqn:E.
  - apply String.eqb_eq in E. subst q. rewrite PyDict_get_set_eq. now eexists.
  - apply String.eqb_neq in E. now rewrite PyDict_get_set_ne.
Qed.

Ltac solve_keys_kept :=
  intros; apply keys_kept_well_keyed_step;
  split; [reflexivity | split; [reflexivity | split]];
  cbn [open_orders_local recent_mid set_inventory set_open_orders_local
       set_recent_mid set_clock set_gateway_log set_flight_data];
  let k := fresh "k" in
  let Hk := fresh "Hk" in
  intros k Hk;
  first [ exact Hk
        | apply PyDict_set_keeps_keys; exact Hk
        | match goal with
          | |- is_Some (<[?p := _]> _ !! k) =>
              let Hne := fresh "Hne" in
              destruct (decide (p = k)) as [<- | Hne];
              [rewrite lookup_insert_eq; now eexists
              | rewrite lookup_insert_ne by exact Hne; exact Hk]
          end ].

Ltac keyed :=
  repeat first
    [ progress intros
    | match goal with
      | |- PreOrder _ => exact _
      end
    | apply preserves_ret
    | apply preserves_raise
    | apply preserves_lift
    | apply preserves_get_bot
    | apply preserves_tick; solve_keys_kept
    | apply preserves_modify; solve_keys_kept
    | apply preserves_bind
    | apply preserves_for_each
    | apply preserves_map_m
    | apply preserves_try_except
    | match goal with
      | |- preserves _ (match ?x with _ => _ end) => destruct x
      end ].

Section Keyed.

Variable env : Env.

Lemma send_order_well_keyed (p : string) (px : Q) (s : Side) (v : Z) :
  preserves well_keyed_step (send_order env p px s v).
Proof. unfold send_order, _simulate_fill, orders_of. keyed. Qed.

Lemma record_mid_well_keyed (p : string) (mid : Q) :
  preserves well_keyed_step (record_mid p mid).
Proof. unfold record_mid. keyed. Qed.

Lemma cancel_order_well_keyed (oid : string) :
  preserves well_keyed_step (cancel_order env oid).
Proof.
  intros b. unfold cancel_order. run_bot.
  destruct (simulate_mode b).
  - pose proof (cancel_in_others (open_orders_local b) oid) as Hoth.
    destruct (cancel_in (open_orders_local b) oid) as [d found]. run_bot.
    apply keys_kept_well_keyed_step.
    split; [reflexivity | split; [reflexivity | split]]; cbn [open_orders_local recent_mid].
    + intros q [lst Hq]. destruct (Hoth q lst Hq) as [lst' [E _]].
      cbn [fst] in E. exists lst'. exact E.
    + intros q Hq. exact Hq.
  - run_bot. apply keys_kept_well_keyed_step.
    split; [reflexivity | split; [reflexivity | split]]; intros q Hq; exact Hq.
Qed.

Lemma cancel_all_orders_well_keyed :
  preserves well_keyed_step (cancel_all_orders env).
Proof.
  intros b. unfold cancel_all_orders. run_monad.
  destruct (simulate_mode b).
  - run_bot. intros Hw p Hin. cbn [products] in Hin.
    destruct (Hw p Hin) as [_ [H2 H3]].
    split; [| split; [exact H2 | exact H3]].
    cbn [open_orders_local].
    rewrite (PyDict_of_keys_get (products b) (fun _ => @nil Order) p Hin). now eexists.
  - assert (H0 : well_keyed_step b (set_clock S b)).
    { apply keys_kept_well_keyed_step.
      split; [reflexivity | split; [reflexivity | split]]; intros q Hq; exact Hq. }
    match goal with
    | |- context [for_each ?l ?f _] =>
        assert (H1 : preserves well_keyed_step (for_each l f))
    end.
    { papply preserves_for_each. intros [oid |].
      - papply preserves_bind;
          [apply cancel_order_well_keyed | intros _; papply preserves_ret].
      - papply preserves_ret. }
    exact (transitivity H0 (H1 (set_clock S b))).
Qed.

Lemma market_make_product_well_keyed (p : string) :
  preserves well_keyed_step (market_make_product env p).
Proof.
  unfold market_make_product, compute_levels, levels_around.
  papply preserves_bind.
  - papply preserves_bind; [apply preserves_tick; solve_keys_kept | intros k].
    papply preserves_bind; [papply preserves_get_bot | intros b0].
    papply preserves_bind; [papply preserves_get_bot | intros b1].
    papply preserves_bind; [papply preserves_lift | intros rounded].
    papply preserves_bind; [apply cancel_all_orders_well_keyed | intros _].
    papply preserves_bind; [| intros lvls; papply preserves_ret].
    papply preserves_map_m. intros lvl.
    papply preserves_bind; [apply preserves_tick; solve_keys_kept | intros k0].
    papply preserves_lift.
  - intros [qty lvls]. unfold submit_levels. papply preserves_for_each.
    intros [bp sp]. destruct (Qltb bp sp).
    + repeat (papply preserves_bind; [apply send_order_well_keyed | intros _]).
      papply preserves_ret.
    + papply preserves_ret.
Qed.

Lemma run_op_well_keyed (op : Op) (b : Bot) : well_keyed_step b (run_op env op b).
Proof.
  destruct op; simpl.
  - apply send_order_well_keyed.
  - apply cancel_order_well_keyed.
  - apply cancel_all_orders_well_keyed.
  - assert (H : preserves well_keyed_step (_simulate_market_updates env)).
    { unfold _simulate_market_updates, record_mid. keyed. }
    apply H.
  - assert (H : preserves well_keyed_step (_on_orderbook_wrapper env raw)).
    { unfold _on_orderbook_wrapper, on_orderbook, record_mid. keyed. }
    apply H.
  - apply keys_kept_well_keyed_step.
    split; [reflexivity | split; [reflexivity | split]]; intros q Hq; exact Hq.
  - assert (H : preserves well_keyed_step (_market_make_loop env)).
    { unfold _market_make_loop. papply preserves_try_except.
      papply preserves_bind; [papply preserves_get_bot | intros b0].
      papply preserves_for_each. intros p. apply market_make_product_well_keyed. }
    apply H.
Qed.

Lemma run_ops_well_keyed (ops : list Op) (b : Bot) :
  well_keyed_step b (run_ops env ops b).
Proof.
  unfold run_ops. revert b.
  induction ops as [| op ops IH]; intros b; simpl; [reflexivity |].
  etransitivity; [apply run_op_well_keyed | apply IH].
Qed.

End Keyed.

Lemma post_init_well_keyed (sim : bool) (ps : list string) (cfg : Config) :
  well_keyed (post_init sim ps cfg).
Proof.
  intros p Hin. simpl in *. split; [| split].
  - rewrite (PyDict_of_keys_get ps (fun _ => @nil Order) p Hin). now eexists.
  - destruct (list_to_map ((fun p0 => (p0, [])) <$> ps) !! p) as [h |] eqn:E;
      [now eexists |].
    apply not_elem_of_list_to_map_2 in E. exfalso. apply E.
    rewrite <- list_fmap_compose. simpl. rewrite list_fmap_id.
    now apply list_elem_of_In.
  - destruct (list_to_map ((fun p0 => (p0, 1%Q)) <$> ps) !! p) as [t |] eqn:E.
    + apply elem_of_list_to_map_2 in E. apply list_elem_of_fmap in E.
      destruct E as [q [E _]]. now injection E as _ ->.
    + apply not_elem_of_list_to_map_2 in E. exfalso. apply E.
      rewrite <- list_fmap_compose. simpl. rewrite list_fmap_id.
      now apply list_elem_of_In.
Qed.

Lemma bind_run {A B : Type} (m : M A) (k : A -> M B) (b : Bot) (a : A) :
  fst (m b) = Ok a -> bind m k b = k a (snd (m b)).
Proof.
  unfold bind. destruct (m b) as [[a' | e] b']; cbn [fst snd]; intros E;
    [now injection E as -> | discriminate].
Qed.

Lemma for_each_returns {A : Type} (I : Bot -> Prop) (body : A -> M unit)
    (xs : list A) (b : Bot) :
  I b ->
  (forall x b0, In x xs -> I b0 -> fst (body x b0) = Ok tt /\ I (snd (body x b0))) ->
  fst (for_each xs body b) = Ok tt /\ I (snd (for_each xs body b)).
Proof.
  revert b. induction xs as [| x xs IH]; intros b Hb Hbody; [now split |].
  cbn [for_each].
  destruct (Hbody x b (or_introl eq_refl) Hb) as [Hok Hi].
  rewrite (bind_run _ _ b tt Hok).
  apply IH; [exact Hi |].
  intros y b0 Hy. apply Hbody. now right.
Qed.

Section NoKeyError.

Variable env : Env.

Lemma _simulate_market_updates_returns (b : Bot) :
  well_keyed b -> fst (_simulate_market_updates env b) = Ok tt.
Proof.
  intros Hw. unfold _simulate_market_updates.
  rewrite (bind_run get_bot _ b b eq_refl). cbn [snd get_bot].
  apply (for_each_returns (fun b0 => well_keyed b0 /\ products b0 = products b));
    [now split |].
  intros p b0 Hin [Hw0 Hp0].
  assert (Hin0 : In p (products b0)) by now rewrite Hp0.
  destruct (Hw0 p Hin0) as [_ [[hist Hh] _]].
  split; [| split].
  - unfold record_mid. run_bot. now rewrite Hh.
  - match goal with
    | |- well_keyed (snd (?m b0)) =>
        assert (Hp : preserves well_keyed_step m) by (unfold record_mid; keyed);
        exact (Hp b0 Hw0)
    end.
  - unfold record_mid. run_bot. rewrite Hh. exact Hp0.
Qed.

End NoKeyError.

(** X7. A bot built by [__post_init__] keeps, through every sequence of
    actions, each of its products as a key of the ledger and of the
    mid-price histories, with tick size 1; hence [send_order] on one of its
    products never raises, in either mode, and a pass of the synthetic
    market generator never raises. *)
Theorem fresh_bot_never_misses_a_key (env : Env) (sim : bool) (ps : list string)
    (cfg : Config) (ops : list Op) :
  let b := run_ops env ops (post_init sim ps cfg) in
  well_keyed b /\
  (forall (p : string) (px : Q) (s : Side) (v : Z), In p ps ->
     exists o, fst (send_order env p px s v b) = Ok o) /\
  fst (_simulate_market_updates env b) = Ok tt.
Proof.
  cbv zeta.
  assert (Hw : well_keyed (run_ops env ops (post_init sim ps cfg)))
    by (apply run_ops_well_keyed, post_init_well_keyed).
  assert (Hp : products (run_ops env ops (post_init sim ps cfg)) = ps)
    by exact (f_equal (fun s => snd (fst (fst s)))
                (run_ops_static env ops (post_init sim ps cfg))).
  split; [exact Hw | split].
  - intros p px s v Hin.
    apply (send_order_returns env p px s v).
    intros _. rewrite <- Hp in Hin. now destruct (Hw p Hin).
  - now apply _simulate_market_updates_returns.
Qed.

Lemma fresh_bot_never_misses_a_key_witness :
  exists o,
    fst (send_order moving_env "FLIGHTS" 200 SELL 3
           (run_ops moving_env [OpMarketUpdates; OpMarketMake; OpCancelAll]
              (post_init true ["EQUATOR"; "FLIGHTS"] default_config)))
    = Ok o.
Proof.
  destruct (fresh_bot_never_misses_a_key moving_env true ["EQUATOR"; "FLIGHTS"]
              default_config [OpMarketUpdates; OpMarketMake; OpCancelAll])
    as [_ [Hsend _]].
  apply Hsend. simpl. right. left. reflexivity.
Defined.

(** ** How a cycle ends *)

Lemma quote_level_finite (cfg : Config) (center hp t : Q) (aggressive : bool)
    (lvl : Z) (r : Q) :
  Qeq_bool t 0 = false ->
  exists y, quote_level cfg center (Fin hp) t aggressive lvl r = Ok y.
Proof.
  intros Ht. unfold quote_level, _price_to_tick. rewrite Ht.
  destruct aggressive; simpl; now eexists.
Qed.

Lemma quote_level_nan (cfg : Config) (center t : Q) (aggressive : bool)
    (lvl : Z) (r : Q) :
  Qeq_bool t 0 = false ->
  quote_level cfg center NaN t aggressive lvl r = Raise ValueError.
Proof.
  intros Ht. unfold quote_level, _price_to_tick. rewrite Ht.
  now destruct aggressive.
Qed.

Lemma map_m_all_return {A B : Type} (f : A -> M B) (xs : list A) (b : Bot) :
  (forall x b0, exists y, fst (f x b0) = Ok y) ->
  exists ys, fst (map_m f xs b) = Ok ys.
Proof.
  intros Hf. revert b. induction xs as [| x xs IH]; intros b; [now eexists |].
  cbn [map_m]. destruct (Hf x b) as [y Hy].
  rewrite (bind_run _ _ b y Hy).
  destruct (IH (snd (f x b))) as [ys Hys].
  rewrite (bind_run _ _ _ ys Hys). now eexists.
Qed.

Lemma map_m_first_raises {A B : Type} (f : A -> M B) (x : A) (xs : list A)
    (b : Bot) (e : exn) :
  fst (f x b) = Raise e -> fst (map_m f (x :: xs) b) = Raise e.
Proof.
  intros H. cbn [map_m]. unfold bind at 1.
  destruct (f x b) as [[y | e'] b1]; cbn [fst] in *;
    [discriminate | now injection H as ->].
Qed.

Section CycleEnd.

Variable env : Env.

Lemma levels_around_ledger_sim (p : string) (theo : Q) (b : Bot) :
  simulate_mode b = true ->
  Qeq_bool (default 1%Q (tick_sizes b !! p)) 0 = false ->
  open_orders_local (snd (levels_around env p theo b))
  = PyDict.of_keys (products b) (fun _ => []).
Proof.
  intros Hsim Ht. unfold levels_around. run_monad.
  unfold _price_to_tick at 1. rewrite Ht. cbn [rbind].
  unfold cancel_all_orders at 1. run_bot. rewrite Hsim. run_bot.
  match goal with
  | |- context [map_m ?f ?l ?b1] =>
      assert (Hk : preserves (keeps open_orders_local) (map_m f l))
        by (papply preserves_map_m; intros lvl b0; unfold keeps; reflexivity);
      specialize (Hk b1); unfold keeps in Hk;
      destruct (map_m f l b1) as [[lvls | e] b2]; exact Hk
  end.
Qed.

Lemma levels_around_outcome (p : string) (theo : Q) (b : Bot) :
  tick_sizes b !! p = Some 1%Q ->
  ((exists v, _get_vol_est env b p 30 = Fin v) ->
   exists ql, fst (levels_around env p theo b) = Ok ql) /\
  (_get_vol_est env b p 30 = NaN -> (1 <= levels (config b))%Z ->
   fst (levels_around env p theo b) = Raise ValueError).
Proof.
  intros Ht. unfold levels_around, _compute_half_spread_ticks. run_monad.
  rewrite Ht. cbn [default]. unfold id.
  change (_price_to_tick (Fin theo) 1)
    with (Ok (inject_Z (py_round (theo / 1)) * 1)%Q).
  pose proof (cancel_all_orders_returns env b) as Hc.
  destruct (cancel_all_orders env b) as [r b1]. cbn [fst] in Hc. subst r.
  split.
  - intros [v Hv]. rewrite Hv. cbn [fadd fmul fdiv flift2].
    match goal with
    | |- context [map_m ?f ?l b1] =>
        destruct (map_m_all_return f l b1) as [ys Hys];
        [ intros lvl b0; cbn [fst]; now apply quote_level_finite
        | destruct (map_m f l b1) as [r b2]; cbn [fst] in Hys; subst r ]
    end.
    now eexists.
  - intros Hv Hl. rewrite Hv. cbn [fadd fmul fdiv flift2].
    destruct (py_range 1 (levels (config b) + 1)) as [| lvl lvls] eqn:El.
    + apply (f_equal (@length Z)) in El. rewrite py_range_length in El.
      simpl in El. lia.
    + match goal with
      | |- context [map_m ?f (lvl :: lvls) b1] =>
          pose proof (map_m_first_raises f lvl lvls b1 ValueError) as Hr;
          destruct (map_m f (lvl :: lvls) b1) as [r b2]; cbn [fst] in Hr;
          rewrite Hr; [reflexivity |]
      end.
      cbn [fst]. now apply quote_level_nan.
Qed.

End CycleEnd.

(** X8. For a product of a well-keyed bot (as every bot built by
    [__post_init__] stays) that has no flight data yet and holds an
    inventory of the product of at most 2^53 units either way: when the
    volatility estimate is NaN and at least one level is configured, a
    quoting cycle raises ValueError from the rounding of the first level;
    nothing is sent, and in simulate mode the ledger has already been
    emptied for every product. *)
Theorem cycle_raises_on_nan_volatility (env : Env) (p : string) (b : Bot) :
  well_keyed b -> In p (products b) ->
  flight_data b = [] ->
  (Z.abs (default 0%Z (inventory b !! p)) <= 2 ^ 53)%Z ->
  _get_vol_est env b p 30 = NaN -> (1 <= levels (config b))%Z ->
  fst (market_make_product env p b) = Raise ValueError /\
  gateway_log (snd (market_make_product env p b)) = gateway_log b /\
  (simulate_mode b = true -> forall q, In q (products b) ->
     PyDict.get (open_orders_local (snd (market_make_product env p b))) q = Some []).
Proof.
  intros Hw Hin _ _ Hv Hl.
  destruct (Hw p Hin) as [_ [_ Ht]].
  destruct (levels_around_outcome env p
              (theo_of (utc_now env (clock b)) (set_clock S b) p) (set_clock S b) Ht)
    as [_ Hnan].
  change (levels_around env p (theo_of (utc_now env (clock b)) (set_clock S b) p)
            (set_clock S b)) with (compute_levels env p b) in Hnan.
  change (_get_vol_est env (set_clock S b) p 30) with (_get_vol_est env b p 30)
    in Hnan.
  change (config (set_clock S b)) with (config b) in Hnan.
  specialize (Hnan Hv Hl).
  pose proof (compute_levels_keeps_log env p b) as Hlog.
  assert (Hled : simulate_mode b = true ->
            open_orders_local (snd (compute_levels env p b))
            = PyDict.of_keys (products b) (fun _ => [])).
  { intros Hsim.
    refine (levels_around_ledger_sim env p
              (theo_of (utc_now env (clock b)) (set_clock S b) p)
              (set_clock S b) Hsim _).
    change (tick_sizes (set_clock S b)) with (tick_sizes b). now rewrite Ht. }
  unfold market_make_product, bind.
  destruct (compute_levels env p b) as [r b1]. cbn [fst snd] in *. subst r.
  cbn [fst snd]. split; [reflexivity | split; [exact Hlog |]].
  intros Hsim q Hq. rewrite (Hled Hsim).
  exact (PyDict_of_keys_get (products b) (fun _ => @nil Order) q Hq).
Qed.

Lemma cycle_raises_on_nan_volatility_witness :
  fst (market_make_product frozen_env "EQUATOR" two_sample_bot)
  = Raise ValueError /\
  PyDict.get
    (open_orders_local (snd (market_make_product frozen_env "EQUATOR" two_sample_bot)))
    "EQUATOR" = Some [].
Proof.
  assert (Hw : well_keyed two_sample_bot).
  { intros p Hin. simpl in Hin. destruct Hin as [<- | []].
    split; [| split]; [eexists | eexists |]; vm_compute; reflexivity. }
  assert (Hin : In "EQUATOR" (products two_sample_bot)) by (simpl; now left).
  destruct (cycle_raises_on_nan_volatility frozen_env "EQUATOR" two_sample_bot
              Hw Hin eq_refl) as [Hr [_ Hl]];
    [vm_compute; discriminate | vm_compute; reflexivity | simpl; lia |].
  split; [exact Hr | apply Hl; [reflexivity | exact Hin]].
Defined.

(** ** One ledger for all products *)

Section Wipe.

Variable env : Env.

Lemma send_order_keeps_other (p q : string) (px : Q) (s : Side) (v : Z) :
  p <> q ->
  preserves (keeps (fun b => PyDict.get (open_orders_local b) q))
    (send_order env p px s v).
Proof.
  intros Hne. unfold send_order, _simulate_fill, orders_of. pres.
  all: apply preserves_modify; intros b0; unfold keeps; run_bot;
    now apply PyDict_get_set_ne.
Qed.

Lemma submit_levels_keeps_other (p q : string) (qty : Z) (lvls : list (Q * Q)) :
  p <> q ->
  preserves (keeps (fun b => PyDict.get (open_orders_local b) q))
    (submit_levels env p qty lvls).
Proof.
  intros Hne. unfold submit_levels. papply preserves_for_each.
  intros [bp sp]. destruct (Qltb bp sp).
  - repeat (papply preserves_bind; [now apply send_order_keeps_other | intros _]).
    papply preserves_ret.
  - papply preserves_ret.
Qed.

Lemma market_make_product_keeps_mode (p : string) :
  preserves (keeps (fun b => (simulate_mode b, products b)))
    (market_make_product env p).
Proof. unfold_ops. pres. Qed.

Lemma compute_levels_ledger_sim (p : string) (b : Bot) :
  simulate_mode b = true -> well_keyed b -> In p (products b) ->
  open_orders_local (snd (compute_levels env p b))
  = PyDict.of_keys (products b) (fun _ => []).
Proof.
  intros Hsim Hw Hin. destruct (Hw p Hin) as [_ [_ Ht]].
  refine (levels_around_ledger_sim env p
            (theo_of (utc_now env (clock b)) (set_clock S b) p)
            (set_clock S b) Hsim _).
  change (tick_sizes (set_clock S b)) with (tick_sizes b). now rewrite Ht.
Qed.

(** After a cycle on [p], every other product has an empty list; after a
    cycle that raised, every product has. *)
Lemma market_make_product_sim_ledger (p : string) (b : Bot) :
  simulate_mode b = true -> well_keyed b -> In p (products b) ->
  forall q, In q (products b) ->
    (q <> p \/ fst (market_make_product env p b) <> Ok tt) ->
    PyDict.get (open_orders_local (snd (market_make_product env p b))) q = Some [].
Proof.
  intros Hsim Hw Hin q Hq Hor.
  pose proof (compute_levels_ledger_sim p b Hsim Hw Hin) as Hled.
  assert (Hemp : PyDict.get (open_orders_local (snd (compute_levels env p b))) q
                 = Some []).
  { rewrite Hled. exact (PyDict_of_keys_get (products b) (fun _ => @nil Order) q Hq). }
  revert Hor. unfold market_make_product, bind.
  destruct (compute_levels env p b) as [[ql | e] b1] eqn:E; cbn [fst snd] in *;
    [| intros _; exact Hemp].
  assert (Hc : can_send p b1).
  { pose proof (compute_levels_can_send env p b Hin) as Hc.
    rewrite E in Hc. cbn [fst snd] in Hc. apply Hc. now eexists. }
  intros [Hne | Hr].
  - rewrite <- Hemp.
    apply (submit_levels_keeps_other p q (fst ql) (snd ql)). congruence.
  - exfalso. apply Hr. now apply submit_levels_returns.
Qed.

Lemma for_each_cycles_sim_ledger (ps : list string) (last : string) (b : Bot) :
  simulate_mode b = true -> well_keyed b ->
  (forall x, In x (ps ++ [last]) -> In x (products b)) ->
  forall q, In q (products b) -> q <> last ->
    PyDict.get
      (open_orders_local
         (snd (for_each (ps ++ [last]) (market_make_product env) b))) q
    = Some [].
Proof.
  revert b. induction ps as [| p ps IH]; intros b Hsim Hw Hsub q Hq Hne.
  - cbn [app for_each]. unfold bind.
    pose proof (market_make_product_sim_ledger last b Hsim Hw
                  (Hsub last (or_introl eq_refl)) q Hq (or_introl Hne)) as H.
    destruct (market_make_product env last b) as [[[] | e] b1]; exact H.
  - cbn [app for_each]. unfold bind.
    assert (Hp : In p (products b)) by (apply Hsub; now left).
    pose proof (market_make_product_sim_ledger p b Hsim Hw Hp q Hq) as H.
    pose proof (market_make_product_well_keyed env p b Hw) as Hw1.
    pose proof (market_make_product_keeps_mode p b) as Hm.
    unfold keeps in Hm.
    destruct (market_make_product env p b) as [[[] | e] b1]; cbn [fst snd] in *.
    + injection Hm as Hm1 Hm2.
      apply IH; [congruence | exact Hw1 | | now rewrite Hm2 | exact Hne].
      intros x Hx. rewrite Hm2. apply Hsub. now right.
    + apply H. right. discriminate.
Qed.

End Wipe.

(** X9. The simulated ledger is one for all products, and each cycle clears
    it: after a cycle on one product of a simulated, well-keyed bot, every
    other product has no resting order left; after one pass of
    [_market_make_loop] over the products, however it ended, only the last
    product of the list can have resting orders. *)
Theorem sim_cycle_wipes_other_products (env : Env) (b : Bot) :
  simulate_mode b = true -> well_keyed b ->
  (forall p q, In p (products b) -> In q (products b) -> q <> p ->
     PyDict.get (open_orders_local (snd (market_make_product env p b))) q
     = Some []) /\
  (forall ps last q, products b = ps ++ [last] -> In q ps -> q <> last ->
     PyDict.get (open_orders_local (snd (_market_make_loop env b))) q = Some []).
Proof.
  intros Hsim Hw. split.
  - intros p q Hp Hq Hne.
    apply market_make_product_sim_ledger; auto.
  - intros ps last q Hps Hq Hne.
    unfold _market_make_loop, try_except. run_monad. rewrite Hps.
    pose proof (for_each_cycles_sim_ledger env ps last b Hsim Hw) as H.
    destruct (for_each (ps ++ [last]) (market_make_product env) b) as [r b1].
    cbn [snd] in *. apply H; [now rewrite Hps | | exact Hne].
    rewrite Hps. apply in_or_app. now left.
Qed.

Lemma sim_cycle_wipes_other_products_witness :
  PyDict.get
    (open_orders_local
       (snd (_market_make_loop moving_env
               (post_init true ["EQUATOR"; "FLIGHTS"] default_config))))
    "EQUATOR" = Some [] /\
  PyDict.get
    (open_orders_local
       (snd (market_make_product moving_env "EQUATOR"
               (post_init true ["EQUATOR"; "FLIGHTS"] default_config))))
    "EQUATOR" <> Some [].
Proof.
  split.
  - destruct (sim_cycle_wipes_other_products moving_env
                (post_init true ["EQUATOR"; "FLIGHTS"] default_config) eq_refl
                (post_init_well_keyed true ["EQUATOR"; "FLIGHTS"] default_config))
      as [_ H].
    apply (H ["EQUATOR"] "FLIGHTS"); [reflexivity | now left | discriminate].
  - vm_compute. discriminate.
Defined.

(** ** The order-book wrapper, level by level *)

Lemma sorted_head_least {A : Type} (key : A -> Q) (l : list A) (x : A)
    (rest : list A) :
  sorted l key = x :: rest -> forall y, In y l -> (key x <= key y)%Q.
Proof.
  intros E y Hy.
  pose proof (sorted_sorted key l) as Hs. rewrite E in Hs.
  apply StronglySorted_inv in Hs. destruct Hs as [_ Hall].
  apply (Permutation_in _ (Permutation_sym (sorted_Permutation key l))) in Hy.
  rewrite E in Hy. destruct Hy as [<- | Hy]; [apply Qle_refl |].
  rewrite List.Forall_forall in Hall. now apply Hall.
Qed.

(** ** The two wrappers *)

Lemma improved_level_spec (env : Env) (price_s : string) (vi : RawLevel) :
  if level_parses env (price_s, vi)
  then improved_level env price_s vi = Ok (transform_level env price_s vi)
  else improved_level env price_s vi = Raise ValueError \/
       improved_level env price_s vi = Raise KeyError.
Proof.
  unfold level_parses, improved_level, transform_level. cbn [fst snd].
  destruct (py_float env price_s) as [q |]; cbn; [| now left].
  destruct (vi_marketVolume vi) as [mv |]; cbn; [| now right].
  destruct (vi_userVolume vi) as [uv |]; cbn; [reflexivity | now right].
Qed.

Lemma improved_levels_spec (env : Env) (side : list (string * RawLevel)) :
  if forallb (level_parses env) side
  then improved_levels env side = Ok (transform env side)
  else improved_levels env side = Raise ValueError \/
       improved_levels env side = Raise KeyError.
Proof.
  induction side as [| [price_s vi] side IH]; [reflexivity |].
  cbn [forallb improved_levels].
  pose proof (improved_level_spec env price_s vi) as H.
  destruct (level_parses env (price_s, vi)); cbn [andb].
  - rewrite H. cbn [rbind].
    destruct (forallb (level_parses env) side).
    + rewrite IH. reflexivity.
    + destruct IH as [-> | ->]; [now left | now right].
  - destruct H as [-> | ->]; [now left | now right].
Qed.

(** X12. The wrapper of [Improved version.py] returns a book exactly when
    every item of both raw sides has a key that reads as a number and both
    volume keys, and raises ValueError or KeyError otherwise.  For volumes
    that are integers, the book it returns has the sides that the wrapper
    of [im.py] builds from the same message; the two books differ at most
    in the product name, and only when the message has a [product] and no
    [productsymbol]. *)
Theorem improved_wrapper_agrees (env : Env) (raw : RawBook) :
  let buys := default [] (raw_buyOrders raw) in
  let sells := default [] (raw_sellOrders raw) in
  if forallb (level_parses env) buys && forallb (level_parses env) sells
  then exists ob,
         improved_on_orderbook_wrapper env raw = Ok ob /\
         buy_orders ob = buy_orders (normalize_orderbook env raw) /\
         sell_orders ob = sell_orders (normalize_orderbook env raw) /\
         ob_product ob = default "UNKNOWN" (raw_productsymbol raw) /\
         (is_Some (raw_productsymbol raw) \/ raw_product raw = None ->
          ob = normalize_orderbook env raw)
  else improved_on_orderbook_wrapper env raw = Raise ValueError \/
       improved_on_orderbook_wrapper env raw = Raise KeyError.
Proof.
  cbv zeta. unfold improved_on_orderbook_wrapper, normalize_orderbook.
  pose proof (improved_levels_spec env (default [] (raw_buyOrders raw))) as Hb.
  pose proof (improved_levels_spec env (default [] (raw_sellOrders raw))) as Hs.
  destruct (forallb (level_parses env) (default [] (raw_buyOrders raw)));
    cbn [andb].
  - rewrite Hb. cbn [rbind].
    destruct (forallb (level_parses env) (default [] (raw_sellOrders raw))).
    + rewrite Hs. cbn [rbind]. eexists. split; [reflexivity |].
      cbn [buy_orders sell_orders ob_product].
      repeat split.
      intros [[s Es] | Ep]; [now rewrite Es | rewrite Ep].
      now destruct (raw_productsymbol raw).
    + destruct Hs as [-> | ->]; [now left | now right].
  - destruct Hb as [-> | ->]; [now left | now right].
Qed.

(** ** The first market maker *)

Lemma price_to_tick_near (p t : Q) :
  (0 < t)%Q ->
  (p - t / 2 <= inject_Z (py_round (p / t)) * t <= p + t / 2)%Q.
Proof.
  intros Ht. pose proof (py_round_near (p / t)) as [Hlo Hhi].
  assert (H1 : ((p / t - (1 # 2)) * t <= inject_Z (py_round (p / t)) * t)%Q)
    by (apply Qmult_le_compat_r; lra).
  assert (H2 : (inject_Z (py_round (p / t)) * t <= (p / t + (1 # 2)) * t)%Q)
    by (apply Qmult_le_compat_r; lra).
  assert (E1 : ((p / t - (1 # 2)) * t == p - t / 2)%Q) by (field; lra).
  assert (E2 : ((p / t + (1 # 2)) * t == p + t / 2)%Q) by (field; lra).
  rewrite E1 in H1. rewrite E2 in H2. split; assumption.
Qed.

Lemma Qfloor_half_pos (w : Q) : (1 <= Qfloor (w / 2))%Z <-> (2 <= w)%Q.
Proof.
  pose proof (Qfloor_le (w / 2)) as Hlo.
  pose proof (Qlt_floor (w / 2)) as Hhi.
  rewrite inject_Z_plus in Hhi. change (inject_Z 1) with 1%Q in Hhi.
  assert (Hw : (w / 2 * 2 == w)%Q) by (field; lra).
  split; intros H.
  - rewrite Zle_Qle in H. change (inject_Z 1) with 1%Q in H.
    assert (H1 : (1 <= w / 2)%Q) by lra.
    assert (H2 : (1 * 2 <= w / 2 * 2)%Q) by (apply Qmult_le_compat_r; lra).
    rewrite Hw in H2. lra.
  - assert (H1 : (1 <= w / 2)%Q).
    { apply Qle_shift_div_l; lra. }
    assert (H2 : (inject_Z 0 < inject_Z (Qfloor (w / 2)))%Q)
      by (change (inject_Z 0) with 0%Q; lra).
    rewrite <- Zlt_Qlt in H2. lia.
Qed.

(** X13. The first market maker quotes, for a positive tick, a bid and an
    ask that lie [min_tick_width // 2] ticks below and above the tick
    multiple nearest to the fair value.  The spread is therefore twice the
    floor of half the configured width, not the width: the bid is below the
    ask exactly when the width is at least 2, and for a width from 0 up to,
    but not including, 2 the bid and the ask are the same price. *)
Theorem first_market_maker_spread (w theo t : Q) :
  (0 < t)%Q ->
  exists bp sp : Q,
    market_make_quote w theo t = Ok (bp, sp) /\
    (sp - bp == 2 * inject_Z (Qfloor (w / 2)) * t)%Q /\
    (Qabs ((bp + sp) / 2 - theo) <= t / 2)%Q /\
    ((bp < sp)%Q <-> (2 <= w)%Q) /\
    ((0 <= w)%Q -> (w < 2)%Q -> (bp == sp)%Q).
Proof.
  intros Ht. unfold market_make_quote, _price_to_tick.
  rewrite (pos_not_zero t Ht). cbn [rbind].
  eexists. eexists. split; [reflexivity |].
  pose proof (price_to_tick_near theo t Ht) as [Hlo Hhi].
  pose proof (Qfloor_half_pos w) as Hh.
  set (r := (inject_Z (py_round (theo / t)) * t)%Q) in *.
  set (n := Qfloor (w / 2)) in *.
  assert (Hd : (r + inject_Z n * t - (r - inject_Z n * t) == 2 * inject_Z n * t)%Q)
    by ring.
  split; [exact Hd | split; [| split]].
  - assert (E : ((r - inject_Z n * t + (r + inject_Z n * t)) / 2 - theo == r - theo)%Q)
      by (field; lra).
    rewrite E. apply Qabs_Qle_condition. split; lra.
  - split; intros H.
    + apply Hh.
      assert (Hpos : (0 < inject_Z n * t)%Q) by lra.
      assert (Hn : (inject_Z 0 < inject_Z n)%Q).
      { change (inject_Z 0) with 0%Q.
        destruct (Qlt_le_dec 0 (inject_Z n)) as [Hgt | Hle]; [exact Hgt |].
        exfalso.
        assert (Hm : (inject_Z n * t <= 0 * t)%Q)
          by (apply Qmult_le_compat_r; lra).
        lra. }
      rewrite <- Zlt_Qlt in Hn. lia.
    + apply Hh in H. rewrite Zle_Qle in H. change (inject_Z 1) with 1%Q in H.
      assert (Hm : (1 * t <= inject_Z n * t)%Q)
        by (apply Qmult_le_compat_r; lra).
      lra.
  - intros H0 H2.
    assert (Hn : n = 0%Z).
    { assert (H1 : ~ (1 <= n)%Z) by (intros H; apply Hh in H; lra).
      assert (Hge : (0 <= n)%Z).
      { apply (Qfloor_resp_le 0 (w / 2)).
        apply Qle_shift_div_l; lra. }
      lia. }
    rewrite Hn. change (inject_Z 0) with 0%Q. ring.
Qed.

Lemma first_market_maker_spread_witness :
  exists bp sp : Q,
    market_make_quote 3 (41 # 2) 1 = Ok (bp, sp) /\
    (sp - bp == 2 * inject_Z (Qfloor (3 / 2)) * 1)%Q.
Proof.
  destruct (first_market_maker_spread 3 (41 # 2) 1 eq_refl)
    as [bp [sp [H1 [H2 _]]]].
  exists bp, sp. split; [exact H1 | exact H2].
Defined.

Lemma market_make_quote_returns (w theo t : Q) :
  (0 < t)%Q -> exists bp sp, market_make_quote w theo t = Ok (bp, sp).
Proof.
  intros Ht. unfold market_make_quote, _price_to_tick.
  rewrite (pos_not_zero t Ht). cbn [rbind]. now do 2 eexists.
Qed.

Lemma market_make_items_spec (w : Q) (vol : Z) (ticks : gmap string Q)
    (send : Payload -> bool) (theos : list (string * Q)) :
  (forall p theo, In (p, theo) theos ->
     exists t, ticks !! p = Some t /\ (0 < t)%Q) ->
  let run := market_make_items w vol (tick_size_item ticks) send theos in
  let plan := flat_map (fun pt => [(fst pt, BUY, vol); (fst pt, SELL, vol)]) theos in
  let shape := fun pl => (p_product pl, p_side pl, p_volume pl) in
  market_make_items w vol (tick_size_get ticks) send theos = run /\
  (shape <$> fst run) `prefix_of` plan /\
  (snd run = Completed -> shape <$> fst run = plan) /\
  ((forall pl, In pl (fst run) -> send pl = true) -> snd run = Completed) /\
  (forall e, snd run <> Raised e).
Proof.
  cbv zeta. induction theos as [| [p theo] theos IH]; intros Hpos.
  - cbn. repeat split; try discriminate. reflexivity.
  - destruct IH as [H1 [H2 [H3 [H4 H5]]]].
    { intros q th Hin. apply (Hpos q th). now right. }
    destruct (Hpos p theo (or_introl eq_refl)) as [t [Et Ht]].
    destruct (market_make_quote_returns w theo t Ht) as [bp [sp Eq]].
    assert (Ei : tick_size_item ticks p = Ok t)
      by (unfold tick_size_item; now rewrite Et).
    assert (Eg : tick_size_get ticks p = Ok t)
      by (unfold tick_size_get; now rewrite Et).
    cbn [market_make_items]. rewrite Ei, Eg. cbn [rbind]. rewrite Eq, H1.
    cbn [flat_map fst app].
    destruct (send (mkPayload p BUY bp vol)) eqn:Eb.
    + destruct (send (mkPayload p SELL sp vol)) eqn:Es.
      * destruct (market_make_items w vol (tick_size_item ticks) send theos)
          as [sent r]. cbn [fst snd] in *.
        split; [reflexivity |]. split; [| split; [| split]].
        -- cbn [fmap list_fmap p_product p_side p_volume].
           now do 2 apply prefix_cons.
        -- intros Hr. cbn [fmap list_fmap p_product p_side p_volume].
           now rewrite <- (H3 Hr).
        -- intros Hall. apply H4. intros pl Hpl. apply Hall. now do 2 right.
        -- exact H5.
      * cbn [fst snd]. split; [reflexivity |]. split; [| split; [| split]].
        -- cbn [fmap list_fmap p_product p_side p_volume].
           do 2 apply prefix_cons. apply prefix_nil.
        -- discriminate.
        -- intros Hall. rewrite Hall in Es by (right; now left). discriminate.
        -- discriminate.
    + cbn [fst snd]. split; [reflexivity |]. split; [| split; [| split]].
      * cbn [fmap list_fmap p_product p_side p_volume].
        apply prefix_cons. apply prefix_nil.
      * discriminate.
      * intros Hall. rewrite Hall in Eb by now left. discriminate.
      * discriminate.
Qed.

(** X14. One pass of the first market maker, for products that all have
    the tick size 1 that its [__post_init__] assigns.  If
    [cancel_all_orders] raises, nothing is sent.  Otherwise the products are
    taken in the order of [theos] and each gets a BUY and then a SELL of the
    configured volume, whatever the two prices are: no test of the bid
    against the ask precedes the sends.  The pass ends early only when a
    call of [send_order] raises, and reaches the end, with both orders of
    every product sent, when every call returns; no computation of the loop
    body raises.  The pass of [market_making_bot.py], which indexes the tick
    sizes, and the pass of [Improved version.py], which reads them with a
    default, are the same. *)
Theorem first_market_maker_no_gate (w : Q) (vol : Z) (ticks : gmap string Q)
    (theos : list (string * Q)) (cancel : bool) (send : Payload -> bool) :
  (forall p theo, In (p, theo) theos -> ticks !! p = Some 1%Q) ->
  let run := _market_make w vol (tick_size_item ticks) cancel send theos in
  let plan := flat_map (fun pt => [(fst pt, BUY, vol); (fst pt, SELL, vol)]) theos in
  let shape := fun pl => (p_product pl, p_side pl, p_volume pl) in
  _market_make w vol (tick_size_get ticks) cancel send theos = run /\
  (cancel = false -> run = ([], CallRaised)) /\
  (shape <$> fst run) `prefix_of` plan /\
  (snd run = Completed -> shape <$> fst run = plan) /\
  (cancel = true -> (forall pl, In pl (fst run) -> send pl = true) ->
   snd run = Completed) /\
  (forall e, snd run <> Raised e).
Proof.
  intros Hone. cbv zeta. unfold _market_make.
  assert (Hpos : forall p theo, In (p, theo) theos ->
            exists t, ticks !! p = Some t /\ (0 < t)%Q).
  { intros p theo Hin. exists 1%Q. split; [now apply (Hone p theo) | reflexivity]. }
  destruct (market_make_items_spec w vol ticks send theos Hpos)
    as [H1 [H2 [H3 [H4 H5]]]].
  destruct cancel.
  - split; [exact H1 |]. split; [discriminate |].
    split; [exact H2 |]. split; [exact H3 |]. split; [| exact H5].
    intros _. exact H4.
  - cbn [fst snd]. split; [reflexivity |]. split; [reflexivity |].
    split; [apply prefix_nil |]. repeat split; discriminate.
Qed.

Lemma first_market_maker_no_gate_witness :
  _market_make 1 10 (tick_size_item {["EQUATOR" := 1%Q; "FLIGHTS" := 1%Q]})
    true (fun _ => true) [("EQUATOR", 7%Q); ("FLIGHTS", 12%Q)]
  = ([mkPayload "EQUATOR" BUY 7 10; mkPayload "EQUATOR" SELL 7 10;
      mkPayload "FLIGHTS" BUY 12 10; mkPayload "FLIGHTS" SELL 12 10], Completed) /\
  snd (_market_make 1 10 (tick_size_get {["EQUATOR" := 1%Q; "FLIGHTS" := 1%Q]})
         true (fun pl => Side_eqb (p_side pl) BUY)
         [("EQUATOR", 7%Q); ("FLIGHTS", 12%Q)])
  <> Completed.
Proof.
  assert (Hone : forall p theo, In (p, theo) [("EQUATOR", 7%Q); ("FLIGHTS", 12%Q)] ->
            ({["EQUATOR" := 1%Q; "FLIGHTS" := 1%Q]} : gmap string Q) !! p = Some 1%Q).
  { intros p theo [E | [E | []]]; injection E as <- <-; vm_compute; reflexivity. }
  split.
  - destruct (first_market_maker_no_gate 1 10 {["EQUATOR" := 1%Q; "FLIGHTS" := 1%Q]}
                [("EQUATOR", 7%Q); ("FLIGHTS", 12%Q)] true (fun _ => true) Hone)
      as [_ [_ [_ [Hplan [Hc _]]]]].
    specialize (Hc eq_refl (fun _ _ => eq_refl)). specialize (Hplan Hc).
    vm_compute. reflexivity.
  - destruct (first_market_maker_no_gate 1 10 {["EQUATOR" := 1%Q; "FLIGHTS" := 1%Q]}
                [("EQUATOR", 7%Q); ("FLIGHTS", 12%Q)] true
                (fun pl => Side_eqb (p_side pl) BUY) Hone) as [E _].
    rewrite E. vm_compute. discriminate.
Defined.

(** ** The liquidity taker *)

(** X15. Whenever [on_orderbook] of the liquidity taker sends an order, the
    draw was below the configured chance, the order is on the side opposite
    to the drawn book side and at the price of that side's best level, on
    which the bot has no volume of its own, that price is not zero and lies
    within the configured fraction of the fair value, and the volume is at
    least 5 and at most the larger of 5 and the level's volume less one: a
    level of 5 or fewer is answered with an order of 5. *)
Theorem liquidity_taker_order (chance threshold : Q) (theos : gmap string Q)
    (u : Q) (order_side : Side) (randrange : Z -> Z) (ob : OrderBook)
    (pl : Payload) :
  (forall n, (0 < n)%Z -> (0 <= randrange n < n)%Z) ->
  liquidity_taking_on_orderbook chance threshold theos u order_side randrange ob
  = Ok (Some pl) ->
  exists (best : Level) (rest : list Level) (theo : Q),
    match order_side with
    | BUY => buy_orders ob
    | SELL => sell_orders ob
    end = best :: rest /\
    theos !! ob_product ob = Some theo /\
    (u < chance)%Q /\
    own_volume best = 0%Z /\
    ~ (price best == 0)%Q /\
    (Qabs ((price best - theo) / price best) < threshold)%Q /\
    p_product pl = ob_product ob /\
    p_side pl = match order_side with SELL => BUY | BUY => SELL end /\
    p_price pl = price best /\
    (5 <= p_volume pl <= Z.max 5 (volume best - 1))%Z.
Proof.
  intros Hrr. unfold liquidity_taking_on_orderbook.
  destruct (Qltb u chance) eqn:Eu; [| discriminate].
  apply Qltb_lt in Eu.
  destruct (match order_side with BUY => buy_orders ob | SELL => sell_orders ob end)
    as [| best rest]; [discriminate |].
  destruct (own_volume best =? 0)%Z eqn:Eo; cbn [negb]; [| discriminate].
  apply Z.eqb_eq in Eo.
  destruct (theos !! ob_product ob) as [theo |]; [| discriminate].
  destruct (Qeq_bool (price best) 0) eqn:Ez; [discriminate |].
  apply Qeq_bool_false_neq in Ez.
  destruct (Qltb (Qabs ((price best - theo) / price best)) threshold) eqn:Et;
    cbn [negb]; [| discriminate].
  apply Qltb_lt in Et.
  destruct (volume best <=? 0)%Z eqn:Ev; [discriminate |].
  apply Z.leb_gt in Ev. specialize (Hrr (volume best) Ev).
  intros H. injection H as <-.
  exists best, rest, theo. cbn [p_product p_side p_price p_volume].
  repeat split; try assumption; lia.
Qed.

Lemma liquidity_taker_order_witness :
  p_side (mkPayload "EQUATOR" SELL 100 5) = SELL /\
  (5 <= p_volume (mkPayload "EQUATOR" SELL 100 5)
     <= Z.max 5 (volume (mkLevel 100 3 0) - 1))%Z.
Proof.
  destruct (liquidity_taker_order (15 # 100) (1 # 10) {["EQUATOR" := 101%Q]}
              (1 # 10) BUY (fun n => (n - 1)%Z)
              (mkOrderBook "EQUATOR" [mkLevel 100 3 0] [mkLevel 102 4 0])
              (mkPayload "EQUATOR" SELL 100 5))
    as [best [rest [theo [E [_ [_ [_ [_ [_ [_ [Hs [_ Hv]]]]]]]]]]]].
  - intros n Hn. lia.
  - vm_compute. reflexivity.
  - cbn [buy_orders] in E. injection E as <- <-. split; [exact Hs | exact Hv].
Defined.

(** ** The test order bot *)

Lemma test_order_run_spec (c : Z) (books : list OrderBook) :
  (0 <= c <= 5)%Z ->
  test_order_run c books
  = (Z.min 5 (c + Z.of_nat (length books)),
     omap (fun ob => snd (test_order_on_orderbook 0 ob))
       (take (Z.to_nat (5 - c)) books)).
Proof.
  set (f := fun ob : OrderBook => snd (test_order_on_orderbook 0 ob)).
  revert c. induction books as [| ob books IH]; intros c Hc.
  - cbn [test_order_run length]. rewrite take_nil. cbn [omap list_omap].
    f_equal. lia.
  - cbn [test_order_run]. destruct (c <? 5)%Z eqn:E.
    + assert (Hstep : test_order_on_orderbook c ob = ((c + 1)%Z, f ob)).
      { unfold f, test_order_on_orderbook. rewrite E. reflexivity. }
      apply Z.ltb_lt in E. rewrite Hstep, IH by lia.
      replace (Z.to_nat (5 - c)) with (S (Z.to_nat (5 - (c + 1)))) by lia.
      cbn [take omap list_omap length].
      destruct (f ob); f_equal; lia.
    + assert (Hstep : test_order_on_orderbook c ob = (c, None)).
      { unfold test_order_on_orderbook. rewrite E. reflexivity. }
      apply Z.ltb_ge in E. assert (c = 5%Z) as -> by lia.
      rewrite Hstep, IH by lia.
      change (Z.to_nat (5 - 5)) with 0%nat. rewrite !take_0.
      cbn [omap list_omap length]. f_equal. lia.
Qed.

Lemma omap_length_le {A B : Type} (f : A -> option B) (l : list A) :
  (length (omap f l) <= length l)%nat.
Proof.
  induction l as [| x l IH]; [reflexivity |].
  cbn [omap list_omap length]. destruct (f x); cbn [length]; lia.
Qed.

(** X16. Started with [order_count] at 0, the test order bot gives
    [send_order], for each of the first five order books it receives that
    has a bid, one order: a BUY of one unit of the product of the book,
    priced at the best bid of the book less 1; and it gives [send_order]
    nothing else.  A book without bids among the first five uses up an
    attempt, so at most five orders are ever sent, and none after the fifth
    book; [order_count] ends at the number of books received, at most 5. *)
Theorem test_order_bot_five_attempts (books : list OrderBook) :
  let sent := snd (test_order_run 0 books) in
  sent = omap (fun ob =>
                 match buy_orders ob with
                 | best_bid :: _ =>
                     Some (mkPayload (ob_product ob) BUY (price best_bid - 1)%Q 1)
                 | [] => None
                 end) (take 5 books) /\
  (length sent <= 5)%nat /\
  fst (test_order_run 0 books) = Z.min 5 (Z.of_nat (length books)).
Proof.
  cbv zeta. rewrite !test_order_run_spec by lia.
  cbn [fst snd]. change (Z.to_nat (5 - 0)) with 5%nat.
  split; [| split].
  - reflexivity.
  - etransitivity; [apply omap_length_le |]. rewrite length_take. lia.
  - f_equal.
Qed.

(** ** What a simulated ledger holds *)

#[global] Instance sim_step_preorder : PreOrder sim_step.
Proof.
  split.
  - intros b H. now split.
  - intros b1 b2 b3 H12 H23 H.
    destruct (H12 H) as [M2 F2]. destruct (H23 M2) as [M3 F3].
    split; [exact M3 | auto].
Qed.

Lemma filed_ok_from (b b' : Bot) :
  (forall q l' o, PyDict.get (open_orders_local b') q = Some l' -> In o l' ->
     (exists l, PyDict.get (open_orders_local b) q = Some l /\ In o l) \/
     (p_product (o_payload o) = q /\ o_status o = "OPEN" /\
      In (o_payload o) (gateway_log b'))) ->
  (forall pl, In pl (gateway_log b) -> In pl (gateway_log b')) ->
  filed_ok b -> filed_ok b'.
Proof.
  intros Hfrom Hlog Hok q l' Hq. apply List.Forall_forall. intros o Ho.
  destruct (Hfrom q l' o Hq Ho) as [[l [Hl Hin]] | H]; [| exact H].
  specialize (Hok q l Hl). rewrite List.Forall_forall in Hok.
  destruct (Hok o Hin) as [H1 [H2 H3]]. auto.
Qed.

Lemma keeps_sim_step (b b' : Bot) :
  keeps simulate_mode b b' -> keeps open_orders_local b b' ->
  keeps gateway_log b b' -> sim_step b b'.
Proof.
  unfold keeps. intros Hm Ho Hl Hsim. split; [congruence |].
  apply filed_ok_from.
  - intros q l' o Hq Ho'. left. exists l'. rewrite <- Ho. auto.
  - intros pl. now rewrite Hl.
Qed.

Lemma PyDict_get_None_keys {V : Type} (d : list (string * V)) (k : string) :
  PyDict.get d k = None <-> ~ In k (map fst d).
Proof.
  induction d as [| [k' v] d IH]; simpl; [tauto |].
  destruct (String.eqb k' k) eqn:E.
  - apply String.eqb_eq in E. split; [discriminate | intros H; exfalso; auto].
  - apply String.eqb_neq in E. rewrite IH. tauto.
Qed.

Section SimLedger.

Variable env : Env.

Lemma send_order_sim_step (p : string) (px : Q) (s : Side) (v : Z) :
  preserves sim_step (send_order env p px s v).
Proof.
  intros b Hsim.
  destruct (PyDict.get (open_orders_local b) p) as [lst |] eqn:E.
  - rewrite (send_order_sim env b lst p px s v Hsim E). cbn [snd].
    unfold after_sim_send.
    destruct (match _get_sim_mid b p with
              | Some mid => marketable s px mid
              | None => false
              end); run_bot.
    + split; [first [exact Hsim | reflexivity] |]. apply filed_ok_from; run_bot.
      * intros q l' o Hq Ho. destruct (String.eqb p q) eqn:Epq.
        -- apply String.eqb_eq in Epq. subst q.
           rewrite PyDict_get_set_eq in Hq. injection Hq as <-.
           apply filter_In in Ho. destruct Ho as [Ho _].
           apply in_app_or in Ho. destruct Ho as [Ho | [<- | []]].
           ++ left. exists lst. rewrite E. auto.
           ++ right. cbn. repeat split. apply in_or_app. right. now left.
        -- apply String.eqb_neq in Epq.
           rewrite !PyDict_get_set_ne in Hq by exact Epq.
           left. now exists l'.
      * intros pl Hpl. apply in_or_app. now left.
    + split; [first [exact Hsim | reflexivity] |]. apply filed_ok_from; run_bot.
      * intros q l' o Hq Ho. destruct (String.eqb p q) eqn:Epq.
        -- apply String.eqb_eq in Epq. subst q.
           rewrite PyDict_get_set_eq in Hq. injection Hq as <-.
           apply in_app_or in Ho. destruct Ho as [Ho | [<- | []]].
           ++ left. exists lst. rewrite E. auto.
           ++ right. cbn. repeat split. apply in_or_app. right. now left.
        -- apply String.eqb_neq in Epq.
           rewrite !PyDict_get_set_ne in Hq by exact Epq.
           left. now exists l'.
      * intros pl Hpl. apply in_or_app. now left.
  - unfold send_order. run_bot. rewrite Hsim. run_bot. rewrite E. run_bot.
    split; [first [exact Hsim | reflexivity] |]. apply filed_ok_from; run_bot.
    + intros q l' o Hq Ho. left. now exists l'.
    + intros pl Hpl. apply in_or_app. now left.
Qed.

Lemma cancel_order_sim_step (oid : string) :
  preserves sim_step (cancel_order env oid).
Proof.
  intros b Hsim. unfold cancel_order. run_bot. rewrite Hsim.
  destruct (cancel_in (open_orders_local b) oid) as [d found] eqn:Ec. run_bot.
  split; [first [exact Hsim | reflexivity] |]. apply filed_ok_from; run_bot; [| auto].
  intros q l' o Hq Ho. left.
  destruct (PyDict.get (open_orders_local b) q) as [l |] eqn:El.
  - destruct (cancel_in_others _ oid q l El) as [l'' [Hg [_ Hsub]]].
    rewrite Ec in Hg. cbn [fst] in Hg. rewrite Hq in Hg. injection Hg as <-.
    exists l. auto.
  - exfalso. apply PyDict_get_None_keys in El.
    rewrite <- (cancel_in_keys _ oid), Ec in El. cbn [fst] in El.
    apply PyDict_get_None_keys in El. congruence.
Qed.

Lemma cancel_all_orders_sim_step : preserves sim_step (cancel_all_orders env).
Proof.
  intros b Hsim. unfold cancel_all_orders. run_bot. rewrite Hsim. run_bot.
  split; [first [exact Hsim | reflexivity] |]. apply filed_ok_from; run_bot; [| auto].
  intros q l' o Hq Ho. exfalso.
  destruct (in_dec String.string_dec q (products b)) as [Hin | Hn].
  - rewrite (PyDict_of_keys_get (products b) (fun _ => @nil Order) q Hin) in Hq.
    injection Hq as <-. destruct Ho.
  - rewrite (PyDict_of_keys_get_None (products b) (fun _ => @nil Order) q Hn) in Hq.
    discriminate.
Qed.

Lemma tick_sim_step : preserves sim_step tick.
Proof. apply preserves_tick. intros b. apply keeps_sim_step; reflexivity. Qed.

Lemma market_make_product_sim_step (p : string) :
  preserves sim_step (market_make_product env p).
Proof.
  unfold market_make_product, compute_levels, levels_around.
  papply preserves_bind.
  - papply preserves_bind; [apply tick_sim_step | intros k].
    papply preserves_bind; [papply preserves_get_bot | intros b0].
    papply preserves_bind; [papply preserves_get_bot | intros b1].
    papply preserves_bind; [papply preserves_lift | intros rounded].
    papply preserves_bind; [apply cancel_all_orders_sim_step | intros _].
    papply preserves_bind; [| intros lvls; papply preserves_ret].
    papply preserves_map_m. intros lvl.
    papply preserves_bind; [apply tick_sim_step | intros k0; papply preserves_lift].
  - intros [qty lvls]. unfold submit_levels. papply preserves_for_each.
    intros [bp sp]. destruct (Qltb bp sp).
    + repeat (papply preserves_bind; [apply send_order_sim_step | intros _]).
      papply preserves_ret.
    + papply preserves_ret.
Qed.

Lemma run_op_sim_step (op : Op) (b : Bot) : sim_step b (run_op env op b).
Proof.
  destruct op; simpl.
  - apply send_order_sim_step.
  - apply cancel_order_sim_step.
  - apply cancel_all_orders_sim_step.
  - apply keeps_sim_step.
    + apply (f_equal (fun s => fst (fst (fst s))) (run_op_static env OpMarketUpdates b)).
    + apply _simulate_market_updates_keeps_ledger.
    + apply _simulate_market_updates_keeps_log.
  - apply keeps_sim_step.
    + apply (f_equal (fun s => fst (fst (fst s))) (run_op_static env (OpOrderbook raw) b)).
    + assert (H : preserves (keeps open_orders_local) (_on_orderbook_wrapper env raw))
        by (unfold_ops; pres).
      apply H.
    + apply _on_orderbook_wrapper_keeps_log.
  - apply keeps_sim_step; reflexivity.
  - assert (H : preserves sim_step (_market_make_loop env)).
    { unfold _market_make_loop. papply preserves_try_except.
      papply preserves_bind; [papply preserves_get_bot | intros b0].
      papply preserves_for_each. intros p. apply market_make_product_sim_step. }
    apply H.
Qed.

Lemma run_ops_sim_step (ops : list Op) (b : Bot) : sim_step b (run_ops env ops b).
Proof.
  unfold run_ops. revert b.
  induction ops as [| op ops IH]; intros b; simpl; [reflexivity |].
  etransitivity; [apply run_op_sim_step | apply IH].
Qed.

End SimLedger.

Lemma post_init_filed_ok (sim : bool) (ps : list string) (cfg : Config) :
  filed_ok (post_init sim ps cfg).
Proof.
  intros p lst Hp. cbn [post_init open_orders_local] in Hp.
  destruct (in_dec String.string_dec p ps) as [Hin | Hn].
  - rewrite (PyDict_of_keys_get ps (fun _ => @nil Order) p Hin) in Hp.
    injection Hp as <-. constructor.
  - rewrite (PyDict_of_keys_get_None ps (fun _ => @nil Order) p Hn) in Hp.
    discriminate.
Qed.

(** X17. In a simulated bot, after any sequence of actions of its threads,
    every order that rests in the ledger is filed under the product named
    in its own payload, has status OPEN, and carries a payload that was
    handed to [send_order] before: the ledger never holds an order under a
    foreign product, and none that was not sent. *)
Theorem sim_ledger_well_filed (env : Env) (ps : list string) (cfg : Config)
    (ops : list Op) (p : string) (lst : list Order) (o : Order) :
  let b := run_ops env ops (post_init true ps cfg) in
  PyDict.get (open_orders_local b) p = Some lst -> In o lst ->
  p_product (o_payload o) = p /\ o_status o = "OPEN" /\
  In (o_payload o) (gateway_log b).
Proof.
  cbv zeta. intros Hp Ho.
  destruct (run_ops_sim_step env ops (post_init true ps cfg) eq_refl) as [_ Hok].
  specialize (Hok (post_init_filed_ok true ps cfg) p lst Hp).
  rewrite List.Forall_forall in Hok. now apply Hok.
Qed.

Lemma sim_ledger_well_filed_witness :
  let o := mkOrder (sim_order_id frozen_env 0) (mkPayload "EQUATOR" BUY 95 10) "OPEN" in
  p_product (o_payload o) = "EQUATOR" /\ o_status o = "OPEN" /\
  In (o_payload o)
    (gateway_log
       (run_ops frozen_env [OpSendOrder "EQUATOR" 95 BUY 10]
          (post_init true ["EQUATOR"] default_config))).
Proof.
  cbv zeta.
  apply (sim_ledger_well_filed frozen_env ["EQUATOR"] default_config
           [OpSendOrder "EQUATOR" 95 BUY 10] "EQUATOR"
           [mkOrder (sim_order_id frozen_env 0) (mkPayload "EQUATOR" BUY 95 10) "OPEN"]).
  - vm_compute. reflexivity.
  - now left.
Defined.

(** ** The second sample *)

Lemma theo_of_ge_100 (now : Z) (b : Bot) (p : string) :
  (100 <= theo_of now b p)%Q.
Proof.
  assert (Hn : forall n : nat, (0 <= inject_Z (Z.of_nat n))%Q).
  { intros n. change 0%Q with (inject_Z 0). rewrite <- Zle_Qle. lia. }
  unfold theo_of, theos, number_crossed_equator, number_of_flights_in_air.
  destruct (decide (p = "EQUATOR")) as [-> | Hne].
  - rewrite lookup_insert_eq. cbn [default from_option id].
    match goal with |- context [inject_Z (Z.of_nat ?n)] => specialize (Hn n) end.
    unfold id. lra.
  - rewrite lookup_insert_ne by congruence.
    destruct (decide (p = "FLIGHTS")) as [-> | Hne'].
    + rewrite lookup_insert_eq. cbn [default from_option id].
      match goal with |- context [inject_Z (Z.of_nat ?n)] => specialize (Hn n) end.
      unfold id. lra.
    + rewrite lookup_insert_ne by congruence. rewrite lookup_empty.
      cbn. lra.
Qed.

Lemma vol_est_two_samples (env : Env) (b : Bot) (p : string) (m1 m2 : Q) :
  recent_mid b !! p = Some [m1; m2] -> (0 < m1)%Q -> (0 < m2)%Q ->
  _get_vol_est env b p 30 = NaN.
Proof.
  intros Hh H1 H2. unfold _get_vol_est. rewrite Hh.
  apply Qltb_lt in H1, H2.
  change (last_window (default [] (Some [m1; m2])) 30) with [m1; m2].
  cbn [length Nat.ltb Nat.leb log_returns].
  rewrite H1, H2. reflexivity.
Qed.

Section SecondSample.

Variable env : Env.

Hypothesis draws : forall k, (-1 < random_normal env k)%Q.

Lemma market_update_body (x : string) (b : Bot) (hx : list Q) :
  recent_mid b !! x = Some hx ->
  exists mid, (0 < mid)%Q /\
    (k <- tick ;;
     b0 <- get_bot ;;
     record_mid x (theo_of (utc_now env k) b0 x * (1 + random_normal env k))%Q) b
    = (Ok tt, set_recent_mid (fun m => <[x := push_mid hx mid]> m) (set_clock S b)).
Proof.
  intros Hx.
  exists (theo_of (utc_now env (clock b)) (set_clock S b) x
          * (1 + random_normal env (clock b)))%Q.
  split.
  - pose proof (theo_of_ge_100 (utc_now env (clock b)) (set_clock S b) x) as Ht.
    pose proof (draws (clock b)) as Hd.
    apply Qmult_lt_0_compat; lra.
  - unfold record_mid. run_bot. rewrite Hx. reflexivity.
Qed.

Lemma market_updates_push_one (xs : list string) (b : Bot) :
  List.NoDup xs -> (forall x, In x xs -> is_Some (recent_mid b !! x)) ->
  let b' :=
    snd (for_each xs (fun p =>
           k <- tick ;;
           b0 <- get_bot ;;
           record_mid p (theo_of (utc_now env k) b0 p * (1 + random_normal env k))%Q)
         b) in
  (forall p hist, In p xs -> recent_mid b !! p = Some hist ->
     exists mid, (0 < mid)%Q /\ recent_mid b' !! p = Some (push_mid hist mid)) /\
  (forall p, ~ In p xs -> recent_mid b' !! p = recent_mid b !! p).
Proof.
  cbv zeta. revert b.
  induction xs as [| x xs IH]; intros b Hnd Hkeys.
  - split; [intros p hist [] | reflexivity].
  - apply List.NoDup_cons_iff in Hnd. destruct Hnd as [Hx Hnd].
    destruct (Hkeys x (or_introl eq_refl)) as [hx Ehx].
    destruct (market_update_body x b hx Ehx) as [mid [Hmid Erun]].
    cbn [for_each]. rewrite (bind_run _ _ b tt (f_equal fst Erun)).
    rewrite Erun. cbn [snd].
    set (b1 := set_recent_mid (fun m => <[x := push_mid hx mid]> m) (set_clock S b)).
    assert (Hb1 : forall q, q <> x -> recent_mid b1 !! q = recent_mid b !! q).
    { intros q Hq. unfold b1. run_bot. now rewrite lookup_insert_ne by congruence. }
    assert (Hb1x : recent_mid b1 !! x = Some (push_mid hx mid)).
    { unfold b1. run_bot. now rewrite lookup_insert_eq. }
    destruct (IH b1 Hnd) as [IH1 IH2].
    { intros q Hq. rewrite Hb1 by (intros ->; contradiction).
      apply Hkeys. now right. }
    split.
    + intros p hist [<- | Hp] Eh.
      * exists mid. split; [exact Hmid |].
        rewrite (IH2 x Hx), Hb1x. congruence.
      * apply IH1; [exact Hp |].
        rewrite Hb1 by (intros ->; contradiction). exact Eh.
    + intros p Hp. rewrite IH2 by (intros H; apply Hp; now right).
      apply Hb1. intros ->. apply Hp. now left.
Qed.

Lemma _simulate_market_updates_pushes_one (b : Bot) (p : string) (hist : list Q) :
  List.NoDup (products b) -> well_keyed b -> In p (products b) ->
  recent_mid b !! p = Some hist ->
  exists mid, (0 < mid)%Q /\
    recent_mid (snd (_simulate_market_updates env b)) !! p = Some (push_mid hist mid).
Proof.
  intros Hnd Hw Hp Eh. unfold _simulate_market_updates.
  rewrite (bind_run get_bot _ b b eq_refl). cbn [snd get_bot].
  destruct (market_updates_push_one (products b) b Hnd) as [H _].
  - intros x Hx. now destruct (Hw x Hx) as [_ [H _]].
  - now apply H.
Qed.

Lemma market_make_product_nan (p : string) (b : Bot) :
  well_keyed b -> In p (products b) ->
  _get_vol_est env b p 30 = NaN -> (1 <= levels (config b))%Z ->
  fst (market_make_product env p b) = Raise ValueError /\
  gateway_log (snd (market_make_product env p b)) = gateway_log b.
Proof.
  intros Hw Hin Hv Hl.
  destruct (Hw p Hin) as [_ [_ Ht]].
  destruct (levels_around_outcome env p
              (theo_of (utc_now env (clock b)) (set_clock S b) p) (set_clock S b) Ht)
    as [_ Hnan].
  change (levels_around env p (theo_of (utc_now env (clock b)) (set_clock S b) p)
            (set_clock S b)) with (compute_levels env p b) in Hnan.
  change (_get_vol_est env (set_clock S b) p 30) with (_get_vol_est env b p 30)
    in Hnan.
  change (config (set_clock S b)) with (config b) in Hnan.
  specialize (Hnan Hv Hl).
  pose proof (compute_levels_keeps_log env p b) as Hlog.
  unfold market_make_product, bind.
  destruct (compute_levels env p b) as [r b1]. cbn [fst snd] in *. subst r.
  cbn [fst snd]. split; [reflexivity | exact Hlog].
Qed.

End SecondSample.

Lemma post_init_recent_mid (sim : bool) (ps : list string) (cfg : Config)
    (p : string) :
  In p ps -> recent_mid (post_init sim ps cfg) !! p = Some [].
Proof.
  intros Hin. cbn [post_init recent_mid].
  induction ps as [| q ps IH]; [destruct Hin |].
  cbn [fmap list_fmap list_to_map foldr fst snd].
  destruct (decide (q = p)) as [-> | Hne].
  - now rewrite lookup_insert_eq.
  - rewrite lookup_insert_ne by exact Hne.
    destruct Hin as [-> | Hin]; [contradiction | now apply IH].
Qed.

(** X18. A bot that was just built and whose market-data generator has run
    twice holds two positive mid prices per product, so the volatility
    estimate of every product is NaN (the sample deviation of a single log
    return).  A quoting cycle on any product then raises ValueError, and the
    pass of [_market_make_loop] ends at its first product: it sends no
    order at all.  The normal draws are assumed above -1, so that the mid
    prices are positive. *)
Theorem second_sample_silences_pass (env : Env) (sim : bool) (ps : list string)
    (cfg : Config) :
  List.NoDup ps -> ps <> [] ->
  (forall k, (-1 < random_normal env k)%Q) ->
  (1 <= levels cfg)%Z ->
  let b := run_ops env [OpMarketUpdates; OpMarketUpdates] (post_init sim ps cfg) in
  (forall p, In p ps ->
     _get_vol_est env b p 30 = NaN /\
     fst (market_make_product env p b) = Raise ValueError) /\
  gateway_log (snd (_market_make_loop env b)) = gateway_log b.
Proof.
  intros Hnd Hne Hdraws Hl. cbv zeta.
  set (b0 := post_init sim ps cfg).
  set (ops := [OpMarketUpdates; OpMarketUpdates]).
  assert (Hst : static_fields (run_ops env ops b0) = static_fields b0)
    by apply run_ops_static.
  assert (Hps : products (run_ops env ops b0) = ps)
    by exact (f_equal (fun s => snd (fst (fst s))) Hst).
  assert (Hcfg : config (run_ops env ops b0) = cfg)
    by exact (f_equal (fun s => snd (fst s)) Hst).
  assert (Hw : well_keyed (run_ops env ops b0))
    by (apply run_ops_well_keyed, post_init_well_keyed).
  assert (Hall : forall p, In p ps ->
            _get_vol_est env (run_ops env ops b0) p 30 = NaN /\
            fst (market_make_product env p (run_ops env ops b0)) = Raise ValueError /\
            gateway_log (snd (market_make_product env p (run_ops env ops b0)))
            = gateway_log (run_ops env ops b0)).
  { intros p Hp.
    assert (Hv : _get_vol_est env (run_ops env ops b0) p 30 = NaN).
    { unfold ops, run_ops. cbn [fold_left run_op].
      set (b1 := snd (_simulate_market_updates env b0)).
      assert (Hw1 : well_keyed b1)
        by (apply (run_op_well_keyed env OpMarketUpdates b0), post_init_well_keyed).
      assert (Hp1 : products b1 = ps)
        by exact (f_equal (fun s => snd (fst (fst s)))
                    (run_op_static env OpMarketUpdates b0)).
      destruct (_simulate_market_updates_pushes_one env Hdraws b0 p [])
        as [m1 [Hm1 E1]];
        [exact Hnd | apply post_init_well_keyed | exact Hp
        | now apply post_init_recent_mid |].
      fold b1 in E1.
      assert (Hnd1 : List.NoDup (products b1)) by (rewrite Hp1; exact Hnd).
      assert (Hin1 : In p (products b1)) by (rewrite Hp1; exact Hp).
      destruct (_simulate_market_updates_pushes_one env Hdraws b1 p
                  (push_mid [] m1) Hnd1 Hw1 Hin1 E1) as [m2 [Hm2 E2]].
      exact (vol_est_two_samples env _ p m1 m2 E2 Hm1 Hm2). }
    split; [exact Hv |].
    apply (market_make_product_nan env); [exact Hw | now rewrite Hps | exact Hv |].
    now rewrite Hcfg. }
  split.
  - intros p Hp. destruct (Hall p Hp) as [H1 [H2 _]]. now split.
  - unfold _market_make_loop, try_except. run_monad. rewrite Hps.
    destruct ps as [| p0 ps']; [contradiction |].
    destruct (Hall p0 (or_introl eq_refl)) as [_ [Hr Hlog]].
    cbn [for_each]. unfold bind.
    destruct (market_make_product env p0 (run_ops env ops b0)) as [r b1].
    cbn [fst snd] in *. subst r. cbn [snd]. exact Hlog.
Qed.

Lemma second_sample_silences_pass_witness :
  gateway_log
    (snd (_market_make_loop moving_env
            (run_ops moving_env [OpMarketUpdates; OpMarketUpdates]
               (post_init true ["EQUATOR"; "FLIGHTS"] default_config))))
  = gateway_log
      (run_ops moving_env [OpMarketUpdates; OpMarketUpdates]
         (post_init true ["EQUATOR"; "FLIGHTS"] default_config)).
Proof.
  refine (proj2 (second_sample_silences_pass moving_env true ["EQUATOR"; "FLIGHTS"]
                   default_config _ _ _ _)).
  - repeat constructor; simpl; intros H; repeat destruct H as [H | H];
      try discriminate; exact H.
  - discriminate.
  - intros k. reflexivity.
  - simpl. lia.
Defined.

(** ** Ladders with every float *)

Lemma ladder_lt_le (a c : Ladder.pykey) :
  Ladder.lt a c = true -> Ladder.le a c.
Proof.
  destruct a as [| x | |], c as [| y | |]; simpl; try discriminate; try exact (fun _ => I).
  intros H. apply Qltb_lt in H. now apply Qlt_le_weak.
Qed.

Lemma ladder_not_lt_le (a c : Ladder.pykey) :
  Ladder.is_nan a = false -> Ladder.is_nan c = false ->
  Ladder.lt a c = false -> Ladder.le c a.
Proof.
  destruct a as [| x | |], c as [| y | |]; simpl; try discriminate;
    try exact (fun _ _ _ => I).
  intros _ _ H. destruct (Qlt_le_dec x y) as [Hlt | Hle]; [| exact Hle].
  apply Qltb_lt in Hlt. congruence.
Qed.

Lemma ladder_le_trans (a c d : Ladder.pykey) :
  Ladder.le a c -> Ladder.le c d -> Ladder.le a d.
Proof.
  destruct a as [| x | |], c as [| y | |], d as [| z | |]; simpl; try tauto.
  apply Qle_trans.
Qed.

Lemma ladder_le_lt_false (a c : Ladder.pykey) :
  Ladder.le a c -> Ladder.lt c a = false.
Proof.
  destruct a as [| x | |], c as [| y | |]; simpl; try tauto.
  intros H. destruct (Qltb y x) eqn:E; [| reflexivity].
  apply Qltb_lt in E. exfalso. exact (Qlt_not_le _ _ E H).
Qed.

Lemma ladder_le_neg (a c : Ladder.pykey) :
  Ladder.le (Ladder.neg a) (Ladder.neg c) <-> Ladder.le c a.
Proof.
  destruct a as [| x | |], c as [| y | |]; simpl; try tauto.
  split; intros H.
  - apply Qopp_le_compat in H. now rewrite !Qopp_involutive in H.
  - now apply Qopp_le_compat.
Qed.

Lemma ladder_is_nan_neg (a : Ladder.pykey) :
  Ladder.is_nan (Ladder.neg a) = Ladder.is_nan a.
Proof. now destruct a. Qed.

Lemma ladder_eqb_le (a c : Ladder.pykey) :
  Ladder.eqb a c = true -> Ladder.le a c /\ Ladder.le c a.
Proof.
  destruct a as [| x | |], c as [| y | |]; simpl; try discriminate; try tauto.
  intros H. apply Qeq_bool_iff in H. rewrite H. split; apply Qle_refl.
Qed.

Section LadderSort.

Context {A : Type} (key : A -> Ladder.pykey).

Let numbers (l : list A) : Prop := Forall (fun x => Ladder.is_nan (key x) = false) l.

Let ascending (l : list A) : Prop :=
  StronglySorted (fun a c => Ladder.le (key a) (key c)) l.

Lemma insert_lt_Permutation (x : A) (l : list A) :
  Permutation (Ladder.insert_lt key x l) (x :: l).
Proof.
  induction l as [| y l IH]; simpl; [reflexivity |].
  destruct (Ladder.lt (key y) (key x)); [| reflexivity].
  rewrite IH. apply perm_swap.
Qed.

Lemma stable_sort_Permutation (l : list A) :
  Permutation (Ladder.stable_sort l key) l.
Proof.
  unfold Ladder.stable_sort. induction l as [| x l IH]; simpl; [reflexivity |].
  rewrite insert_lt_Permutation. now constructor.
Qed.

Lemma insert_lt_ascending (x : A) (l : list A) :
  Ladder.is_nan (key x) = false -> numbers l ->
  ascending l -> ascending (Ladder.insert_lt key x l).
Proof.
  intros Hx Hn Hs. induction Hs as [| y l Hs IH Hy]; simpl.
  - constructor; constructor.
  - apply Forall_cons in Hn. destruct Hn as [Hyn Hn].
    destruct (Ladder.lt (key y) (key x)) eqn:E.
    + constructor; [now apply IH |].
      apply ladder_lt_le in E.
      apply (Permutation_Forall (Permutation_sym (insert_lt_Permutation x l))).
      constructor; assumption.
    + apply ladder_not_lt_le in E; [| assumption | assumption].
      constructor; [constructor; assumption |].
      constructor; [exact E |].
      eapply Forall_impl; [exact Hy |].
      intros z Hz. eapply ladder_le_trans; eassumption.
Qed.

Lemma stable_sort_ascending (l : list A) :
  numbers l -> ascending (Ladder.stable_sort l key).
Proof.
  unfold Ladder.stable_sort. intros Hn.
  induction Hn as [| x l Hx Hn IH]; simpl; [constructor |].
  apply insert_lt_ascending; [exact Hx | | exact IH].
  unfold numbers.
  apply (Permutation_Forall (Permutation_sym (stable_sort_Permutation l))). exact Hn.
Qed.

Lemma no_steps_down_ascending (l : list A) :
  numbers l -> Ladder.steps_down key l = false -> ascending l.
Proof.
  intros Hn. induction Hn as [| x l Hx Hn IH]; intros Hd; [constructor |].
  destruct l as [| y l]; [constructor; constructor |].
  cbn [Ladder.steps_down] in Hd. apply orb_false_iff in Hd.
  destruct Hd as [Hxy Hd]. specialize (IH Hd).
  constructor; [exact IH |].
  apply Forall_cons in Hn. destruct Hn as [Hy Hn].
  apply ladder_not_lt_le in Hxy; [| assumption | assumption].
  constructor; [exact Hxy |].
  apply StronglySorted_inv in IH. destruct IH as [_ Hall].
  eapply Forall_impl; [exact Hall |].
  intros z Hz. eapply ladder_le_trans; eassumption.
Qed.

Lemma ladder_sorted_returns (l : list A) :
  numbers l -> exists l', Ladder.sorted l key = Some l'.
Proof.
  intros Hn. unfold Ladder.sorted.
  destruct (negb (Ladder.steps_down key l)); [now eexists |].
  assert (E : forallb (fun x => negb (Ladder.is_nan (key x))) l = true).
  { apply forallb_forall. intros x Hx.
    unfold numbers in Hn. rewrite Forall_forall in Hn. apply list_elem_of_In in Hx.
    now rewrite (Hn x Hx). }
  rewrite E. now eexists.
Qed.

Lemma ladder_sorted_Permutation (l l' : list A) :
  Ladder.sorted l key = Some l' -> Permutation l' l.
Proof.
  unfold Ladder.sorted.
  destruct (negb (Ladder.steps_down key l)); [now intros [= <-] |].
  destruct (forallb _ l); [| discriminate].
  intros [= <-]. apply stable_sort_Permutation.
Qed.

Lemma ladder_sorted_ascending (l l' : list A) :
  numbers l -> Ladder.sorted l key = Some l' -> ascending l'.
Proof.
  intros Hn. unfold Ladder.sorted.
  destruct (negb (Ladder.steps_down key l)) eqn:E.
  - intros [= <-]. apply no_steps_down_ascending; [exact Hn |].
    now apply negb_true_iff in E.
  - destruct (forallb _ l); [| discriminate].
    intros [= <-]. now apply stable_sort_ascending.
Qed.

Variable f : A -> bool.

Hypothesis same_key :
  forall a c, f a = true -> f c = true -> Ladder.lt (key c) (key a) = false.

Lemma insert_lt_filter (x : A) (l : list A) :
  List.filter f (Ladder.insert_lt key x l) = List.filter f (x :: l).
Proof.
  induction l as [| y l IH]; [reflexivity |].
  cbn [Ladder.insert_lt]. destruct (Ladder.lt (key y) (key x)) eqn:E; [| reflexivity].
  cbn [List.filter] in *. rewrite IH.
  destruct (f x) eqn:Ex, (f y) eqn:Ey; try reflexivity.
  rewrite (same_key x y Ex Ey) in E. discriminate.
Qed.

Lemma ladder_sorted_filter (l l' : list A) :
  Ladder.sorted l key = Some l' -> List.filter f l' = List.filter f l.
Proof.
  unfold Ladder.sorted.
  destruct (negb (Ladder.steps_down key l)); [now intros [= <-] |].
  destruct (forallb _ l); [| discriminate].
  intros [= <-]. unfold Ladder.stable_sort.
  induction l as [| x l IH]; [reflexivity |].
  cbn [foldr]. rewrite insert_lt_filter. cbn [List.filter]. now rewrite IH.
Qed.

End LadderSort.

Lemma ladder_same_price_asc {V : Type} (px : Ladder.pykey) (a c : Ladder.Level V) :
  Ladder.eqb (Ladder.price a) px = true -> Ladder.eqb (Ladder.price c) px = true ->
  Ladder.lt (Ladder.price c) (Ladder.price a) = false.
Proof.
  intros Ha Hc. apply ladder_eqb_le in Ha, Hc.
  apply ladder_le_lt_false. eapply ladder_le_trans; [apply Ha | apply Hc].
Qed.

Lemma ladder_same_price_desc {V : Type} (px : Ladder.pykey) (a c : Ladder.Level V) :
  Ladder.eqb (Ladder.price a) px = true -> Ladder.eqb (Ladder.price c) px = true ->
  Ladder.lt (Ladder.neg (Ladder.price c)) (Ladder.neg (Ladder.price a)) = false.
Proof.
  intros Ha Hc. apply ladder_eqb_le in Ha, Hc.
  apply ladder_le_lt_false, ladder_le_neg.
  eapply ladder_le_trans; [apply Hc | apply Ha].
Qed.

Lemma ladders_built {V : Type} (product : string) (bs ss : list (Ladder.Level V)) :
  Ladder.no_nan bs -> Ladder.no_nan ss ->
  exists ob, Ladder.ladders product (Some bs) (Some ss) = Ladder.Built ob.
Proof.
  intros Hb Hs. unfold Ladder.ladders.
  destruct (ladder_sorted_returns (fun d => Ladder.neg (Ladder.price d)) bs)
    as [bs' ->].
  { eapply Forall_impl; [exact Hb |]. intros d Hd. cbn beta.
    now rewrite ladder_is_nan_neg. }
  destruct (ladder_sorted_returns (fun d : Ladder.Level V => Ladder.price d) ss Hs)
    as [ss' ->].
  now eexists.
Qed.

Lemma ladders_spec {V : Type} (product : string) (bs ss : list (Ladder.Level V))
    (ob : Ladder.OrderBook V) :
  Ladder.ladders product (Some bs) (Some ss) = Ladder.Built ob ->
  Ladder.ob_product ob = product /\
  Permutation (Ladder.buy_orders ob) bs /\
  Permutation (Ladder.sell_orders ob) ss /\
  (Ladder.no_nan bs -> Ladder.non_increasing (Ladder.buy_orders ob)) /\
  (Ladder.no_nan ss -> Ladder.non_decreasing (Ladder.sell_orders ob)) /\
  (forall px,
     Ladder.levels_at px (Ladder.buy_orders ob) = Ladder.levels_at px bs /\
     Ladder.levels_at px (Ladder.sell_orders ob) = Ladder.levels_at px ss).
Proof.
  unfold Ladder.ladders.
  destruct (Ladder.sorted bs _) as [bs' |] eqn:Eb; [| discriminate].
  destruct (Ladder.sorted ss _) as [ss' |] eqn:Es; [| discriminate].
  intros [= <-]. cbn [Ladder.ob_product Ladder.buy_orders Ladder.sell_orders].
  split; [reflexivity |].
  split; [exact (ladder_sorted_Permutation _ _ _ Eb) |].
  split; [exact (ladder_sorted_Permutation _ _ _ Es) |].
  split; [| split].
  - intros Hn. unfold Ladder.non_increasing.
    eapply StronglySorted_weaken;
      [| apply (ladder_sorted_ascending
                  (fun d : Ladder.Level V => Ladder.neg (Ladder.price d)) bs bs');
         [| exact Eb]].
    + intros a c H. exact (proj1 (ladder_le_neg _ _) H).
    + eapply Forall_impl; [exact Hn |]. intros d Hd. cbn beta.
      now rewrite ladder_is_nan_neg.
  - intros Hn.
    exact (ladder_sorted_ascending (fun d : Ladder.Level V => Ladder.price d)
             ss ss' Hn Es).
  - intros px. unfold Ladder.levels_at. split.
    + apply (ladder_sorted_filter
               (fun d : Ladder.Level V => Ladder.neg (Ladder.price d))
               (fun d => Ladder.eqb (Ladder.price d) px)
               (ladder_same_price_desc px) _ _ Eb).
    + apply (ladder_sorted_filter
               (fun d : Ladder.Level V => Ladder.price d)
               (fun d => Ladder.eqb (Ladder.price d) px)
               (ladder_same_price_asc px) _ _ Es).
Qed.

Lemma ladders_some {V : Type} (product : string)
    (buys sells : option (list (Ladder.Level V))) (ob : Ladder.OrderBook V) :
  Ladder.ladders product buys sells = Ladder.Built ob ->
  exists bs ss, buys = Some bs /\ sells = Some ss.
Proof.
  destruct buys as [bs |], sells as [ss |]; try discriminate.
  intros _. now exists bs, ss.
Qed.

Lemma ladders_without_nan {V : Type} (product : string)
    (buys sells : option (list (Ladder.Level V))) (ob : Ladder.OrderBook V) :
  Ladder.ladders product buys sells = Ladder.Built ob ->
  Ladder.no_nan (Ladder.buy_orders ob) -> Ladder.no_nan (Ladder.sell_orders ob) ->
  Ladder.non_increasing (Ladder.buy_orders ob) /\
  Ladder.non_decreasing (Ladder.sell_orders ob).
Proof.
  intros Hb Hnb Hns.
  destruct (ladders_some _ _ _ _ Hb) as [bs [ss [-> ->]]].
  destruct (ladders_spec _ _ _ _ Hb) as [_ [Pb [Ps [Sb [Ss _]]]]].
  split.
  - apply Sb. exact (Permutation_Forall Pb Hnb).
  - apply Ss. exact (Permutation_Forall Ps Hns).
Qed.

(** C8. Whenever one of the two wrappers builds a book none of whose prices
    is NaN, the bids of the book are in non-increasing and its asks in
    non-decreasing order of price, for prices that are finite or infinite;
    and a message whose two sides convert without an exception to levels
    without a NaN price always gets a book. *)
Theorem ladders_sorted_without_nan {Json : Type}
    (float_str : string -> option Ladder.pykey)
    (float_val : Json -> option Ladder.pykey) (int_val : Json -> option Z)
    (raw : Ladder.RawBook Json) :
  (forall ob,
     Ladder.normalize_orderbook float_str float_val int_val raw = Ladder.Built ob ->
     Ladder.no_nan (Ladder.buy_orders ob) -> Ladder.no_nan (Ladder.sell_orders ob) ->
     Ladder.non_increasing (Ladder.buy_orders ob) /\
     Ladder.non_decreasing (Ladder.sell_orders ob)) /\
  (forall ob,
     Ladder.improved_orderbook float_str raw = Ladder.Built ob ->
     Ladder.no_nan (Ladder.buy_orders ob) -> Ladder.no_nan (Ladder.sell_orders ob) ->
     Ladder.non_increasing (Ladder.buy_orders ob) /\
     Ladder.non_decreasing (Ladder.sell_orders ob)) /\
  (forall bs ss,
     Ladder.transform float_str float_val int_val
       (default [] (Ladder.raw_buyOrders raw)) = Some bs ->
     Ladder.transform float_str float_val int_val
       (default [] (Ladder.raw_sellOrders raw)) = Some ss ->
     Ladder.no_nan bs -> Ladder.no_nan ss ->
     exists ob,
       Ladder.normalize_orderbook float_str float_val int_val raw = Ladder.Built ob) /\
  (forall bs ss,
     Ladder.collect (Ladder.improved_level float_str)
       (default [] (Ladder.raw_buyOrders raw)) = Some bs ->
     Ladder.collect (Ladder.improved_level float_str)
       (default [] (Ladder.raw_sellOrders raw)) = Some ss ->
     Ladder.no_nan bs -> Ladder.no_nan ss ->
     exists ob, Ladder.improved_orderbook float_str raw = Ladder.Built ob).
Proof.
  split; [| split; [| split]].
  - intros ob. apply ladders_without_nan.
  - intros ob. apply ladders_without_nan.
  - intros bs ss Eb Es Hb Hs. unfold Ladder.normalize_orderbook.
    rewrite Eb, Es. now apply ladders_built.
  - intros bs ss Eb Es Hb Hs. unfold Ladder.improved_orderbook.
    rewrite Eb, Es. now apply ladders_built.
Qed.

Lemma ladders_sorted_without_nan_witness :
  exists ob,
    Ladder.normalize_orderbook Ladder.demo_float
      (fun z : Z => Some (Ladder.Num (inject_Z z))) Some Ladder.plain_book
    = Ladder.Built ob /\
    Ladder.price <$> Ladder.buy_orders ob
    = [Ladder.Num 101; Ladder.Num 101; Ladder.Num 100] /\
    Ladder.non_increasing (Ladder.buy_orders ob) /\
    Ladder.non_decreasing (Ladder.sell_orders ob).
Proof.
  eexists. split; [vm_compute; reflexivity |].
  split; [reflexivity |].
  apply (proj1 (ladders_sorted_without_nan Ladder.demo_float
                  (fun z : Z => Some (Ladder.Num (inject_Z z))) Some
                  Ladder.plain_book)).
  - vm_compute. reflexivity.
  - repeat constructor.
  - repeat constructor.
Defined.

(** C8 fails as stated: with a price key that reads as NaN the order is
    lost.  From bids keyed 100, nan, 101 both wrappers build a ladder with
    the level at 100 before the level at 101, and from asks keyed 101, nan,
    100 one with the level at 101 before the level at 100. *)
Lemma nan_key_breaks_order :
  exists (ob : Ladder.OrderBook Z) (ob' : Ladder.OrderBook Z),
    Ladder.normalize_orderbook Ladder.demo_float
      (fun z : Z => Some (Ladder.Num (inject_Z z))) Some Ladder.nan_book
    = Ladder.Built ob /\
    Ladder.improved_orderbook Ladder.demo_float Ladder.nan_book = Ladder.Built ob' /\
    Ladder.price <$> Ladder.buy_orders ob
    = [Ladder.Num 100; Ladder.NotANumber; Ladder.Num 101] /\
    Ladder.price <$> Ladder.sell_orders ob
    = [Ladder.Num 101; Ladder.NotANumber; Ladder.Num 100] /\
    Ladder.price <$> Ladder.buy_orders ob' = Ladder.price <$> Ladder.buy_orders ob /\
    Ladder.price <$> Ladder.sell_orders ob' = Ladder.price <$> Ladder.sell_orders ob /\
    ~ (Ladder.non_increasing (Ladder.buy_orders ob) /\
       Ladder.non_decreasing (Ladder.sell_orders ob)) /\
    ~ (Ladder.non_increasing (Ladder.buy_orders ob') /\
       Ladder.non_decreasing (Ladder.sell_orders ob')).
Proof.
  eexists. eexists.
  split; [vm_compute; reflexivity |].
  split; [vm_compute; reflexivity |].
  split; [reflexivity | split; [reflexivity |]].
  split; [reflexivity | split; [reflexivity |]].
  split.
  - intros [H _]. apply StronglySorted_inv in H. destruct H as [_ H].
    apply Forall_cons in H. destruct H as [_ H].
    apply Forall_cons in H. destruct H as [H _].
    cbn in H. apply Qle_bool_iff in H. vm_compute in H. discriminate.
  - intros [H _]. apply StronglySorted_inv in H. destruct H as [_ H].
    apply Forall_cons in H. destruct H as [_ H].
    apply Forall_cons in H. destruct H as [H _].
    cbn in H. apply Qle_bool_iff in H. vm_compute in H. discriminate.
Qed.

Lemma collect_length {Json L : Type}
    (f : string -> Ladder.RawLevel Json -> option L)
    (side : list (string * Ladder.RawLevel Json)) (ls : list L) :
  Ladder.collect f side = Some ls -> length ls = length side.
Proof.
  revert ls. induction side as [| [price_s vi] side IH]; intros ls.
  - now intros [= <-].
  - cbn [Ladder.collect]. destruct (f price_s vi) as [l |]; [| discriminate].
    destruct (Ladder.collect f side) as [ls' |]; [| discriminate].
    intros [= <-]. cbn [length]. now rewrite (IH ls' eq_refl).
Qed.

(** X10. Whenever the wrapper of [im.py] builds a book, every item of each
    raw side has converted without an exception, and each side of the book
    holds exactly the converted levels of its raw side, one per item: the
    sort neither drops nor repeats a level.  When no price of a side is
    NaN, its levels of equal price stay in the order of the raw message. *)
Theorem normalizer_keeps_every_level {Json : Type}
    (float_str : string -> option Ladder.pykey)
    (float_val : Json -> option Ladder.pykey) (int_val : Json -> option Z)
    (raw : Ladder.RawBook Json) (ob : Ladder.OrderBook Z) :
  Ladder.normalize_orderbook float_str float_val int_val raw = Ladder.Built ob ->
  exists bs ss : list (Ladder.Level Z),
    Ladder.transform float_str float_val int_val
      (default [] (Ladder.raw_buyOrders raw)) = Some bs /\
    Ladder.transform float_str float_val int_val
      (default [] (Ladder.raw_sellOrders raw)) = Some ss /\
    Permutation (Ladder.buy_orders ob) bs /\
    Permutation (Ladder.sell_orders ob) ss /\
    length (Ladder.buy_orders ob) = length (default [] (Ladder.raw_buyOrders raw)) /\
    length (Ladder.sell_orders ob) = length (default [] (Ladder.raw_sellOrders raw)) /\
    (Ladder.no_nan bs ->
     forall px, Ladder.levels_at px (Ladder.buy_orders ob) = Ladder.levels_at px bs) /\
    (Ladder.no_nan ss ->
     forall px, Ladder.levels_at px (Ladder.sell_orders ob) = Ladder.levels_at px ss).
Proof.
  unfold Ladder.normalize_orderbook. intros Hb.
  destruct (ladders_some _ _ _ _ Hb) as [bs [ss [Eb Es]]].
  rewrite Eb, Es in Hb.
  destruct (ladders_spec _ _ _ _ Hb) as [_ [Pb [Ps [_ [_ Hst]]]]].
  exists bs, ss.
  split; [exact Eb | split; [exact Es |]].
  split; [exact Pb | split; [exact Ps |]].
  split; [| split; [| split]].
  - rewrite (Permutation_length Pb). exact (collect_length _ _ _ Eb).
  - rewrite (Permutation_length Ps). exact (collect_length _ _ _ Es).
  - intros _ px. apply Hst.
  - intros _ px. apply Hst.
Qed.

Lemma normalizer_keeps_every_level_witness :
  exists ob : Ladder.OrderBook Z,
    Ladder.normalize_orderbook Ladder.demo_float
      (fun z : Z => Some (Ladder.Num (inject_Z z))) Some Ladder.plain_book
    = Ladder.Built ob /\
    Ladder.volume <$> Ladder.levels_at (Ladder.Num 101) (Ladder.buy_orders ob)
    = [5%Z; 7%Z] /\
    length (Ladder.buy_orders ob) = 3%nat.
Proof.
  eexists. split; [vm_compute; reflexivity |].
  destruct (normalizer_keeps_every_level Ladder.demo_float
              (fun z : Z => Some (Ladder.Num (inject_Z z))) Some Ladder.plain_book
              _ eq_refl) as [bs [ss [Eb [_ [_ [_ [Hl [_ [Hst _]]]]]]]]].
  vm_compute in Eb. injection Eb as <-.
  split; [| exact Hl].
  rewrite Hst by (repeat constructor). vm_compute. reflexivity.
Defined.

(** ** The two models of the wrapper agree on rational prices *)

Lemma Qleb_not_Qltb (x y : Q) : Qleb x y = negb (Qltb y x).
Proof.
  unfold Qleb, Qltb. rewrite <- (Qcompare_antisym x y).
  now destruct (x ?= y)%Q.
Qed.

Section Agreement.

Context (key : Level -> Q) (key' : Ladder.Level Z -> Ladder.pykey).

Hypothesis key_ok : forall l, key' (ladder_level l) = Ladder.Num (key l).

Lemma insert_lt_ladder (x : Level) (l : list Level) :
  Ladder.insert_lt key' (ladder_level x) (ladder_level <$> l)
  = ladder_level <$> insert_by key x l.
Proof.
  induction l as [| y l IH]; [reflexivity |].
  cbn [fmap list_fmap Ladder.insert_lt insert_by].
  rewrite !key_ok. cbn [Ladder.lt]. rewrite Qleb_not_Qltb.
  destruct (Qltb (key y) (key x)); cbn [negb fmap list_fmap].
  - f_equal. exact IH.
  - reflexivity.
Qed.

Lemma stable_sort_ladder (l : list Level) :
  Ladder.stable_sort (ladder_level <$> l) key' = ladder_level <$> sorted l key.
Proof.
  unfold Ladder.stable_sort, sorted.
  induction l as [| x l IH]; [reflexivity |].
  cbn [fmap list_fmap foldr]. rewrite IH. apply insert_lt_ladder.
Qed.

Lemma sorted_in_order (l : list Level) :
  Ladder.steps_down key' (ladder_level <$> l) = false -> sorted l key = l.
Proof.
  unfold sorted. induction l as [| x l IH]; [reflexivity |].
  destruct l as [| y l]; [reflexivity |].
  intros H.
  change (Ladder.lt (key' (ladder_level y)) (key' (ladder_level x))
          || Ladder.steps_down key' (ladder_level <$> y :: l) = false) in H.
  apply orb_false_iff in H. destruct H as [Hxy Hd].
  rewrite !key_ok in Hxy. cbn [Ladder.lt] in Hxy.
  cbn [foldr] in *. rewrite (IH Hd). cbn [insert_by].
  now rewrite Qleb_not_Qltb, Hxy.
Qed.

Lemma sorted_ladder (l : list Level) :
  Ladder.sorted (ladder_level <$> l) key' = Some (ladder_level <$> sorted l key).
Proof.
  unfold Ladder.sorted.
  destruct (Ladder.steps_down key' (ladder_level <$> l)) eqn:E; cbn [negb].
  - assert (Hn : forallb (fun x => negb (Ladder.is_nan (key' x))) (ladder_level <$> l)
                 = true).
    { apply forallb_forall. intros d Hd. apply in_map_iff in Hd.
      destruct Hd as [x [<- _]]. now rewrite key_ok. }
    rewrite Hn. now rewrite stable_sort_ladder.
  - now rewrite (sorted_in_order l E).
Qed.

End Agreement.

Lemma transform_ladder (env : Env) (side : list (string * RawLevel)) :
  Ladder.transform (fun s => Ladder.Num <$> py_float env s) rational_float
    rational_int (json_side side)
  = Some (ladder_level <$> transform env side).
Proof.
  unfold Ladder.transform, transform, json_side.
  induction side as [| [price_s vi] side IH]; [reflexivity |].
  cbn [fmap list_fmap Ladder.collect fst snd]. rewrite IH.
  unfold Ladder.transform_level, transform_level, json_level, ladder_level.
  cbn [Ladder.vi_price Ladder.vi_marketVolume Ladder.vi_volume Ladder.vi_userVolume
       price volume own_volume].
  destruct (py_float env price_s) as [q |], (vi_price vi) as [pq |],
    (vi_marketVolume vi) as [mv |], (vi_volume vi) as [vv |],
    (vi_userVolume vi) as [uv |]; reflexivity.
Qed.

(** On a message whose prices are rationals and whose volumes are integers,
    the wrapper with every float builds the book of [normalize_orderbook]. *)
Lemma normalize_orderbook_ladder (env : Env) (raw : RawBook) :
  Ladder.normalize_orderbook (fun s => Ladder.Num <$> py_float env s)
    rational_float rational_int (json_book raw)
  = Ladder.Built (ladder_book (normalize_orderbook env raw)).
Proof.
  unfold Ladder.normalize_orderbook, normalize_orderbook, json_book, ladder_book.
  cbn [Ladder.raw_productsymbol Ladder.raw_product Ladder.raw_buyOrders
       Ladder.raw_sellOrders ob_product buy_orders sell_orders].
  assert (Hs : forall o : option (list (string * RawLevel)),
            default [] (json_side <$> o) = json_side (default [] o))
    by (now intros [side |]).
  rewrite !Hs, !transform_ladder. unfold Ladder.ladders.
  rewrite (sorted_ladder (fun d => (- price d)%Q)
             (fun d => Ladder.neg (Ladder.price d))) by reflexivity.
  rewrite (sorted_ladder (fun d => price d) (fun d => Ladder.price d)) by reflexivity.
  reflexivity.
Qed.

(** X11. [_on_orderbook_wrapper] never raises.  For a message whose price
    keys read as finite numbers and whose volumes are integers, which is a
    message that the wrapper with every float turns into the book of
    [normalize_orderbook]: when both sides hold a level and the product has
    a history, the handler appends to that history half the sum of the
    highest bid price and the lowest ask price of the message (with the
    eviction at 200 entries) and changes nothing else; when a side is empty
    or the product has no history, it leaves the bot as it was. *)
Theorem orderbook_mid_from_best_levels (env : Env) (raw : RawBook) (b : Bot) :
  let ob := normalize_orderbook env raw in
  Ladder.normalize_orderbook (fun s => Ladder.Num <$> py_float env s)
    rational_float rational_int (json_book raw)
  = Ladder.Built (ladder_book ob) /\
  fst (_on_orderbook_wrapper env raw b) = Ok tt /\
  match buy_orders ob, sell_orders ob, recent_mid b !! ob_product ob with
  | bid :: _, ask :: _, Some hist =>
      (forall l, In l (transform env (default [] (raw_buyOrders raw))) ->
                 (price l <= price bid)%Q) /\
      (forall l, In l (transform env (default [] (raw_sellOrders raw))) ->
                 (price ask <= price l)%Q) /\
      snd (_on_orderbook_wrapper env raw b)
      = set_recent_mid
          (fun m => <[ob_product ob :=
                        push_mid hist ((1 # 2) * (price bid + price ask))]> m) b
  | _, _, _ => snd (_on_orderbook_wrapper env raw b) = b
  end.
Proof.
  cbv zeta. split; [apply normalize_orderbook_ladder |]. split.
  - unfold _on_orderbook_wrapper, try_except.
    match goal with
    | |- fst (let (_, _) := ?m b in _) = _ => now destruct (m b) as [r b']
    end.
  - unfold _on_orderbook_wrapper, try_except, on_orderbook, record_mid.
    destruct (buy_orders (normalize_orderbook env raw)) as [| bid bids] eqn:Eb;
      [reflexivity |].
    destruct (sell_orders (normalize_orderbook env raw)) as [| ask asks] eqn:Es;
      [reflexivity |].
    destruct (recent_mid b !! ob_product (normalize_orderbook env raw))
      as [hist |] eqn:Eh.
    + split; [| split].
      * intros l Hl. cbn [normalize_orderbook buy_orders] in Eb.
        pose proof (sorted_head_least _ _ _ _ Eb l Hl) as H. cbn beta in H.
        apply Qopp_le_compat in H. now rewrite !Qopp_involutive in H.
      * intros l Hl. cbn [normalize_orderbook sell_orders] in Es.
        exact (sorted_head_least _ _ _ _ Es l Hl).
      * run_bot. rewrite Eh. reflexivity.
    + run_bot. rewrite Eh. reflexivity.
Qed.
